(** * Build-pod orchestrator of flotio-dev/core-api

    A shallow embedding of [pkg/kubernetes/resources.go] and
    [pkg/kubernetes/pod.go], of the part of the build script that places the
    mounted environment files, and of the Go runtime, database and cluster
    behaviour these rely on.

    Go strings are byte sequences: they are modelled as [string], a list of
    [ascii] used as bytes.  A [uint] is an [N]; an [int] and a [rune] are a
    [Z]. *)

From Stdlib Require Import ZArith NArith Ascii String List Lia Bool Zbitwise.
From Stdlib Require Import DecimalString DecimalN DecimalZ DecimalFacts.
From stdpp Require Import gmap strings.

Local Open Scope Z_scope.

(* ===================================================================== *)
(** * The Go runtime: bytes, UTF-8, decimal formatting                    *)
(* ===================================================================== *)

Module Go.

(** The numeric value of a byte, and the conversion [byte(z)]. *)
Definition byteZ (c : ascii) : Z := Z.of_N (N_of_ascii c).
Definition Zbyte (z : Z) : ascii := ascii_of_N (Z.to_N (z mod 256)).

(** ** unicode/utf8 *)

Definition RuneError : Z := 0xFFFD.
Definition MaxRune : Z := 0x10FFFF.
Definition surrogateMin : Z := 0xD800.
Definition surrogateMax : Z := 0xDFFF.

Definition tx : Z := 0x80.
Definition t2 : Z := 0xC0.
Definition t3 : Z := 0xE0.
Definition t4 : Z := 0xF0.

Definition maskx : Z := 0x3F.
Definition mask2 : Z := 0x1F.
Definition mask3 : Z := 0x0F.
Definition mask4 : Z := 0x07.

Definition rune1Max : Z := 0x7F.
Definition rune2Max : Z := 0x7FF.
Definition rune3Max : Z := 0xFFFF.

Definition locb : Z := 0x80.
Definition hicb : Z := 0xBF.

(** Codes of the table [first]: the low three bits are the size of the
    encoding, the high four bits index [acceptRanges]. *)
Definition xx : Z := 0xF1.
Definition as_ : Z := 0xF0.
Definition s1 : Z := 0x02.
Definition s2 : Z := 0x13.
Definition s3 : Z := 0x03.
Definition s4 : Z := 0x23.
Definition s5 : Z := 0x34.
Definition s6 : Z := 0x04.
Definition s7 : Z := 0x44.

(** [first[b]], the table written out by ranges of the first byte. *)
Definition first (b : Z) : Z :=
  if b <? 0x80 then as_
  else if b <? 0xC2 then xx
  else if b <? 0xE0 then s1
  else if b =? 0xE0 then s2
  else if b <? 0xED then s3
  else if b =? 0xED then s4
  else if b <? 0xF0 then s3
  else if b =? 0xF0 then s5
  else if b <? 0xF4 then s6
  else if b =? 0xF4 then s7
  else xx.

Record acceptRange := { lo : Z; hi : Z }.

Definition acceptRanges (i : Z) : acceptRange :=
  if i =? 0 then {| lo := locb; hi := hicb |}
  else if i =? 1 then {| lo := 0xA0; hi := hicb |}
  else if i =? 2 then {| lo := locb; hi := 0x9F |}
  else if i =? 3 then {| lo := 0x90; hi := hicb |}
  else if i =? 4 then {| lo := locb; hi := 0x8F |}
  else {| lo := 0; hi := 0 |}.

(** [utf8.DecodeRuneInString]: the first rune of [s] and its width in bytes.
    The test [n < sz] of the Go code is the empty-tail branch of each match:
    every failure returns the same [(RuneError, 1)]. *)
Definition DecodeRuneInString (s : string) : Z * nat :=
  match s with
  | EmptyString => (RuneError, 0%nat)
  | String c0 r0 =>
    let b0 := byteZ c0 in
    let x := first b0 in
    if as_ <=? x then
      (if x =? xx then RuneError else b0, 1%nat)
    else
      let sz := Z.land x 7 in
      let accept := acceptRanges (Z.shiftr x 4) in
      match r0 with
      | EmptyString => (RuneError, 1%nat)
      | String c1 r1 =>
        let b1 := byteZ c1 in
        if (b1 <? lo accept) || (hi accept <? b1) then (RuneError, 1%nat)
        else if sz <=? 2 then
          (Z.lor (Z.shiftl (Z.land b0 mask2) 6) (Z.land b1 maskx), 2%nat)
        else
          match r1 with
          | EmptyString => (RuneError, 1%nat)
          | String c2 r2 =>
            let b2 := byteZ c2 in
            if (b2 <? locb) || (hicb <? b2) then (RuneError, 1%nat)
            else if sz <=? 3 then
              (Z.lor (Z.lor (Z.shiftl (Z.land b0 mask3) 12)
                            (Z.shiftl (Z.land b1 maskx) 6))
                     (Z.land b2 maskx), 3%nat)
            else
              match r2 with
              | EmptyString => (RuneError, 1%nat)
              | String c3 _ =>
                let b3 := byteZ c3 in
                if (b3 <? locb) || (hicb <? b3) then (RuneError, 1%nat)
                else
                  (Z.lor (Z.lor (Z.lor (Z.shiftl (Z.land b0 mask4) 18)
                                       (Z.shiftl (Z.land b1 maskx) 12))
                                (Z.shiftl (Z.land b2 maskx) 6))
                         (Z.land b3 maskx), 4%nat)
              end
          end
      end
  end.

(** The conversion [string(r)] of a rune: its UTF-8 encoding, and the
    encoding of U+FFFD for a value that is no Unicode scalar value
    (the runtime's [encoderune]). *)
Definition runeString (r : Z) : string :=
  let i := r mod 2 ^ 32 in
  let enc3 (r : Z) :=
    String (Zbyte (Z.lor t3 (byteZ (Zbyte (Z.shiftr r 12)))))
   (String (Zbyte (Z.lor tx (Z.land (byteZ (Zbyte (Z.shiftr r 6))) maskx)))
   (String (Zbyte (Z.lor tx (Z.land (byteZ (Zbyte r)) maskx))) EmptyString)) in
  if i <=? rune1Max then String (Zbyte r) EmptyString
  else if i <=? rune2Max then
    String (Zbyte (Z.lor t2 (byteZ (Zbyte (Z.shiftr r 6)))))
   (String (Zbyte (Z.lor tx (Z.land (byteZ (Zbyte r)) maskx))) EmptyString)
  else if (MaxRune <? i) || ((surrogateMin <=? i) && (i <=? surrogateMax)) then
    enc3 RuneError
  else if i <=? rune3Max then enc3 r
  else
    String (Zbyte (Z.lor t4 (byteZ (Zbyte (Z.shiftr r 18)))))
   (String (Zbyte (Z.lor tx (Z.land (byteZ (Zbyte (Z.shiftr r 12))) maskx)))
   (String (Zbyte (Z.lor tx (Z.land (byteZ (Zbyte (Z.shiftr r 6))) maskx)))
   (String (Zbyte (Z.lor tx (Z.land (byteZ (Zbyte r)) maskx))) EmptyString))).

(** [utf8.ValidString]: no decoding step yields [RuneError] of width 1.
    [skip] counts the bytes of the current rune still to be passed over. *)
Fixpoint validFrom (skip : nat) (s : string) : bool :=
  match s with
  | EmptyString => true
  | String _ s' =>
    match skip with
    | S k => validFrom k s'
    | O =>
      let '(r, w) := DecodeRuneInString s in
      if (r =? RuneError) && (w =? 1)%nat then false
      else validFrom (Nat.pred w) s'
    end
  end.

Definition ValidString (s : string) : bool := validFrom 0 s.

(** ** fmt and strconv *)

(** [fmt.Sprintf("%d", n)] for [n : uint]. *)
Definition FormatUint (n : N) : string := NilEmpty.string_of_uint (N.to_uint n).

(** [strconv.Itoa(i)]. *)
Definition Itoa (i : Z) : string := NilEmpty.string_of_int (Z.to_int i).

(** The conversion [int(n)] of a [uint] on a 64-bit platform. *)
Definition int_of_uint (n : N) : Z :=
  let z := Z.of_N n mod 2 ^ 64 in
  if z <? 2 ^ 63 then z else z - 2 ^ 64.

(** ** Errors

    A Go [error] is [nil], written [None], or carries a message. *)
Abbreviation error := (option string).

(** ** encoding/base64, [StdEncoding] *)

Definition encodeStd : string :=
  "ABCDEFGHIJKLMNOPQRSTUVWXYZabcdefghijklmnopqrstuvwxyz0123456789+/".

Definition padChar : ascii := "="%char.

(** [enc.encode[v]] *)
Definition encodeChar (v : Z) : ascii :=
  match String.get (Z.to_nat v) encodeStd with
  | Some c => c
  | None => "000"%char
  end.

Fixpoint indexFrom (i : Z) (c : ascii) (alphabet : string) : Z :=
  match alphabet with
  | EmptyString => 0xFF
  | String a rest => if Ascii.eqb a c then i else indexFrom (i + 1) c rest
  end.

(** [enc.decodeMap[c]]: the index of [c] in the alphabet, 0xFF for a byte
    outside it. *)
Definition decodeMap (c : ascii) : Z := indexFrom 0 c encodeStd.

Definition isNewline (c : ascii) : bool :=
  Ascii.eqb c "010"%char || Ascii.eqb c "013"%char.

Fixpoint skipNewlines (s : string) : string :=
  match s with
  | EmptyString => EmptyString
  | String c rest => if isNewline c then skipNewlines rest else s
  end.

(** [EncodeToString]: three bytes at a time, the last group padded. *)
Fixpoint EncodeToString (src : string) : string :=
  match src with
  | EmptyString => EmptyString
  | String a EmptyString =>
    let val := Z.shiftl (byteZ a) 16 in
    String (encodeChar (Z.land (Z.shiftr val 18) 0x3F))
   (String (encodeChar (Z.land (Z.shiftr val 12) 0x3F))
   (String padChar (String padChar EmptyString)))
  | String a (String b EmptyString) =>
    let val := Z.lor (Z.shiftl (byteZ a) 16) (Z.shiftl (byteZ b) 8) in
    String (encodeChar (Z.land (Z.shiftr val 18) 0x3F))
   (String (encodeChar (Z.land (Z.shiftr val 12) 0x3F))
   (String (encodeChar (Z.land (Z.shiftr val 6) 0x3F))
   (String padChar EmptyString)))
  | String a (String b (String c rest)) =>
    let val := Z.lor (Z.lor (Z.shiftl (byteZ a) 16) (Z.shiftl (byteZ b) 8))
                     (byteZ c) in
    String (encodeChar (Z.land (Z.shiftr val 18) 0x3F))
   (String (encodeChar (Z.land (Z.shiftr val 12) 0x3F))
   (String (encodeChar (Z.land (Z.shiftr val 6) 0x3F))
   (String (encodeChar (Z.land val 0x3F)) (EncodeToString rest))))
  end.

(** The bytes of one quantum: [dbuf] holds the [dlen] six-bit values read,
    the missing ones being 0; [dlen - 1] bytes come out. *)
Definition quantumBytes (dbuf : list Z) : string :=
  let d i := List.nth i dbuf 0 in
  let val := Z.lor (Z.lor (Z.lor (Z.shiftl (d 0%nat) 18) (Z.shiftl (d 1%nat) 12))
                          (Z.shiftl (d 2%nat) 6)) (d 3%nat) in
  let b2 := Zbyte (Z.shiftr val 0) in
  let b1 := Zbyte (Z.shiftr val 8) in
  let b0 := Zbyte (Z.shiftr val 16) in
  match List.length dbuf with
  | 4%nat => String b0 (String b1 (String b2 EmptyString))
  | 3%nat => String b0 (String b1 EmptyString)
  | 2%nat => String b0 EmptyString
  | _ => EmptyString
  end.

Definition CorruptInputError : string := "illegal base64 data".

(** [DecodeString], one input byte at a time ([decodeQuantum] run over the
    whole input): [dbuf] is the quantum being read, [dst] the bytes decoded
    so far.  Newlines are passed over, padding must complete the last
    quantum and be followed by newlines only, and the input must not end
    inside a quantum.  The error is [CorruptInputError]; the byte offset its
    message carries in Go is left out. *)
Fixpoint decodeFrom (src : string) (dbuf : list Z) (dst : string)
  : string * error :=
  match src with
  | EmptyString =>
    match dbuf with
    | [] => (dst, None)
    | _ => (dst, Some CorruptInputError)
    end
  | String c rest =>
    let out := decodeMap c in
    if negb (out =? 0xFF) then
      let dbuf' := dbuf ++ [out] in
      if (List.length dbuf' =? 4)%nat
      then decodeFrom rest [] (dst +:+ quantumBytes dbuf')
      else decodeFrom rest dbuf' dst
    else if isNewline c then decodeFrom rest dbuf dst
    else if negb (Ascii.eqb c padChar) then (dst, Some CorruptInputError)
    else
      match List.length dbuf with
      | 2%nat =>
        match skipNewlines rest with
        | EmptyString => (dst, Some CorruptInputError)
        | String c' rest' =>
          if negb (Ascii.eqb c' padChar) then (dst, Some CorruptInputError)
          else
            match skipNewlines rest' with
            | EmptyString => (dst +:+ quantumBytes dbuf, None)
            | _ => (dst +:+ quantumBytes dbuf, Some CorruptInputError)
            end
        end
      | 3%nat =>
        match skipNewlines rest with
        | EmptyString => (dst +:+ quantumBytes dbuf, None)
        | _ => (dst +:+ quantumBytes dbuf, Some CorruptInputError)
        end
      | _ => (dst, Some CorruptInputError)
      end
  end.

Definition DecodeString (s : string) : string * error :=
  decodeFrom s [] EmptyString.

End Go.

(* ===================================================================== *)
(** * The database: [pkg/db/models.go] and the gorm queries used          *)
(* ===================================================================== *)

Module db.

(** [gorm.Model]: the primary key and the soft-delete mark (the two
    timestamps [CreatedAt] and [UpdatedAt] play no role here). *)
Module Model.
Record t := mk { ID : N; DeletedAt : option Z }.
End Model.

Module Project.
Record t := mk {
  Model : Model.t;
  Name : string;
  GitRepo : string;
  BuildFolder : string;
  FlutterVersion : string;
  UserID : N
}.
Definition ID (p : t) : N := Model.ID (Model p).
End Project.

Module Env.
Record t := mk {
  Model : Model.t;
  ProjectID : N;
  Key : string;
  Value : string;
  Type_ : string;
  Path : string;
  IsBase64 : bool
}.
End Env.

Module Keystore.
Record t := mk {
  Model : Model.t;
  ProjectID : N;
  Name : string;
  KeystoreFile : string;
  StorePassword : string;
  KeyAlias : string;
  KeyPassword : string;
  IsActive : bool
}.
End Keystore.

(** The two queries the package issues. *)
Inductive Query :=
| EnvsOfType (projectID : N) (type : string)
| ActiveKeystore (projectID : N).

(** A connection [*gorm.DB]: the rows of the two tables, and for each query
    the error the server answers with, if any (connection lost, missing
    table, ...). *)
Record Conn := mkConn {
  envs : list Env.t;
  keystores : list Keystore.t;
  fault : Query -> Go.error
}.

Definition live (m : Model.t) : bool :=
  match Model.DeletedAt m with None => true | Some _ => false end.

(** [DB.Where("project_id = ? AND type = ?", projectID, type).Find(&envs)]:
    the rows that match and are not soft-deleted, or the error. *)
Definition FindEnvs (c : Conn) (projectID : N) (type : string)
  : list Env.t * Go.error :=
  match fault c (EnvsOfType projectID type) with
  | Some e => ([], Some e)
  | None =>
    (List.filter (fun e => live (Env.Model e)
                           && (Env.ProjectID e =? projectID)%N
                           && String.eqb (Env.Type_ e) type) (envs c), None)
  end.

(** The row of least primary key. *)
Fixpoint leastID (rows : list Keystore.t) : option Keystore.t :=
  match rows with
  | [] => None
  | k :: rest =>
    match leastID rest with
    | Some k' =>
      if (Model.ID (Keystore.Model k') <? Model.ID (Keystore.Model k))%N
      then Some k' else Some k
    | None => Some k
    end
  end.

Definition ErrRecordNotFound : string := "record not found".

(** [DB.Where("project_id = ? AND is_active = ?", projectID, true)
       .First(&keystore)]: the matching row of least primary key,
    [ErrRecordNotFound] when there is none, or the server's error. *)
Definition FirstActiveKeystore (c : Conn) (projectID : N)
  : Keystore.t + string :=
  match fault c (ActiveKeystore projectID) with
  | Some e => inr e
  | None =>
    match leastID (List.filter (fun k => live (Keystore.Model k)
                                  && (Keystore.ProjectID k =? projectID)%N
                                  && Keystore.IsActive k) (keystores c)) with
    | Some k => inl k
    | None => inr ErrRecordNotFound
    end
  end.

End db.

(* ===================================================================== *)
(** * The cluster objects ([k8s.io/api/core/v1])                          *)
(* ===================================================================== *)

Module v1.

Module ObjectMeta.
Record t := mk {
  Name : string;
  Namespace : string;
  Labels : gmap string string
}.
End ObjectMeta.

Module ConfigMap.
Record t := mk { ObjectMeta : ObjectMeta.t; Data : gmap string string }.
End ConfigMap.

Module Secret.
Record t := mk {
  ObjectMeta : ObjectMeta.t;
  Type_ : string;
  Data : gmap string string;
  StringData : gmap string string
}.
End Secret.

Module PersistentVolumeClaim.
Record t := mk {
  ObjectMeta : ObjectMeta.t;
  AccessModes : list string;
  StorageClassName : option string;
  Requests : gmap string string
}.
End PersistentVolumeClaim.

Module SecretKeySelector.
Record t := mk { Name : string; Key : string }.
End SecretKeySelector.

Module EnvVarSource.
Record t := mk { SecretKeyRef : option SecretKeySelector.t }.
End EnvVarSource.

Module EnvVar.
Record t := mk {
  Name : string;
  Value : string;
  ValueFrom : option EnvVarSource.t
}.
End EnvVar.

Module VolumeMount.
Record t := mk { Name : string; MountPath : string; ReadOnly : bool }.
End VolumeMount.

(** The volume sources in use; exactly one is set in a [v1.VolumeSource]. *)
Inductive VolumeSource :=
| PersistentVolumeClaimSource (ClaimName : string)
| ConfigMapSource (Name : string)
| SecretSource (SecretName : string).

Module Volume.
Record t := mk { Name : string; Source : VolumeSource }.
End Volume.

Module ResourceRequirements.
Record t := mk { Requests : gmap string string; Limits : gmap string string }.
End ResourceRequirements.

Module Container.
Record t := mk {
  Name : string;
  Image : string;
  Env : list EnvVar.t;
  VolumeMounts : list VolumeMount.t;
  Resources : ResourceRequirements.t
}.
End Container.

Module PodSpec.
Record t := mk {
  RestartPolicy : string;
  Containers : list Container.t;
  Volumes : list Volume.t
}.
End PodSpec.

Module Pod.
Record t := mk {
  ObjectMeta : ObjectMeta.t;
  Spec : PodSpec.t;
  Phase : string
}.
End Pod.

Module PodLogOptions.
Record t := mk { Container : string; Follow : bool }.
End PodLogOptions.

Definition SecretTypeOpaque : string := "Opaque".
Definition ReadWriteOnce : string := "ReadWriteOnce".
Definition RestartPolicyNever : string := "Never".
Definition ResourceCPU : string := "cpu".
Definition ResourceMemory : string := "memory".
Definition ResourceStorage : string := "storage".
Definition PodPending : string := "Pending".

End v1.

(* ===================================================================== *)
(** * The process and the cluster it talks to                             *)
(* ===================================================================== *)

Module rest.
Record Config := mkConfig {
  Host : string;
  BearerToken : string;
  Insecure : bool
}.
End rest.

Inductive Kind := Pods | ConfigMaps | Secrets | PersistentVolumeClaims.
Inductive Verb := Create | Delete | Get.

(** One request to the cluster API. *)
Record Request := mkRequest {
  verb : Verb;
  kind : Kind;
  namespace : string;
  name : string
}.

(** The objects of the cluster, by namespace and name. *)
Record Cluster := mkCluster {
  pods : gmap (string * string) v1.Pod.t;
  configMaps : gmap (string * string) v1.ConfigMap.t;
  secrets : gmap (string * string) v1.Secret.t;
  pvcs : gmap (string * string) v1.PersistentVolumeClaim.t
}.

(** What a call of the package can read and change: the process
    environment, the global [db.DB] ([None] is the nil pointer), the
    cluster with the error it answers a request with besides "already
    exists" and "not found" ([apiFault]: connectivity, quota, policy), the
    requests sent so far and the lines printed. *)
Record World := mkWorld {
  Getenv : string -> string;
  InClusterConfig : rest.Config + string;
  NewForConfig : rest.Config -> Go.error;
  DB : option db.Conn;
  apiFault : Request -> Go.error;
  cluster : Cluster;
  requests : list Request;
  stdout : list string
}.

Definition setCluster (c : Cluster) (w : World) : World :=
  mkWorld (Getenv w) (InClusterConfig w) (NewForConfig w) (DB w) (apiFault w)
          c (requests w) (stdout w).

Definition addRequest (r : Request) (w : World) : World :=
  mkWorld (Getenv w) (InClusterConfig w) (NewForConfig w) (DB w) (apiFault w)
          (cluster w) (requests w ++ [r]) (stdout w).

Definition addOutput (line : string) (w : World) : World :=
  mkWorld (Getenv w) (InClusterConfig w) (NewForConfig w) (DB w) (apiFault w)
          (cluster w) (requests w) (stdout w ++ [line]).

Definition setPods m (c : Cluster) : Cluster :=
  mkCluster m (configMaps c) (secrets c) (pvcs c).
Definition setConfigMaps m (c : Cluster) : Cluster :=
  mkCluster (pods c) m (secrets c) (pvcs c).
Definition setSecrets m (c : Cluster) : Cluster :=
  mkCluster (pods c) (configMaps c) m (pvcs c).
Definition setPvcs m (c : Cluster) : Cluster :=
  mkCluster (pods c) (configMaps c) (secrets c) m.

(** ** Calls: a state monad over [World], with panics *)

Inductive Outcome (A : Type) :=
| Return (a : A)
| Panic (msg : string).
Arguments Return {A} a.
Arguments Panic {A} msg.

Definition M (A : Type) : Type := World -> Outcome A * World.

Definition ret {A} (a : A) : M A := fun w => (Return a, w).

Definition bind {A B} (c : M A) (k : A -> M B) : M B :=
  fun w =>
    match c w with
    | (Return a, w') => k a w'
    | (Panic msg, w') => (Panic msg, w')
    end.

Definition panic {A} (msg : string) : M A := fun w => (Panic msg, w).
Definition ask {A} (f : World -> A) : M A := fun w => (Return (f w), w).
Definition modify (f : World -> World) : M unit := fun w => (Return tt, f w).

Declare Scope go_scope.
Delimit Scope go_scope with go.
Notation "'let*' x := c 'in' k" := (bind c (fun x => k))
  (at level 10, x pattern, c at level 100, k at level 200) : go_scope.

(** ** The cluster API *)

Definition dquote : string := String (ascii_of_nat 34) EmptyString.
Definition newline : string := String (ascii_of_nat 10) EmptyString.

Definition resourceOf (k : Kind) : string :=
  match k with
  | Pods => "pods"
  | ConfigMaps => "configmaps"
  | Secrets => "secrets"
  | PersistentVolumeClaims => "persistentvolumeclaims"
  end.

Definition AlreadyExists (k : Kind) (name : string) : string :=
  resourceOf k +:+ " " +:+ dquote +:+ name +:+ dquote +:+ " already exists".
Definition NotFound (k : Kind) (name : string) : string :=
  resourceOf k +:+ " " +:+ dquote +:+ name +:+ dquote +:+ " not found".

Section API.
Context {A : Type}.
Variable k : Kind.
Variable objects : Cluster -> gmap (string * string) A.
Variable setObjects : gmap (string * string) A -> Cluster -> Cluster.

(** [Create]: refused with the fault of the request if there is one, with
    "already exists" if the name is taken; stores the object otherwise. *)
Definition apiCreate (ns name : string) (obj : A) : M Go.error :=
  fun w =>
    let r := mkRequest Create k ns name in
    let w := addRequest r w in
    match apiFault w r with
    | Some e => (Return (Some e), w)
    | None =>
      match objects (cluster w) !! (ns, name) with
      | Some _ => (Return (Some (AlreadyExists k name)), w)
      | None =>
        (Return None,
         setCluster (setObjects (<[(ns, name) := obj]> (objects (cluster w)))
                                (cluster w)) w)
      end
    end.

(** [Delete]: "not found" if there is no such object. *)
Definition apiDelete (ns name : string) : M Go.error :=
  fun w =>
    let r := mkRequest Delete k ns name in
    let w := addRequest r w in
    match apiFault w r with
    | Some e => (Return (Some e), w)
    | None =>
      match objects (cluster w) !! (ns, name) with
      | None => (Return (Some (NotFound k name)), w)
      | Some _ =>
        (Return None,
         setCluster (setObjects (delete (ns, name) (objects (cluster w)))
                                (cluster w)) w)
      end
    end.

Definition apiGet (ns name : string) : M (A + string) :=
  fun w =>
    let r := mkRequest Get k ns name in
    let w := addRequest r w in
    match apiFault w r with
    | Some e => (Return (inr e), w)
    | None =>
      match objects (cluster w) !! (ns, name) with
      | None => (Return (inr (NotFound k name)), w)
      | Some obj => (Return (inl obj), w)
      end
    end.

End API.

(** A pod starts in phase Pending. *)
Definition pending (p : v1.Pod.t) : v1.Pod.t :=
  v1.Pod.mk (v1.Pod.ObjectMeta p) (v1.Pod.Spec p) v1.PodPending.

Definition CreatePod ns (pod : v1.Pod.t) : M Go.error :=
  apiCreate Pods pods setPods ns
            (v1.ObjectMeta.Name (v1.Pod.ObjectMeta pod)) (pending pod).
Definition CreateConfigMap ns (cm : v1.ConfigMap.t) : M Go.error :=
  apiCreate ConfigMaps configMaps setConfigMaps ns
            (v1.ObjectMeta.Name (v1.ConfigMap.ObjectMeta cm)) cm.
Definition CreateSecret ns (sec : v1.Secret.t) : M Go.error :=
  apiCreate Secrets secrets setSecrets ns
            (v1.ObjectMeta.Name (v1.Secret.ObjectMeta sec)) sec.
Definition CreatePersistentVolumeClaim ns (pvc : v1.PersistentVolumeClaim.t)
  : M Go.error :=
  apiCreate PersistentVolumeClaims pvcs setPvcs ns
            (v1.ObjectMeta.Name (v1.PersistentVolumeClaim.ObjectMeta pvc)) pvc.

Definition DeletePod := apiDelete Pods pods setPods.
Definition DeleteConfigMap := apiDelete ConfigMaps configMaps setConfigMaps.
Definition DeleteSecret := apiDelete Secrets secrets setSecrets.
Definition DeletePersistentVolumeClaim :=
  apiDelete PersistentVolumeClaims pvcs setPvcs.
Definition GetPod := apiGet Pods pods.

(* ===================================================================== *)
(** * Package kubernetes: [resources.go] and [pod.go]                     *)
(* ===================================================================== *)

Module kubernetes.
Import Go.
Local Open Scope go_scope.

(** ** resources.go *)

Definition replaceAll_from (old new : string)
  : nat -> string -> string -> string :=
  fix loop (skip : nat) (s result : string) {struct s} : string :=
    match s with
    | EmptyString => result
    | String _ s' =>
      match skip with
      | S n => loop n s' result
      | O =>
        (* for _, char := range s *)
        let '(char, width) := DecodeRuneInString s in
        let result :=
          if String.eqb (runeString char) old
          then result +:+ new
          else result +:+ runeString char in
        loop (Nat.pred width) s' result
      end
    end.

(** [skip] counts the bytes of the current rune that the loop index still
    has to pass. *)
Definition replaceAll (s old new : string) : string :=
  replaceAll_from old new 0 s EmptyString.

(** [parseQuantity] keeps the text of the quantity. *)
Definition parseQuantity (s : string) : string := s.

(** The body of the loop over the file entries of
    [CreateConfigMapForEnvFiles]: the key and the content an entry is stored
    under, or the error that ends the call. *)
Definition envFileEntry (env : db.Env.t) : (string * string) * error :=
  let '(content, err) :=
    if db.Env.IsBase64 env then
      let '(decoded, err) := DecodeString (db.Env.Value env) in
      match err with
      | Some e =>
        (EmptyString,
         Some ("failed to decode base64 content for " +:+ db.Env.Key env
               +:+ ": " +:+ e))
      | None => (decoded, None)
      end
    else (db.Env.Value env, None) in
  match err with
  | Some e => ((EmptyString, EmptyString), Some e)
  | None =>
    let fileName :=
      if negb (String.eqb (db.Env.Path env) EmptyString) then
        let encodedPath :=
          List.fold_left
            (fun encodedPath '(old, new) => replaceAll encodedPath old new)
            [("/", "__")] (db.Env.Path env) in
        db.Env.Key env +:+ "::" +:+ encodedPath
      else db.Env.Key env in
    ((fileName, content), None)
  end.

(** [for _, env := range envs { ...; data[fileName] = content }] *)
Fixpoint envFilesData (envs : list db.Env.t) (data : gmap string string)
  : gmap string string * error :=
  match envs with
  | [] => (data, None)
  | env :: rest =>
    match envFileEntry env with
    | (_, Some e) => (data, Some e)
    | ((fileName, content), None) =>
      envFilesData rest (<[fileName := content]> data)
    end
  end.

Definition CreateConfigMapForEnvFiles (buildID projectID : N)
    (namespace : string) : M (string * error) :=
  let* DB := ask DB in
  match DB with
  | None => ret (EmptyString, None)
  | Some conn =>
    let '(envs, err) := db.FindEnvs conn projectID "file" in
    match err with
    | Some e =>
      ret (EmptyString, Some ("failed to fetch environment files: " +:+ e))
    | None =>
      if (List.length envs =? 0)%nat then ret (EmptyString, None)
      else
        let configMapName := "build-" +:+ FormatUint buildID +:+ "-env-files" in
        match envFilesData envs ∅ with
        | (_, Some e) => ret (EmptyString, Some e)
        | (data, None) =>
          let configMap :=
            v1.ConfigMap.mk
              (v1.ObjectMeta.mk configMapName namespace
                 (<["app" := "flotio-build"]>
                    (<["build-id" := FormatUint buildID]> ∅)))
              data in
          let* err := CreateConfigMap namespace configMap in
          match err with
          | Some e =>
            ret (EmptyString, Some ("failed to create ConfigMap: " +:+ e))
          | None => ret (configMapName, None)
          end
        end
    end
  end.

Definition CreateSecretForKeystore (buildID projectID : N)
    (namespace : string) : M (string * error) :=
  let* DB := ask DB in
  match DB with
  | None => ret (EmptyString, None)
  | Some conn =>
    match db.FirstActiveKeystore conn projectID with
    | inr _ => ret (EmptyString, None)
    | inl keystore =>
      let secretName := "build-" +:+ FormatUint buildID +:+ "-keystore" in
      let '(keystoreData, err) :=
        DecodeString (db.Keystore.KeystoreFile keystore) in
      match err with
      | Some e =>
        ret (EmptyString, Some ("failed to decode keystore file: " +:+ e))
      | None =>
        let secret :=
          v1.Secret.mk
            (v1.ObjectMeta.mk secretName namespace
               (<["app" := "flotio-build"]>
                  (<["build-id" := FormatUint buildID]> ∅)))
            v1.SecretTypeOpaque
            (<["keystore.jks" := keystoreData]> ∅)
            (<["store-password" := db.Keystore.StorePassword keystore]>
               (<["key-alias" := db.Keystore.KeyAlias keystore]>
                  (<["key-password" := db.Keystore.KeyPassword keystore]> ∅)))
        in
        let* err := CreateSecret namespace secret in
        match err with
        | Some e => ret (EmptyString, Some ("failed to create Secret: " +:+ e))
        | None => ret (secretName, None)
        end
      end
    end
  end.

Definition CreatePersistentVolumeClaimForArtifacts (buildID : N)
    (namespace : string) : M (string * error) :=
  let pvcName := "build-" +:+ FormatUint buildID +:+ "-artifacts" in
  let storageClassName := "standard" in
  let storage := "5Gi" in
  let pvc :=
    v1.PersistentVolumeClaim.mk
      (v1.ObjectMeta.mk pvcName namespace
         (<["app" := "flotio-build"]>
            (<["build-id" := FormatUint buildID]> ∅)))
      [v1.ReadWriteOnce]
      (Some storageClassName)
      (<[v1.ResourceStorage := parseQuantity storage]> ∅) in
  let* err := CreatePersistentVolumeClaim namespace pvc in
  match err with
  | Some e => ret (EmptyString, Some ("failed to create PVC: " +:+ e))
  | None => ret (pvcName, None)
  end.

Definition Printf (line : string) : M unit := modify (addOutput line).

Definition DeleteBuildResources (buildID : N) (namespace : string) : M error :=
  (* Delete Pod *)
  let podName := "build-" +:+ FormatUint buildID in
  let* err := DeletePod namespace podName in
  let* _ :=
    match err with
    | Some e =>
      Printf ("Warning: failed to delete pod " +:+ podName +:+ ": " +:+ e
              +:+ newline)
    | None => ret tt
    end in
  (* Delete ConfigMap *)
  let configMapName := "build-" +:+ FormatUint buildID +:+ "-env-files" in
  let* err := DeleteConfigMap namespace configMapName in
  let* _ :=
    match err with
    | Some e =>
      Printf ("Warning: failed to delete ConfigMap " +:+ configMapName +:+ ": "
              +:+ e +:+ newline)
    | None => ret tt
    end in
  (* Delete Secret *)
  let secretName := "build-" +:+ FormatUint buildID +:+ "-keystore" in
  let* err := DeleteSecret namespace secretName in
  let* _ :=
    match err with
    | Some e =>
      Printf ("Warning: failed to delete Secret " +:+ secretName +:+ ": "
              +:+ e +:+ newline)
    | None => ret tt
    end in
  (* Delete PVC *)
  let pvcName := "build-" +:+ FormatUint buildID +:+ "-artifacts" in
  let* err := DeletePersistentVolumeClaim namespace pvcName in
  let* _ :=
    match err with
    | Some e =>
      Printf ("Warning: failed to delete PVC " +:+ pvcName +:+ ": " +:+ e
              +:+ newline)
    | None => ret tt
    end in
  ret None.

(** ** pod.go

    The clientset a function receives in Go is the connection to the
    cluster of the [World]; it is not passed around here. *)

Module BuildConfig.
Record t := mk {
  BuildID : N;
  Project : db.Project.t;
  Platform : string;
  BuildMode : string;
  BuildTarget : string;
  FlutterChannel : string;
  GitBranch : string;
  GitUsername : string;
  GitPassword : string
}.
End BuildConfig.

Definition getKubernetesConfig : M (rest.Config + string) :=
  let* inCluster := ask InClusterConfig in
  match inCluster with
  | inl config => ret (inl config)
  | inr e =>
    let* apiURL := ask (fun w => Getenv w "KUBECTL_API") in
    let* token := ask (fun w => Getenv w "KUBECTL_TOKEN") in
    if String.eqb apiURL EmptyString || String.eqb token EmptyString then
      ret (inr ("failed to get in-cluster config and no external config provided: "
                +:+ e))
    else ret (inl (rest.mkConfig apiURL token true))
  end.

Definition getNamespace : M string :=
  let* namespace := ask (fun w => Getenv w "K8S_NAMESPACE") in
  if String.eqb namespace EmptyString then ret "default" else ret namespace.

Definition getFlutterBuildImage : M string :=
  let* image := ask (fun w => Getenv w "FLUTTER_BUILD_IMAGE") in
  if String.eqb image EmptyString then ret "flotio/flutter-build:latest"
  else ret image.

Definition getBuildMode (mode : string) : string :=
  if String.eqb mode EmptyString then "release" else mode.

Definition getBuildTarget (platform target : string) : string :=
  if negb (String.eqb target EmptyString) then target
  else if String.eqb platform "android" then "apk"
  else if String.eqb platform "ios" then "ios"
  else if String.eqb platform "web" then "web"
  else "apk".

Definition getFlutterChannel (channel : string) : string :=
  if String.eqb channel EmptyString || String.eqb channel "latest"
  then "stable" else channel.

Definition plainVar (name value : string) : v1.EnvVar.t :=
  v1.EnvVar.mk name value None.

Definition secretVar (name secretName key : string) : v1.EnvVar.t :=
  v1.EnvVar.mk name EmptyString
    (Some (v1.EnvVarSource.mk (Some (v1.SecretKeySelector.mk secretName key)))).

Definition buildEnvironmentVariables (config : BuildConfig.t)
  : list v1.EnvVar.t :=
  let envVars :=
    [ plainVar "GIT_REPO" (db.Project.GitRepo (BuildConfig.Project config));
      plainVar "BUILD_FOLDER"
               (db.Project.BuildFolder (BuildConfig.Project config));
      plainVar "PLATFORM" (BuildConfig.Platform config);
      plainVar "BUILD_ID" (Itoa (int_of_uint (BuildConfig.BuildID config)));
      plainVar "BUILD_MODE" (getBuildMode (BuildConfig.BuildMode config));
      plainVar "BUILD_TARGET"
               (getBuildTarget (BuildConfig.Platform config)
                               (BuildConfig.BuildTarget config));
      plainVar "FLUTTER_CHANNEL"
               (getFlutterChannel (BuildConfig.FlutterChannel config));
      plainVar "OUTPUT_DIR" "/outputs";
      plainVar "ENV_FILES_DIR" "/env-files" ] in
  (* Add Git branch if specified *)
  let envVars :=
    if negb (String.eqb (BuildConfig.GitBranch config) EmptyString)
    then envVars ++ [plainVar "GIT_BRANCH" (BuildConfig.GitBranch config)]
    else envVars in
  (* Add Git credentials if specified *)
  let envVars :=
    if negb (String.eqb (BuildConfig.GitUsername config) EmptyString)
    then envVars ++ [plainVar "GIT_USERNAME" (BuildConfig.GitUsername config)]
    else envVars in
  let envVars :=
    if negb (String.eqb (BuildConfig.GitPassword config) EmptyString)
    then envVars ++ [plainVar "GIT_PASSWORD" (BuildConfig.GitPassword config)]
    else envVars in
  envVars.

Definition nilDereference : string :=
  "runtime error: invalid memory address or nil pointer dereference".

Definition CreateBuildPod (config : BuildConfig.t) : M error :=
  let* kubeConfig := getKubernetesConfig in
  match kubeConfig with
  | inr e => ret (Some e)
  | inl kubeConfig =>
  let* err := ask (fun w => NewForConfig w kubeConfig) in
  match err with
  | Some e => ret (Some ("failed to create clientset: " +:+ e))
  | None =>
  let* namespace := getNamespace in
  let podName := "build-" +:+ FormatUint (BuildConfig.BuildID config) in
  (* Create PVC for artifacts *)
  let* (pvcName, err) :=
    CreatePersistentVolumeClaimForArtifacts (BuildConfig.BuildID config)
                                            namespace in
  match err with
  | Some e => ret (Some ("failed to create PVC: " +:+ e))
  | None =>
  (* Create ConfigMap for environment files *)
  let* (configMapName, err) :=
    CreateConfigMapForEnvFiles (BuildConfig.BuildID config)
      (db.Project.ID (BuildConfig.Project config)) namespace in
  match err with
  | Some e => ret (Some ("failed to create ConfigMap: " +:+ e))
  | None =>
  (* Create Secret for keystore (Android only) *)
  let* (secretName, err) :=
    if String.eqb (BuildConfig.Platform config) "android" then
      CreateSecretForKeystore (BuildConfig.BuildID config)
        (db.Project.ID (BuildConfig.Project config)) namespace
    else ret (EmptyString, None) in
  match err with
  | Some e => ret (Some ("failed to create Secret: " +:+ e))
  | None =>
  (* Build environment variables *)
  let envVars := buildEnvironmentVariables config in
  (* Add environment variables from database *)
  let* DB := ask DB in
  match DB with
  | None => panic nilDereference
  | Some conn =>
  let envVars :=
    match db.FindEnvs conn (db.Project.ID (BuildConfig.Project config)) "env"
    with
    | (dbEnvs, None) =>
      envVars ++ List.map (fun dbEnv => plainVar (db.Env.Key dbEnv)
                                                 (db.Env.Value dbEnv)) dbEnvs
    | (_, Some _) => envVars
    end in
  (* Build volume mounts *)
  let volumeMounts := [v1.VolumeMount.mk "artifacts" "/outputs" false] in
  (* Add ConfigMap volume mount if exists *)
  let volumeMounts :=
    if negb (String.eqb configMapName EmptyString)
    then volumeMounts ++ [v1.VolumeMount.mk "env-files" "/env-files" true]
    else volumeMounts in
  (* Add Secret volume mount for keystore if exists *)
  let '(volumeMounts, envVars) :=
    if negb (String.eqb secretName EmptyString) then
      (volumeMounts ++ [v1.VolumeMount.mk "keystore" "/keystore" true],
       (* Add keystore environment variables *)
       envVars ++
         [ plainVar "KEYSTORE_PATH" "/keystore/keystore.jks";
           secretVar "KEYSTORE_PASSWORD" secretName "store-password";
           secretVar "KEY_ALIAS" secretName "key-alias";
           secretVar "KEY_PASSWORD" secretName "key-password" ])
    else (volumeMounts, envVars) in
  (* Build volumes *)
  let volumes :=
    [v1.Volume.mk "artifacts" (v1.PersistentVolumeClaimSource pvcName)] in
  (* Add ConfigMap volume if exists *)
  let volumes :=
    if negb (String.eqb configMapName EmptyString)
    then volumes ++ [v1.Volume.mk "env-files" (v1.ConfigMapSource configMapName)]
    else volumes in
  (* Add Secret volume if exists *)
  let volumes :=
    if negb (String.eqb secretName EmptyString)
    then volumes ++ [v1.Volume.mk "keystore" (v1.SecretSource secretName)]
    else volumes in
  (* Define the pod *)
  let* image := getFlutterBuildImage in
  let pod :=
    v1.Pod.mk
      (v1.ObjectMeta.mk podName namespace
         (<["app" := "flotio-build"]>
          (<["build-id" := Itoa (int_of_uint (BuildConfig.BuildID config))]>
          (<["project-id" :=
               Itoa (int_of_uint (db.Project.ID (BuildConfig.Project config)))]>
          (<["platform" := BuildConfig.Platform config]> ∅)))))
      (v1.PodSpec.mk
         v1.RestartPolicyNever
         [v1.Container.mk "build" image envVars volumeMounts
            (v1.ResourceRequirements.mk
               (<[v1.ResourceCPU := parseQuantity "1000m"]>
                  (<[v1.ResourceMemory := parseQuantity "2Gi"]> ∅))
               (<[v1.ResourceCPU := parseQuantity "4000m"]>
                  (<[v1.ResourceMemory := parseQuantity "8Gi"]> ∅)))]
         volumes)
      EmptyString in
  (* Create the pod *)
  let* err := CreatePod namespace pod in
  match err with
  | Some e => ret (Some ("failed to create pod: " +:+ e))
  | None => ret None
  end
  end end end end end end.

(** [GetPodStatus] *)
Definition GetPodStatus (buildID : N) : M (string * error) :=
  let* config := getKubernetesConfig in
  match config with
  | inr e => ret (EmptyString, Some e)
  | inl config =>
    let* err := ask (fun w => NewForConfig w config) in
    match err with
    | Some e => ret (EmptyString, Some ("failed to create clientset: " +:+ e))
    | None =>
      let podName := "build-" +:+ FormatUint buildID in
      let* namespace := getNamespace in
      let* pod := GetPod namespace podName in
      match pod with
      | inr e => ret (EmptyString, Some ("failed to get pod: " +:+ e))
      | inl pod => ret (v1.Pod.Phase pod, None)
      end
    end
  end.

(** *** The logs of a pod

    The World does not record what the pods have written.  The functions
    that read the logs take the log endpoint of the cluster as a parameter:
    [Stream w namespace podName opts] is what
    [Pods(namespace).GetLogs(podName, opts).Stream(ctx)] returns in the
    world [w], an error or a stream.  A stream is the list of the results
    of its successive [Read]s into the buffer, each with the bytes read and
    the error; a stream that has no result left answers [(0, io.EOF)].
    Every value sent on a channel is taken to be received: a send that no
    one receives, which blocks, is not modelled. *)

(** A channel of strings: what was sent on it, and whether it is closed. *)
Module Chan.
Record t := mk { sent : list string; closed : bool }.
End Chan.

(** [ch <- x] and [close(ch)], which panic on a closed channel. *)
Definition send (x : string) (ch : Chan.t) : Outcome Chan.t :=
  if Chan.closed ch then Panic "send on closed channel"
  else Return (Chan.mk (Chan.sent ch ++ [x]) false).

Definition close (ch : Chan.t) : Outcome Chan.t :=
  if Chan.closed ch then Panic "close of closed channel"
  else Return (Chan.mk (Chan.sent ch) true).

(** The loop of [GetPodLogs]:
    [for { n, err := Read(buf); if n > 0 { logs = append(logs, string(buf[:n])) };
           if err != nil { break } }] *)
Fixpoint readLogs (logStream : list (string * error)) (logs : list string)
  : list string :=
  match logStream with
  | [] => logs
  | (chunk, err) :: rest =>
    let logs :=
      if (0 <? String.length chunk)%nat then logs ++ [chunk] else logs in
    match err with
    | Some _ => logs
    | None => readLogs rest logs
    end
  end.

(** The loop of [StreamPodLogs]:
    [for { n, err := Read(buf); if n > 0 { logChan <- string(buf[:n]) };
           if err != nil { close(logChan); break } }] *)
Fixpoint streamLogs (logStream : list (string * error)) (logChan : Chan.t)
  : Outcome Chan.t :=
  match logStream with
  | [] => close logChan
  | (chunk, err) :: rest =>
    match (if (0 <? String.length chunk)%nat then send chunk logChan
           else Return logChan) with
    | Panic msg => Panic msg
    | Return logChan =>
      match err with
      | Some _ => close logChan
      | None => streamLogs rest logChan
      end
    end
  end.

Section Logs.
Variable Stream :
  World -> string -> string -> v1.PodLogOptions.t
  -> list (string * error) + string.

Definition GetPodLogs (buildID : N) : M (list string * error) :=
  let* config := getKubernetesConfig in
  match config with
  | inr e => ret ([], Some e)
  | inl config =>
    let* err := ask (fun w => NewForConfig w config) in
    match err with
    | Some e => ret ([], Some ("failed to create clientset: " +:+ e))
    | None =>
      let podName := "build-" +:+ FormatUint buildID in
      let* namespace := getNamespace in
      let* logStream :=
        ask (fun w => Stream w namespace podName
                             (v1.PodLogOptions.mk EmptyString false)) in
      match logStream with
      | inr e => ret ([], Some ("failed to get log stream: " +:+ e))
      | inl logStream => ret (readLogs logStream [], None)
      end
    end
  end.

(** The channel is returned with the error: what the caller's channel has
    become. *)
Definition StreamPodLogs (buildID : N) (logChan : Chan.t)
  : M (Chan.t * error) :=
  let* config := getKubernetesConfig in
  match config with
  | inr e => ret (logChan, Some e)
  | inl config =>
    let* err := ask (fun w => NewForConfig w config) in
    match err with
    | Some e => ret (logChan, Some ("failed to create clientset: " +:+ e))
    | None =>
      let podName := "build-" +:+ FormatUint buildID in
      let* namespace := getNamespace in
      let* logStream :=
        ask (fun w => Stream w namespace podName
                             (v1.PodLogOptions.mk EmptyString true)) in
      match logStream with
      | inr e => ret (logChan, Some ("failed to get log stream: " +:+ e))
      | inl logStream =>
        match streamLogs logStream logChan with
        | Panic msg => panic msg
        | Return logChan => ret (logChan, None)
        end
      end
    end
  end.

End Logs.

End kubernetes.

(* ===================================================================== *)
(** * The build script: placing the mounted environment files            *)
(* ===================================================================== *)

Module BuildScript.

(** [${filename#*::}]: what follows the first "::", if there is one. *)
Fixpoint afterSeparator (s : string) : option string :=
  match s with
  | EmptyString => None
  | String c rest =>
    match rest with
    | String c' rest' =>
      if Ascii.eqb c ":" && Ascii.eqb c' ":" then Some rest'
      else afterSeparator rest
    | EmptyString => None
    end
  end.

(** [${dest_path//__/\/}]: every "__" becomes "/", from left to right. *)
Fixpoint restoreSlashes (s : string) : string :=
  match s with
  | EmptyString => EmptyString
  | String c rest =>
    match rest with
    | String c' rest' =>
      if Ascii.eqb c "_" && Ascii.eqb c' "_"
      then String "/" (restoreSlashes rest')
      else String c (restoreSlashes rest)
    | EmptyString => String c EmptyString
    end
  end.

(** The path, relative to the build folder, that the file mounted under
    [filename] is copied to. *)
Definition destination (filename : string) : string :=
  match afterSeparator filename with
  | Some dest_path => restoreSlashes dest_path
  | None => "./" +:+ filename
  end.

End BuildScript.

(* ===================================================================== *)
(** * Vocabulary of the properties                                        *)
(* ===================================================================== *)

Import Go kubernetes.



(** The variable, if any, that [buildEnvironmentVariables] adds for an
    optional field. *)
Definition optionalVar (name value : string) : list v1.EnvVar.t :=
  if String.eqb value EmptyString then [] else [plainVar name value].

(** The nine variables that [buildEnvironmentVariables] starts from. *)
Definition fixedVariables (config : BuildConfig.t) : list v1.EnvVar.t :=
  [ plainVar "GIT_REPO" (db.Project.GitRepo (BuildConfig.Project config));
    plainVar "BUILD_FOLDER" (db.Project.BuildFolder (BuildConfig.Project config));
    plainVar "PLATFORM" (BuildConfig.Platform config);
    plainVar "BUILD_ID" (Itoa (int_of_uint (BuildConfig.BuildID config)));
    plainVar "BUILD_MODE"
             (if String.eqb (BuildConfig.BuildMode config) EmptyString
              then "release" else BuildConfig.BuildMode config);
    plainVar "BUILD_TARGET"
             (getBuildTarget (BuildConfig.Platform config)
                             (BuildConfig.BuildTarget config));
    plainVar "FLUTTER_CHANNEL"
             (getFlutterChannel (BuildConfig.FlutterChannel config));
    plainVar "OUTPUT_DIR" "/outputs";
    plainVar "ENV_FILES_DIR" "/env-files" ].

(** The variables [CreateBuildPod] adds from the variable entries of the
    project: none when the query fails. *)
Definition dbVariables (conn : db.Conn) (projectID : N) : list v1.EnvVar.t :=
  match db.FindEnvs conn projectID "env" with
  | (dbEnvs, None) =>
    List.map (fun dbEnv => plainVar (db.Env.Key dbEnv) (db.Env.Value dbEnv))
             dbEnvs
  | (_, Some _) => []
  end.

(** The four variables added when a Secret was created. *)
Definition keystoreVariables (secretName : string) : list v1.EnvVar.t :=
  [ plainVar "KEYSTORE_PATH" "/keystore/keystore.jks";
    secretVar "KEYSTORE_PASSWORD" secretName "store-password";
    secretVar "KEY_ALIAS" secretName "key-alias";
    secretVar "KEY_PASSWORD" secretName "key-password" ].

Definition keystoreNames : list string :=
  ["KEYSTORE_PATH"; "KEYSTORE_PASSWORD"; "KEY_ALIAS"; "KEY_PASSWORD"].

(** What is added for a resource that was created: nothing when its name
    is empty. *)
Definition whenNamed {A} (resourceName : string) (l : list A) : list A :=
  if String.eqb resourceName EmptyString then [] else l.

(** The namespace every call works in: [getNamespace]. *)
Definition namespaceOf (w : World) : string :=
  if String.eqb (Getenv w "K8S_NAMESPACE") EmptyString then "default"
  else Getenv w "K8S_NAMESPACE".

(** The image of the build container: [getFlutterBuildImage]. *)
Definition imageOf (w : World) : string :=
  if String.eqb (Getenv w "FLUTTER_BUILD_IMAGE") EmptyString
  then "flotio/flutter-build:latest"
  else Getenv w "FLUTTER_BUILD_IMAGE".

(** The configuration of the client: [getKubernetesConfig]. *)
Definition kubernetesConfigOf (w : World) : rest.Config + string :=
  match InClusterConfig w with
  | inl config => inl config
  | inr e =>
    if String.eqb (Getenv w "KUBECTL_API") EmptyString
       || String.eqb (Getenv w "KUBECTL_TOKEN") EmptyString
    then inr ("failed to get in-cluster config and no external config provided: "
              +:+ e)
    else inl (rest.mkConfig (Getenv w "KUBECTL_API") (Getenv w "KUBECTL_TOKEN")
                            true)
  end.

(** The secret step of [CreateBuildPod]: for Android only. *)
Definition secretStep (config : BuildConfig.t) (namespace : string)
  : M (string * error) :=
  if String.eqb (BuildConfig.Platform config) "android" then
    CreateSecretForKeystore (BuildConfig.BuildID config)
      (db.Project.ID (BuildConfig.Project config)) namespace
  else ret (EmptyString, None).

(** The pod of a build, from the names of the resources created for it:
    the environment is the composed one, then the variables of the
    database, then the keystore variables; each optional resource adds its
    mount and its volume. *)
Definition podFor (config : BuildConfig.t) (conn : db.Conn)
    (namespace image pvcName configMapName secretName : string) : v1.Pod.t :=
  v1.Pod.mk
    (v1.ObjectMeta.mk
       ("build-" +:+ FormatUint (BuildConfig.BuildID config)) namespace
       (<["app" := "flotio-build"]>
        (<["build-id" := Itoa (int_of_uint (BuildConfig.BuildID config))]>
        (<["project-id" :=
             Itoa (int_of_uint (db.Project.ID (BuildConfig.Project config)))]>
        (<["platform" := BuildConfig.Platform config]> ∅)))))
    (v1.PodSpec.mk
       v1.RestartPolicyNever
       [v1.Container.mk "build" image
          (buildEnvironmentVariables config
           ++ dbVariables conn (db.Project.ID (BuildConfig.Project config))
           ++ whenNamed secretName (keystoreVariables secretName))
          ([v1.VolumeMount.mk "artifacts" "/outputs" false]
           ++ whenNamed configMapName
                [v1.VolumeMount.mk "env-files" "/env-files" true]
           ++ whenNamed secretName
                [v1.VolumeMount.mk "keystore" "/keystore" true])
          (v1.ResourceRequirements.mk
             (<[v1.ResourceCPU := "1000m"]> (<[v1.ResourceMemory := "2Gi"]> ∅))
             (<[v1.ResourceCPU := "4000m"]> (<[v1.ResourceMemory := "8Gi"]> ∅)))]
       ([v1.Volume.mk "artifacts" (v1.PersistentVolumeClaimSource pvcName)]
        ++ whenNamed configMapName
             [v1.Volume.mk "env-files" (v1.ConfigMapSource configMapName)]
        ++ whenNamed secretName
             [v1.Volume.mk "keystore" (v1.SecretSource secretName)]))
    EmptyString.

(** [CreateBuildPod] from the creation of the pod on, given the names of
    the resources created before. *)
Definition podStep (config : BuildConfig.t)
    (namespace pvcName configMapName secretName : string) : M error :=
  fun w =>
    match DB w with
    | None => (Panic nilDereference, w)
    | Some conn =>
      match CreatePod namespace
              (podFor config conn namespace (imageOf w) pvcName configMapName
                      secretName) w with
      | (Return (Some e), w') =>
        (Return (Some ("failed to create pod: " +:+ e)), w')
      | (Return None, w') => (Return None, w')
      | (Panic msg, w') => (Panic msg, w')
      end
    end.

(** The names of the specification: [build-<id>] and its three suffixed
    forms. *)
Definition resourceName (k : Kind) (buildID : N) : string :=
  match k with
  | Pods => "build-" +:+ FormatUint buildID
  | ConfigMaps => "build-" +:+ FormatUint buildID +:+ "-env-files"
  | Secrets => "build-" +:+ FormatUint buildID +:+ "-keystore"
  | PersistentVolumeClaims => "build-" +:+ FormatUint buildID +:+ "-artifacts"
  end.

(** What follows [build-<id>] in the name of an object of kind [k]. *)
Definition suffixOf (k : Kind) : string :=
  match k with
  | Pods => EmptyString
  | ConfigMaps => "-env-files"
  | Secrets => "-keystore"
  | PersistentVolumeClaims => "-artifacts"
  end.

Definition isDigit (c : ascii) : bool :=
  (48 <=? nat_of_ascii c)%nat && (nat_of_ascii c <=? 57)%nat.

Fixpoint allDigits (s : string) : bool :=
  match s with
  | EmptyString => true
  | String c rest => isDigit c && allDigits rest
  end.

Definition startsNoDigit (s : string) : bool :=
  match s with
  | EmptyString => true
  | String c _ => negb (isDigit c)
  end.

(** A pod without any trace of a keystore: no mount and no volume of a
    Secret, and for environment the composed one followed by the variables
    of the database, none of which refers to a Secret. *)
Definition withoutKeystore (config : BuildConfig.t) (conn : db.Conn)
    (pod : v1.Pod.t) : Prop :=
  exists container,
    v1.PodSpec.Containers (v1.Pod.Spec pod) = [container] /\
    (forall m, In m (v1.Container.VolumeMounts container) ->
               v1.VolumeMount.Name m <> "keystore" /\
               v1.VolumeMount.MountPath m <> "/keystore") /\
    (forall v s, In v (v1.PodSpec.Volumes (v1.Pod.Spec pod)) ->
                 v1.Volume.Source v <> v1.SecretSource s) /\
    v1.Container.Env container =
    buildEnvironmentVariables config
    ++ dbVariables conn (db.Project.ID (BuildConfig.Project config)) /\
    (forall x, In x (v1.Container.Env container) ->
               v1.EnvVar.ValueFrom x = None).

(** The project has no keystore that is active and not deleted, and the
    query for it is answered. *)
Definition noActiveKeystore (conn : db.Conn) (projectID : N) : Prop :=
  db.fault conn (db.ActiveKeystore projectID) = None /\
  forall k, In k (db.keystores conn) ->
            db.Keystore.ProjectID k = projectID ->
            db.Keystore.IsActive k = true ->
            db.Model.DeletedAt (db.Keystore.Model k) <> None.

(** The project has no file entry that is not deleted, and the query for
    them is answered. *)
Definition noFileEntries (conn : db.Conn) (projectID : N) : Prop :=
  db.fault conn (db.EnvsOfType projectID "file") = None /\
  forall e, In e (db.envs conn) ->
            db.Env.ProjectID e = projectID ->
            db.Env.Type_ e = "file" ->
            db.Model.DeletedAt (db.Env.Model e) <> None.

(** The error a request to delete ends with in the world [w]: the fault
    of the request, or "not found" when there is no such object. *)
Definition deleteError {A} (k : Kind)
    (objects : Cluster -> gmap (string * string) A) (ns name : string)
    (w : World) : error :=
  match apiFault w (mkRequest Delete k ns name) with
  | Some e => Some e
  | None =>
    match objects (cluster w) !! (ns, name) with
    | None => Some (NotFound k name)
    | Some _ => None
    end
  end.

(** The line [DeleteBuildResources] prints for a failed deletion. *)
Definition warning (what name : string) (err : error) : list string :=
  match err with
  | Some e => ["Warning: failed to delete " +:+ what +:+ " " +:+ name +:+ ": "
               +:+ e +:+ newline]
  | None => []
  end.

(** The objects left by a deletion that ended with [err]. *)
Definition afterDelete {A} (err : error) (key : string * string)
    (m : gmap (string * string) A) : gmap (string * string) A :=
  match err with
  | Some _ => m
  | None => delete key m
  end.

(** The key of the ConfigMap an entry is stored under: its Key, followed
    when it has a path by "::" and the path with "__" for every "/". *)
Definition fileNameOf (env : db.Env.t) : string :=
  if String.eqb (db.Env.Path env) EmptyString then db.Env.Key env
  else db.Env.Key env +:+ "::" +:+ replaceAll (db.Env.Path env) "/" "__".

(** ** Strings as sequences of runes *)

(** The Unicode scalar values: what a rune read from a string can be. *)
Definition validRune (r : Z) : Prop :=
  0 <= r < 0xD800 \/ 0xE000 <= r <= 0x10FFFF.

(** The second byte accepted after the first byte [b0] of an encoding of
    three bytes, and of four. *)
Definition lo3 (b0 : Z) : Z := if b0 =? 0xE0 then 0xA0 else 0x80.
Definition hi3 (b0 : Z) : Z := if b0 =? 0xED then 0x9F else 0xBF.
Definition lo4 (b0 : Z) : Z := if b0 =? 0xF0 then 0x90 else 0x80.
Definition hi4 (b0 : Z) : Z := if b0 =? 0xF4 then 0x8F else 0xBF.

(** The runes a [range] over the string yields; [skip] counts the bytes of
    the current rune still to be passed. *)
Fixpoint runesFrom (skip : nat) (s : string) : list Z :=
  match s with
  | EmptyString => []
  | String _ s' =>
    match skip with
    | S n => runesFrom n s'
    | O =>
      let '(r, w) := DecodeRuneInString s in
      r :: runesFrom (Nat.pred w) s'
    end
  end.

Definition runes (s : string) : list Z := runesFrom 0 s.

(** The strings of a list, one after the other. *)
Definition joinMap {A} (f : A -> string) (l : list A) : string :=
  List.fold_right (fun a acc => f a +:+ acc) EmptyString l.

Definition encodeRunes (rs : list Z) : string := joinMap runeString rs.

(** What [replaceAll] appends for a rune. *)
Definition substRune (old new : string) (r : Z) : string :=
  if String.eqb (runeString r) old then new else runeString r.

Fixpoint dropBytes (n : nat) (s : string) : string :=
  match n, s with
  | S n, String _ s' => dropBytes n s'
  | _, _ => s
  end.

Fixpoint hasByte (x : ascii) (s : string) : bool :=
  match s with
  | EmptyString => false
  | String c rest => Ascii.eqb c x || hasByte x rest
  end.

(** The encoding of a path as the specification words it: "__" for every
    "/", byte by byte. *)
Fixpoint slashToUnderscores (s : string) : string :=
  match s with
  | EmptyString => EmptyString
  | String c rest =>
    if Ascii.eqb c "/" then String "_" (String "_" (slashToUnderscores rest))
    else String c (slashToUnderscores rest)
  end.

(** The same on runes, and the decoding of the build script on runes. *)
Definition underscored (rs : list Z) : list Z :=
  List.flat_map (fun r => if r =? 47 then [95; 95] else [r]) rs.

Fixpoint restoreRunes (rs : list Z) : list Z :=
  match rs with
  | [] => []
  | r :: rest =>
    match rest with
    | r' :: rest' =>
      if (r =? 95) && (r' =? 95) then 47 :: restoreRunes rest'
      else r :: restoreRunes rest
    | [] => [r]
    end
  end.

(** No "_" of the path is followed by "_" or "/": the paths whose encoding
    can be read in one way only. *)
Fixpoint unambiguous (s : string) : bool :=
  match s with
  | EmptyString => true
  | String c rest =>
    (if Ascii.eqb c "_" then
       match rest with
       | EmptyString => true
       | String c' _ => negb (Ascii.eqb c' "_" || Ascii.eqb c' "/")
       end
     else true)
    && unambiguous rest
  end.

(** A key that, followed by the separator, has its first "::" there: it
    contains no "::" and does not end with ":". *)
Definition plainKey (key : string) : Prop :=
  BuildScript.afterSeparator (key +:+ ":") = None.

(** The encoding of a path by [CreateConfigMapForEnvFiles]. *)
Definition encodePath (path : string) : string := replaceAll path "/" "__".

(** ** Relations between the world before and after a call *)

(** Every run of [c] relates the world it starts in to the one it ends in
    by [R], whatever it returns. *)
Definition preserves (R : World -> World -> Prop) {A} (c : M A) : Prop :=
  forall w o w', c w = (o, w') -> R w w'.

(** Nothing but the cluster, the requests and the output changes. *)
Definition sameProcess (w w' : World) : Prop :=
  Getenv w' = Getenv w /\ InClusterConfig w' = InClusterConfig w /\
  NewForConfig w' = NewForConfig w /\ DB w' = DB w /\
  apiFault w' = apiFault w.

(** A part of the cluster is left as it was. *)
Definition keeps {X} (part : Cluster -> X) (w w' : World) : Prop :=
  part (cluster w') = part (cluster w).

(** The requests sent in between all satisfy [P]. *)
Definition requestsAll (P : Request -> Prop) (w w' : World) : Prop :=
  exists rs, requests w' = requests w ++ rs /\ Forall P rs.

(** A request names its object as the specification derives the name from
    the build id. *)
Definition namedFor (buildID : N) (r : Request) : Prop :=
  name r = resourceName (kind r) buildID.

(** Objects are only added to [m], and every added one satisfies [good]. *)
Definition addsOnly {A} (good : A -> Prop) (m m' : gmap (string * string) A)
  : Prop :=
  forall key, m' !! key = m !! key \/
              (m !! key = None /\ exists obj, m' !! key = Some obj /\ good obj).

Definition labelled (meta : v1.ObjectMeta.t) (key value : string) : Prop :=
  v1.ObjectMeta.Labels meta !! key = Some value.

(** The labels of the objects of a build, as the code sets them. *)
Definition buildLabels (buildID : N) (meta : v1.ObjectMeta.t) : Prop :=
  labelled meta "app" "flotio-build" /\
  labelled meta "build-id" (FormatUint buildID).

Definition podLabels (config : BuildConfig.t) (meta : v1.ObjectMeta.t) : Prop :=
  labelled meta "app" "flotio-build" /\
  labelled meta "build-id" (Itoa (int_of_uint (BuildConfig.BuildID config))) /\
  labelled meta "project-id"
           (Itoa (int_of_uint (db.Project.ID (BuildConfig.Project config)))) /\
  labelled meta "platform" (BuildConfig.Platform config).

Definition addsLabelled (config : BuildConfig.t) (w w' : World) : Prop :=
  addsOnly (fun p => podLabels config (v1.Pod.ObjectMeta p))
           (pods (cluster w)) (pods (cluster w')) /\
  addsOnly (fun c => buildLabels (BuildConfig.BuildID config)
                                 (v1.ConfigMap.ObjectMeta c))
           (configMaps (cluster w)) (configMaps (cluster w')) /\
  addsOnly (fun s => buildLabels (BuildConfig.BuildID config)
                                 (v1.Secret.ObjectMeta s))
           (secrets (cluster w)) (secrets (cluster w')) /\
  addsOnly (fun c => buildLabels (BuildConfig.BuildID config)
                                 (v1.PersistentVolumeClaim.ObjectMeta c))
           (pvcs (cluster w)) (pvcs (cluster w')).

(** ** The requests and the objects of one build *)

(** The requests sent in between are some of [allowed], in that order. *)
Definition sends (allowed : list Request) (w w' : World) : Prop :=
  exists rs, requests w' = requests w ++ rs /\ sublist rs allowed.

(** The request of verb [v] for the object of kind [k] of a build. *)
Definition requestFor (v : Verb) (buildID : N) (ns : string) (k : Kind)
  : Request :=
  mkRequest v k ns (resourceName k buildID).


(** Two maps of objects differ at most at [key]. *)
Definition onlyAt {A} (key : string * string)
    (m m' : gmap (string * string) A) : Prop :=
  forall key', key' <> key -> m' !! key' = m !! key'.

(** Two worlds differ, in their cluster, at most in the four objects of
    the build [buildID] in the namespace [ns]. *)
Definition ownObjects (buildID : N) (ns : string) (w w' : World) : Prop :=
  onlyAt (ns, resourceName Pods buildID)
         (pods (cluster w)) (pods (cluster w')) /\
  onlyAt (ns, resourceName ConfigMaps buildID)
         (configMaps (cluster w)) (configMaps (cluster w')) /\
  onlyAt (ns, resourceName Secrets buildID)
         (secrets (cluster w)) (secrets (cluster w')) /\
  onlyAt (ns, resourceName PersistentVolumeClaims buildID)
         (pvcs (cluster w)) (pvcs (cluster w')).

(** Every object of [w] is in [w'] as it was. *)
Definition keepsObjects (w w' : World) : Prop :=
  pods (cluster w) ⊆ pods (cluster w') /\
  configMaps (cluster w) ⊆ configMaps (cluster w') /\
  secrets (cluster w) ⊆ secrets (cluster w') /\
  pvcs (cluster w) ⊆ pvcs (cluster w').

(** None of the four names of the build is taken in the namespace. *)
Definition namesFree (buildID : N) (ns : string) (w : World) : Prop :=
  pods (cluster w) !! (ns, resourceName Pods buildID) = None /\
  configMaps (cluster w) !! (ns, resourceName ConfigMaps buildID) = None /\
  secrets (cluster w) !! (ns, resourceName Secrets buildID) = None /\
  pvcs (cluster w) !! (ns, resourceName PersistentVolumeClaims buildID) = None.

(** The claim of the build was created in between, and the claims are
    otherwise as they were. *)
Definition claimCreated (buildID : N) (ns : string) (w w' : World) : Prop :=
  pvcs (cluster w) !! (ns, resourceName PersistentVolumeClaims buildID) = None /\
  exists pvc,
    pvcs (cluster w')
    = <[(ns, resourceName PersistentVolumeClaims buildID) := pvc]>
        (pvcs (cluster w)).



(** ** The files of a project *)

(** The content the entries [envs] leave under the key [k] of the
    ConfigMap: that of the last entry stored under this key (an entry
    that fails stores nothing). *)
Fixpoint contentOf (envs : list db.Env.t) (k : string) : option string :=
  match envs with
  | [] => None
  | env :: rest =>
    match contentOf rest k with
    | Some content => Some content
    | None =>
      match envFileEntry env with
      | ((fileName, content), None) =>
        if String.eqb fileName k then Some content else None
      | (_, Some _) => None
      end
    end
  end.


(** ** The logs of a pod *)

(** The results of a stream up to its first error, this one included. *)
Fixpoint untilError (logStream : list (string * error))
  : list (string * error) :=
  match logStream with
  | [] => []
  | (chunk, None) :: rest => (chunk, None) :: untilError rest
  | (chunk, Some e) :: _ => [(chunk, Some e)]
  end.

(** The bytes of a list of chunks, one after the other. *)
Definition bytesOf (chunks : list string) : string := joinMap id chunks.

(** ** Sample data *)

Definition sampleProject : db.Project.t :=
  db.Project.mk (db.Model.mk 7 None) "app" "https://example.org/app.git" "."
                "3.24" 1.

Definition sampleConfig (platform target channel : string) : BuildConfig.t :=
  BuildConfig.mk 42 sampleProject platform EmptyString target channel "main"
                 EmptyString EmptyString.

(** The file entry of the scenario of the specification. *)
Definition googleServices : db.Env.t :=
  db.Env.mk (db.Model.mk 1 None) 7 "gs" "e30=" "file" "android/app/g.json" true.

Definition apiUrl : db.Env.t :=
  db.Env.mk (db.Model.mk 2 None) 7 "API_URL" "https://api.example.org" "env"
            EmptyString false.

(** The entry whose path has a folder with "__" in its name. *)
Definition iconsEntry : db.Env.t :=
  db.Env.mk (db.Model.mk 3 None) 7 "logo" "PNG" "file"
            "assets/my__icons/logo.png" false.

Definition googleServicesJson : db.Env.t :=
  db.Env.mk (db.Model.mk 4 None) 7 "google-services.json" "{}" "file"
            "android/app/google-services.json" false.

(** "AAEC" is the base64 text of the bytes 0, 1, 2. *)
Definition sampleKeystore : db.Keystore.t :=
  db.Keystore.mk (db.Model.mk 1 None) 7 "release" "AAEC" "storepass" "upload"
                 "keypass" true.

Definition noFault {A} : A -> error := fun _ => None.

Definition sampleConn (envs : list db.Env.t) (keystores : list db.Keystore.t)
  : db.Conn :=
  db.mkConn envs keystores noFault.

Definition emptyCluster : Cluster := mkCluster ∅ ∅ ∅ ∅.

(** A process inside the cluster, no object created yet. *)
Definition sampleWorld (DB : option db.Conn) : World :=
  mkWorld (fun _ => EmptyString)
          (inl (rest.mkConfig "https://kubernetes.default.svc" "token" false))
          noFault DB noFault emptyCluster [] [].

(** The builds of the sample project, and the worlds they are started in:
    one with an active keystore, one without, and one whose query for the
    active keystore is refused. *)
Definition androidBuild : BuildConfig.t :=
  sampleConfig "android" EmptyString EmptyString.


Definition signedWorld : World :=
  sampleWorld (Some (sampleConn [googleServices; apiUrl] [sampleKeystore])).

Definition unsignedWorld : World :=
  sampleWorld (Some (sampleConn [apiUrl] [])).

Definition keystoreQueryDown : db.Conn :=
  db.mkConn [apiUrl] [sampleKeystore]
            (fun q => match q with
                      | db.ActiveKeystore _ => Some "connection reset"
                      | _ => None
                      end).

(** ** More sample data *)

(** A database that refuses every query. *)
Definition outage : db.Conn :=
  db.mkConn [apiUrl] [sampleKeystore] (fun _ => Some "connection refused").

(** A process outside any cluster, with no variable set. *)
Definition outsideWorld : World :=
  mkWorld (fun _ => EmptyString) (inr "not running in a cluster") noFault None
          noFault emptyCluster [] [].

(** A keystore whose file is not base64. *)
Definition brokenKeystore : db.Keystore.t :=
  db.Keystore.mk (db.Model.mk 2 None) 7 "broken" "not base64!" "storepass"
                 "upload" "keypass" true.

(** A log endpoint whose streams give two lines, with an empty read in
    between, and fail on the read of the second. *)
Definition sampleStream (w : World) (namespace podName : string)
    (opts : v1.PodLogOptions.t) : list (string * error) + string :=
  inl [("Cloning repository"%string, None); (EmptyString, None);
       ("Building"%string, Some "unexpected EOF"%string);
       ("never read"%string, None)].

Definition openChan : Chan.t := Chan.mk [] false.

(* ===================================================================== *)
(** * Environment composition                                             *)
(* ===================================================================== *)

Lemma buildEnvironmentVariables_eq config :
  buildEnvironmentVariables config =
  fixedVariables config
  ++ optionalVar "GIT_BRANCH" (BuildConfig.GitBranch config)
  ++ optionalVar "GIT_USERNAME" (BuildConfig.GitUsername config)
  ++ optionalVar "GIT_PASSWORD" (BuildConfig.GitPassword config).
Proof.
  unfold buildEnvironmentVariables, optionalVar, fixedVariables, getBuildMode.
  destruct (String.eqb (BuildConfig.GitBranch config) EmptyString),
           (String.eqb (BuildConfig.GitUsername config) EmptyString),
           (String.eqb (BuildConfig.GitPassword config) EmptyString);
    reflexivity.
Qed.

Lemma In_optionalVar x name value :
  In x (optionalVar name value) <->
  value <> EmptyString /\ x = plainVar name value.
Proof.
  unfold optionalVar.
  destruct (String.eqb_spec value EmptyString) as [->|Hne]; simpl.
  - split; [tauto | intros [H _]; congruence].
  - split; [intros [<-|[]]; auto | intros [_ ->]; auto].
Qed.

Lemma In_buildEnvironmentVariables x config :
  In x (buildEnvironmentVariables config) <->
  In x (fixedVariables config)
  \/ (BuildConfig.GitBranch config <> EmptyString
      /\ x = plainVar "GIT_BRANCH" (BuildConfig.GitBranch config))
  \/ (BuildConfig.GitUsername config <> EmptyString
      /\ x = plainVar "GIT_USERNAME" (BuildConfig.GitUsername config))
  \/ (BuildConfig.GitPassword config <> EmptyString
      /\ x = plainVar "GIT_PASSWORD" (BuildConfig.GitPassword config)).
Proof.
  rewrite buildEnvironmentVariables_eq, !in_app_iff, !In_optionalVar. tauto.
Qed.

(** The name of a variable of [fixedVariables] determines it. *)
Lemma fixedVariables_name x config :
  In x (fixedVariables config) ->
  In (v1.EnvVar.Name x)
     ["GIT_REPO"; "BUILD_FOLDER"; "PLATFORM"; "BUILD_ID"; "BUILD_MODE";
      "BUILD_TARGET"; "FLUTTER_CHANNEL"; "OUTPUT_DIR"; "ENV_FILES_DIR"].
Proof.
  unfold fixedVariables. simpl.
  intros H; repeat (destruct H as [<-|H]; [simpl; tauto|]). destruct H.
Qed.





(** ** C5: defaults of BUILD_TARGET and FLUTTER_CHANNEL *)




(* ===================================================================== *)
(** * Runs of the calls                                                   *)
(* ===================================================================== *)

Local Open Scope go_scope.

Section Preserves.
Context (R : World -> World -> Prop) `{!PreOrder R}.

Lemma preserves_ret {A} (a : A) : preserves R (ret a).
Proof. intros w o w' [= <- <-]. reflexivity. Qed.

Lemma preserves_ask {A} (f : World -> A) : preserves R (ask f).
Proof. intros w o w' [= <- <-]. reflexivity. Qed.

Lemma preserves_panic {A} msg : preserves R (@panic A msg).
Proof. intros w o w' [= <- <-]. reflexivity. Qed.

Lemma preserves_bind {A B} (c : M A) (k : A -> M B) :
  preserves R c -> (forall a, preserves R (k a)) -> preserves R (bind c k).
Proof.
  intros Hc Hk w o w'. unfold bind.
  destruct (c w) as [[a|msg] w1] eqn:E.
  - intros H. transitivity w1; [eapply Hc, E | eapply Hk, H].
  - intros [= <- <-]. eapply Hc, E.
Qed.

End Preserves.

(** Follows the control flow of a call down to its requests. *)
Ltac walk :=
  repeat first
    [ apply preserves_ret; exact _
    | apply preserves_ask; exact _
    | apply preserves_panic; exact _
    | apply preserves_bind; [ exact _ | | intros ? ]
    | match goal with
      | |- preserves _ (match ?x with _ => _ end) => destruct x
      end ].

Ltac unfold_calls :=
  unfold CreateBuildPod, GetPodStatus, DeleteBuildResources,
    getKubernetesConfig, getNamespace, getFlutterBuildImage,
    CreatePersistentVolumeClaimForArtifacts, CreateConfigMapForEnvFiles,
    CreateSecretForKeystore, CreatePod, CreateConfigMap, CreateSecret,
    CreatePersistentVolumeClaim, DeletePod, DeleteConfigMap, DeleteSecret,
    DeletePersistentVolumeClaim, GetPod, Printf.

(** ** The three kinds of request *)

Lemma apiCreate_run {A} (k : Kind) (objects : Cluster -> gmap (string * string) A)
    (setObjects : gmap (string * string) A -> Cluster -> Cluster)
    ns name (obj : A) w :
  apiCreate k objects setObjects ns name obj w =
  match apiFault w (mkRequest Create k ns name) with
  | Some e => (Return (Some e), addRequest (mkRequest Create k ns name) w)
  | None =>
    match objects (cluster w) !! (ns, name) with
    | Some _ => (Return (Some (AlreadyExists k name)),
                 addRequest (mkRequest Create k ns name) w)
    | None =>
      (Return None,
       setCluster (setObjects (<[(ns, name) := obj]> (objects (cluster w)))
                              (cluster w))
                  (addRequest (mkRequest Create k ns name) w))
    end
  end.
Proof. reflexivity. Qed.

Lemma apiDelete_run {A} (k : Kind) (objects : Cluster -> gmap (string * string) A)
    (setObjects : gmap (string * string) A -> Cluster -> Cluster) ns name w :
  apiDelete k objects setObjects ns name w =
  match apiFault w (mkRequest Delete k ns name) with
  | Some e => (Return (Some e), addRequest (mkRequest Delete k ns name) w)
  | None =>
    match objects (cluster w) !! (ns, name) with
    | None => (Return (Some (NotFound k name)),
               addRequest (mkRequest Delete k ns name) w)
    | Some _ =>
      (Return None,
       setCluster (setObjects (delete (ns, name) (objects (cluster w)))
                              (cluster w))
                  (addRequest (mkRequest Delete k ns name) w))
    end
  end.
Proof. reflexivity. Qed.

Lemma apiGet_run {A} (k : Kind) (objects : Cluster -> gmap (string * string) A)
    ns name w :
  apiGet k objects ns name w =
  (Return match apiFault w (mkRequest Get k ns name) with
          | Some e => inr e
          | None =>
            match objects (cluster w) !! (ns, name) with
            | None => inr (NotFound k name)
            | Some obj => inl obj
            end
          end,
   addRequest (mkRequest Get k ns name) w).
Proof.
  unfold apiGet. cbn.
  destruct (apiFault w _); [reflexivity|]. destruct (_ !! _); reflexivity.
Qed.

(** ** The requests name their objects by the build id (for C1) *)

#[local] Instance requestsAll_preorder P : PreOrder (requestsAll P).
Proof.
  split.
  - intros w. exists []. split; [now rewrite app_nil_r | constructor].
  - intros w1 w2 w3 (rs1 & E1 & F1) (rs2 & E2 & F2). exists (rs1 ++ rs2).
    split; [now rewrite E2, E1, app_assoc | now apply Forall_app].
Qed.

Lemma requestsAll_addRequest (P : Request -> Prop) r w :
  P r -> requestsAll P w (addRequest r w).
Proof. intros HP. exists [r]. split; [reflexivity | now repeat constructor]. Qed.

Lemma requestsAll_setCluster (P : Request -> Prop) c w w' :
  requestsAll P w w' -> requestsAll P w (setCluster c w').
Proof. intros H. exact H. Qed.

Lemma apiCreate_requests {A} (P : Request -> Prop) (k : Kind)
    (objects : Cluster -> gmap (string * string) A) setObjects ns name obj :
  P (mkRequest Create k ns name) ->
  preserves (requestsAll P) (apiCreate k objects setObjects ns name obj).
Proof.
  intros HP w o w'. rewrite apiCreate_run.
  destruct (apiFault w _); [|destruct (_ !! _)]; intros [= <- <-];
    try apply requestsAll_setCluster; now apply requestsAll_addRequest.
Qed.

Lemma apiDelete_requests {A} (P : Request -> Prop) (k : Kind)
    (objects : Cluster -> gmap (string * string) A) setObjects ns name :
  P (mkRequest Delete k ns name) ->
  preserves (requestsAll P) (apiDelete k objects setObjects ns name).
Proof.
  intros HP w o w'. rewrite apiDelete_run.
  destruct (apiFault w _); [|destruct (_ !! _)]; intros [= <- <-];
    try apply requestsAll_setCluster; now apply requestsAll_addRequest.
Qed.

Lemma apiGet_requests {A} (P : Request -> Prop) (k : Kind)
    (objects : Cluster -> gmap (string * string) A) ns name :
  P (mkRequest Get k ns name) ->
  preserves (requestsAll P) (apiGet k objects ns name).
Proof.
  intros HP w o w'. rewrite apiGet_run. intros [= <- <-].
  now apply requestsAll_addRequest.
Qed.

Lemma modify_addOutput_requests (P : Request -> Prop) line :
  preserves (requestsAll P) (modify (addOutput line)).
Proof.
  intros w o w' [= <- <-]. exists []. split; [now rewrite app_nil_r | constructor].
Qed.

Lemma CreateBuildPod_requests config :
  preserves (requestsAll (namedFor (BuildConfig.BuildID config)))
            (CreateBuildPod config).
Proof.
  unfold_calls. walk; apply apiCreate_requests; reflexivity.
Qed.

Lemma DeleteBuildResources_requests buildID namespace :
  preserves (requestsAll (namedFor buildID))
            (DeleteBuildResources buildID namespace).
Proof.
  unfold_calls. walk;
    first [ apply apiDelete_requests; reflexivity
          | apply modify_addOutput_requests ].
Qed.

Lemma GetPodStatus_requests buildID :
  preserves (requestsAll (namedFor buildID)) (GetPodStatus buildID).
Proof.
  unfold_calls. walk; apply apiGet_requests; reflexivity.
Qed.

(* ===================================================================== *)
(** * Resource names                                                      *)
(* ===================================================================== *)

Lemma append_cons (c : ascii) (s t : string) :
  String c s +:+ t = String c (s +:+ t).
Proof. reflexivity. Qed.

Lemma append_empty_l (s : string) : EmptyString +:+ s = s.
Proof. reflexivity. Qed.

Lemma append_empty_r (s : string) : s +:+ EmptyString = s.
Proof.
  induction s as [|c s IH]; [reflexivity | now rewrite append_cons, IH].
Qed.

Lemma append_assoc (a b c : string) : (a +:+ b) +:+ c = a +:+ b +:+ c.
Proof.
  induction a as [|x a IH]; [reflexivity | now rewrite !append_cons, IH].
Qed.

Lemma append_inv_head (a b c : string) : a +:+ b = a +:+ c -> b = c.
Proof.
  induction a as [|x a IH]; [auto | rewrite !append_cons; intros [= H]; auto].
Qed.

Lemma string_of_uint_digits (d : Decimal.uint) :
  allDigits (NilEmpty.string_of_uint d) = true.
Proof. induction d; simpl; auto. Qed.

Lemma FormatUint_digits (n : N) : allDigits (FormatUint n) = true.
Proof. apply string_of_uint_digits. Qed.

Lemma FormatUint_inj (x y : N) : FormatUint x = FormatUint y -> x = y.
Proof.
  unfold FormatUint. intros H. apply DecimalN.Unsigned.to_uint_inj.
  assert (E : NilEmpty.uint_of_string (NilEmpty.string_of_uint (N.to_uint x)) =
              NilEmpty.uint_of_string (NilEmpty.string_of_uint (N.to_uint y)))
    by now rewrite H.
  rewrite !NilEmpty.usu in E. congruence.
Qed.

(** A string of digits followed by something that does not start with a
    digit splits in one way only. *)
Lemma digits_split (d1 d2 s1 s2 : string) :
  allDigits d1 = true -> allDigits d2 = true ->
  startsNoDigit s1 = true -> startsNoDigit s2 = true ->
  d1 +:+ s1 = d2 +:+ s2 -> d1 = d2 /\ s1 = s2.
Proof.
  revert d2. induction d1 as [|c d1 IH]; intros [|c' d2] H1 H2 N1 N2;
    rewrite ?append_cons, ?append_empty_l.
  - auto.
  - intros ->. simpl in *. apply andb_prop in H2 as [H2 _].
    rewrite H2 in N1. discriminate.
  - intros <-. simpl in *. apply andb_prop in H1 as [H1 _].
    rewrite H1 in N2. discriminate.
  - intros [= <- E]. simpl in *.
    apply andb_prop in H1 as [_ H1]. apply andb_prop in H2 as [_ H2].
    destruct (IH d2 H1 H2 N1 N2 E) as [-> ->]. auto.
Qed.

Lemma resourceName_suffix (k : Kind) (x : N) :
  resourceName k x = "build-" +:+ FormatUint x +:+ suffixOf k.
Proof.
  destruct k; unfold resourceName, suffixOf; rewrite ?append_empty_r;
    reflexivity.
Qed.

Lemma resourceName_inj (k k' : Kind) (x y : N) :
  resourceName k x = resourceName k' y -> k = k' /\ x = y.
Proof.
  rewrite !resourceName_suffix. intros H.
  apply (append_inv_head "build-") in H.
  apply digits_split in H as [Hd Hs]; auto using FormatUint_digits;
    try (destruct k; reflexivity); try (destruct k'; reflexivity).
  split; [|now apply FormatUint_inj].
  destruct k, k'; simpl in Hs; first [reflexivity | discriminate].
Qed.

Lemma Itoa_of_N (n : N) : Itoa (Z.of_N n) = FormatUint n.
Proof. destruct n; reflexivity. Qed.

(** Below 2^63 the conversion to [int] changes nothing, so [strconv.Itoa]
    of it prints what ["%d"] prints. *)
Lemma Itoa_int_of_uint (n : N) :
  (n < 2 ^ 63)%N -> Itoa (int_of_uint n) = FormatUint n.
Proof.
  intros Hn. unfold int_of_uint.
  assert (Hz : 0 <= Z.of_N n < 2 ^ 63).
  { split; [apply N2Z.is_nonneg|]. change (2 ^ 63) with (Z.of_N (2 ^ 63)).
    now apply N2Z.inj_lt. }
  rewrite Z.mod_small by lia.
  destruct (Z.ltb_spec (Z.of_N n) (2 ^ 63)); [apply Itoa_of_N | lia].
Qed.

(** The name a creation operation returns is empty or the derived one. *)
Lemma CreatePersistentVolumeClaimForArtifacts_name buildID ns w n err w' :
  CreatePersistentVolumeClaimForArtifacts buildID ns w = (Return (n, err), w') ->
  (err = None /\ n = resourceName PersistentVolumeClaims buildID) \/
  (err <> None /\ n = EmptyString).
Proof.
  unfold_calls. unfold bind, ret. rewrite apiCreate_run. cbn.
  destruct (apiFault w _); [|destruct (_ !! _)]; intros [= <- <- <-];
    first [left; split; reflexivity | right; split; [discriminate|reflexivity]].
Qed.

Lemma CreateConfigMapForEnvFiles_name buildID projectID ns w n err w' :
  CreateConfigMapForEnvFiles buildID projectID ns w = (Return (n, err), w') ->
  (err = None /\ (n = resourceName ConfigMaps buildID \/ n = EmptyString)) \/
  (err <> None /\ n = EmptyString).
Proof.
  unfold_calls. unfold bind, ret, ask.
  destruct (DB w) as [conn|]; [|intros [= <- <- <-]; left; auto].
  destruct (db.FindEnvs conn projectID "file") as [envs [e|]];
    [intros [= <- <- <-]; right; split; [discriminate|reflexivity]|].
  destruct (_ =? _)%nat; [intros [= <- <- <-]; left; auto|].
  destruct (envFilesData envs ∅) as [data [e|]];
    [intros [= <- <- <-]; right; split; [discriminate|reflexivity]|].
  rewrite apiCreate_run. cbn.
  destruct (apiFault w _); [|destruct (_ !! _)]; intros [= <- <- <-];
    first [left; split; [reflexivity|left; reflexivity]
          | right; split; [discriminate|reflexivity]].
Qed.

Lemma CreateSecretForKeystore_name buildID projectID ns w n err w' :
  CreateSecretForKeystore buildID projectID ns w = (Return (n, err), w') ->
  (err = None /\ (n = resourceName Secrets buildID \/ n = EmptyString)) \/
  (err <> None /\ n = EmptyString).
Proof.
  unfold_calls. unfold bind, ret, ask.
  destruct (DB w) as [conn|]; [|intros [= <- <- <-]; left; auto].
  destruct (db.FirstActiveKeystore conn projectID) as [keystore|e];
    [|intros [= <- <- <-]; left; auto].
  destruct (DecodeString _) as [keystoreData [e|]];
    [intros [= <- <- <-]; right; split; [discriminate|reflexivity]|].
  rewrite apiCreate_run. cbn.
  destruct (apiFault w _); [|destruct (_ !! _)]; intros [= <- <- <-];
    first [left; split; [reflexivity|left; reflexivity]
          | right; split; [discriminate|reflexivity]].
Qed.

(** ** C1: deterministic, distinct resource names *)

(** C1: the four names are functions of the build id alone, [build-<x>],
    [build-<x>-env-files], [build-<x>-keystore] and [build-<x>-artifacts]:
    every request that starting a build, deleting its resources or reading
    its status sends, in any state of the world, names its object so, and
    the creation operations return these names; the names of one build
    differ from each other, and from every name of another build. *)
Theorem C1_resource_names (x : N) :
  (forall k, resourceName k x = "build-" +:+ FormatUint x +:+ suffixOf k) /\
  (forall config, BuildConfig.BuildID config = x ->
     preserves (requestsAll (namedFor x)) (CreateBuildPod config)) /\
  (forall ns, preserves (requestsAll (namedFor x)) (DeleteBuildResources x ns)) /\
  preserves (requestsAll (namedFor x)) (GetPodStatus x) /\
  (forall ns w n w',
     CreatePersistentVolumeClaimForArtifacts x ns w = (Return (n, None), w') ->
     n = resourceName PersistentVolumeClaims x) /\
  (forall p ns w n w',
     CreateConfigMapForEnvFiles x p ns w = (Return (n, None), w') ->
     n <> EmptyString -> n = resourceName ConfigMaps x) /\
  (forall p ns w n w',
     CreateSecretForKeystore x p ns w = (Return (n, None), w') ->
     n <> EmptyString -> n = resourceName Secrets x) /\
  (forall k k', k <> k' -> resourceName k x <> resourceName k' x) /\
  (forall y k k', x <> y -> resourceName k x <> resourceName k' y).
Proof.
  split; [intros k; apply resourceName_suffix|].
  split; [intros config <-; apply CreateBuildPod_requests|].
  split; [intros ns; apply DeleteBuildResources_requests|].
  split; [apply GetPodStatus_requests|].
  split.
  { intros ns w n w' H.
    apply CreatePersistentVolumeClaimForArtifacts_name in H.
    destruct H as [[_ ->]|[H _]]; [reflexivity | contradiction]. }
  split.
  { intros p ns w n w' H Hn. apply CreateConfigMapForEnvFiles_name in H.
    destruct H as [[_ [->| ->]]|[H _]]; [reflexivity | contradiction ..]. }
  split.
  { intros p ns w n w' H Hn. apply CreateSecretForKeystore_name in H.
    destruct H as [[_ [->| ->]]|[H _]]; [reflexivity | contradiction ..]. }
  split.
  - intros k k' Hk E. apply resourceName_inj in E. tauto.
  - intros y k k' Hxy E. apply resourceName_inj in E. tauto.
Qed.

(* ===================================================================== *)
(** * Labels                                                              *)
(* ===================================================================== *)

Lemma addsOnly_refl {A} (good : A -> Prop) m : addsOnly good m m.
Proof. intros key. now left. Qed.

Lemma addsOnly_trans {A} (good : A -> Prop) m1 m2 m3 :
  addsOnly good m1 m2 -> addsOnly good m2 m3 -> addsOnly good m1 m3.
Proof.
  intros H12 H23 key.
  destruct (H12 key) as [E12|(N1 & obj & E2 & G)],
           (H23 key) as [E23|(N2 & obj' & E3 & G')].
  - left. congruence.
  - right. split; [congruence | eauto].
  - right. split; [assumption|]. exists obj. split; [congruence | assumption].
  - congruence.
Qed.

Lemma addsOnly_insert {A} (good : A -> Prop) (m : gmap (string * string) A)
    key obj :
  m !! key = None -> good obj -> addsOnly good m (<[key := obj]> m).
Proof.
  intros Hnone Hgood key'. destruct (decide (key = key')) as [<-|Hne].
  - right. split; [assumption|]. exists obj.
    split; [apply lookup_insert_eq | assumption].
  - left. now apply lookup_insert_ne.
Qed.

#[local] Instance addsLabelled_preorder config : PreOrder (addsLabelled config).
Proof.
  split.
  - intros w. repeat split; apply addsOnly_refl.
  - intros w1 w2 w3 (P1 & C1 & S1 & V1) (P2 & C2 & S2 & V2).
    repeat split; eapply addsOnly_trans; eassumption.
Qed.

Lemma labelled_insert_eq name ns labels key value :
  labelled (v1.ObjectMeta.mk name ns (<[key := value]> labels)) key value.
Proof. apply lookup_insert_eq. Qed.

Lemma labelled_insert_ne name ns labels key key' value value' :
  key' <> key ->
  labelled (v1.ObjectMeta.mk name ns labels) key value ->
  labelled (v1.ObjectMeta.mk name ns (<[key' := value']> labels)) key value.
Proof. intros Hne H. unfold labelled. simpl. now rewrite lookup_insert_ne. Qed.

Ltac labels :=
  repeat first
    [ apply labelled_insert_eq
    | apply labelled_insert_ne; [discriminate|] ].

Ltac adds_labelled :=
  match goal with
  | |- preserves _ (apiCreate _ _ _ _ _ _) =>
    let w := fresh "w" in let o := fresh "o" in let w' := fresh "w'" in
    intros w o w'; rewrite apiCreate_run;
    destruct (apiFault w _);
      [|destruct (_ !! _) eqn:?]; intros [= <- <-];
    try reflexivity;
    repeat split; cbn; try apply addsOnly_refl;
    apply addsOnly_insert; [assumption|];
    repeat split; cbn; labels
  end.

Lemma CreateBuildPod_labels config :
  preserves (addsLabelled config) (CreateBuildPod config).
Proof. unfold_calls. walk; adds_labelled. Qed.

(** ** C9: labels of the created objects *)

(** C9, as stated, fails: the objects are labelled app=flotio-build, not
    app=build-system.  Here the claim of build 42 in the namespace default
    is created, and it carries the label app with the value flotio-build. *)
Lemma C9_app_label_counterexample :
  exists pvc w',
    CreatePersistentVolumeClaimForArtifacts 42 "default" (sampleWorld None)
    = (Return ("build-42-artifacts", None), w') /\
    pvcs (cluster w') !! ("default", "build-42-artifacts") = Some pvc /\
    labelled (v1.PersistentVolumeClaim.ObjectMeta pvc) "app" "flotio-build" /\
    ~ labelled (v1.PersistentVolumeClaim.ObjectMeta pvc) "app" "build-system".
Proof.
  eexists _, _. split; [vm_compute; reflexivity|].
  split; [vm_compute; reflexivity|].
  split; [vm_compute; reflexivity | vm_compute; discriminate].
Qed.

(** C9 (amended): every object that starting a build adds to the cluster,
    whether the call succeeds or not, carries the labels app=flotio-build
    and build-id=<id>; a Pod carries project-id and platform as well, and
    its build-id and project-id are the ids converted to [int], the same
    decimal text for ids below 2^63. *)
Theorem C9_created_objects_are_labelled
    (config : BuildConfig.t) (w w' : World) (o : Outcome (option string))
    (ns name : string) :
  CreateBuildPod config w = (o, w') ->
  (forall pvc, pvcs (cluster w) !! (ns, name) = None ->
               pvcs (cluster w') !! (ns, name) = Some pvc ->
               buildLabels (BuildConfig.BuildID config)
                           (v1.PersistentVolumeClaim.ObjectMeta pvc)) /\
  (forall cm, configMaps (cluster w) !! (ns, name) = None ->
              configMaps (cluster w') !! (ns, name) = Some cm ->
              buildLabels (BuildConfig.BuildID config)
                          (v1.ConfigMap.ObjectMeta cm)) /\
  (forall sec, secrets (cluster w) !! (ns, name) = None ->
               secrets (cluster w') !! (ns, name) = Some sec ->
               buildLabels (BuildConfig.BuildID config)
                           (v1.Secret.ObjectMeta sec)) /\
  (forall pod, pods (cluster w) !! (ns, name) = None ->
               pods (cluster w') !! (ns, name) = Some pod ->
               podLabels config (v1.Pod.ObjectMeta pod) /\
               ((BuildConfig.BuildID config < 2 ^ 63)%N ->
                labelled (v1.Pod.ObjectMeta pod) "build-id"
                         (FormatUint (BuildConfig.BuildID config)))).
Proof.
  intros H. apply CreateBuildPod_labels in H.
  destruct H as (P & C & S & V).
  assert (pick : forall A (good : A -> Prop) (m m' : gmap (string * string) A) obj,
             addsOnly good m m' -> m !! (ns, name) = None ->
             m' !! (ns, name) = Some obj -> good obj).
  { intros A good m m' obj Hadd Hn Hs.
    destruct (Hadd (ns, name)) as [E|(_ & obj' & E & G)]; congruence. }
  split; [intros pvc; apply (pick _ _ _ _ _ V)|].
  split; [intros cm; apply (pick _ _ _ _ _ C)|].
  split; [intros sec; apply (pick _ _ _ _ _ S)|].
  intros pod Hn Hs. pose proof (pick _ _ _ _ _ P Hn Hs) as G. cbv beta in G.
  split; [exact G|]. intros Hlt. destruct G as (_ & G & _).
  now rewrite Itoa_int_of_uint in G.
Qed.

(* ===================================================================== *)
(** * The steps of [CreateBuildPod]                                       *)
(* ===================================================================== *)

Lemma bind_run {A B} (c : M A) (k : A -> M B) w a w1 :
  c w = (Return a, w1) -> bind c k w = k a w1.
Proof. unfold bind. now intros ->. Qed.

Lemma getKubernetesConfig_run w :
  getKubernetesConfig w = (Return (kubernetesConfigOf w), w).
Proof.
  unfold getKubernetesConfig, kubernetesConfigOf, bind, ask, ret.
  destruct (InClusterConfig w); [reflexivity|].
  destruct (_ || _); reflexivity.
Qed.

Lemma getNamespace_run w : getNamespace w = (Return (namespaceOf w), w).
Proof.
  unfold getNamespace, namespaceOf, bind, ask, ret.
  destruct (String.eqb _ _); reflexivity.
Qed.

Lemma getFlutterBuildImage_run w :
  getFlutterBuildImage w = (Return (imageOf w), w).
Proof.
  unfold getFlutterBuildImage, imageOf, bind, ask, ret.
  destruct (String.eqb _ _); reflexivity.
Qed.

(** [CreateBuildPod], step by step. *)
Lemma CreateBuildPod_run config w :
  CreateBuildPod config w =
  let buildID := BuildConfig.BuildID config in
  let projectID := db.Project.ID (BuildConfig.Project config) in
  let ns := namespaceOf w in
  match kubernetesConfigOf w with
  | inr e => (Return (Some e), w)
  | inl kubeConfig =>
  match NewForConfig w kubeConfig with
  | Some e => (Return (Some ("failed to create clientset: " +:+ e)), w)
  | None =>
  match CreatePersistentVolumeClaimForArtifacts buildID ns w with
  | (Panic msg, w1) => (Panic msg, w1)
  | (Return (_, Some e), w1) =>
    (Return (Some ("failed to create PVC: " +:+ e)), w1)
  | (Return (pvcName, None), w1) =>
  match CreateConfigMapForEnvFiles buildID projectID ns w1 with
  | (Panic msg, w2) => (Panic msg, w2)
  | (Return (_, Some e), w2) =>
    (Return (Some ("failed to create ConfigMap: " +:+ e)), w2)
  | (Return (configMapName, None), w2) =>
  match secretStep config ns w2 with
  | (Panic msg, w3) => (Panic msg, w3)
  | (Return (_, Some e), w3) =>
    (Return (Some ("failed to create Secret: " +:+ e)), w3)
  | (Return (secretName, None), w3) =>
    podStep config ns pvcName configMapName secretName w3
  end end end end end.
Proof.
  cbv zeta. unfold CreateBuildPod.
  rewrite (bind_run _ _ _ _ _ (getKubernetesConfig_run w)).
  destruct (kubernetesConfigOf w) as [kubeConfig|e]; [|reflexivity].
  unfold bind at 1. unfold ask at 1.
  destruct (NewForConfig w kubeConfig); [reflexivity|].
  rewrite (bind_run _ _ _ _ _ (getNamespace_run w)).
  unfold bind at 1.
  destruct (CreatePersistentVolumeClaimForArtifacts _ _ w)
    as [[[pvcName [e|]]|msg] w1]; try reflexivity.
  unfold bind at 1.
  destruct (CreateConfigMapForEnvFiles _ _ _ w1)
    as [[[configMapName [e|]]|msg] w2]; try reflexivity.
  unfold bind at 1. fold (secretStep config (namespaceOf w)).
  destruct (secretStep config (namespaceOf w) w2)
    as [[[secretName [e|]]|msg] w3]; try reflexivity.
  unfold bind at 1. unfold ask at 1. unfold podStep.
  destruct (DB w3) as [conn|]; [|reflexivity].
  unfold podFor, whenNamed, dbVariables, keystoreVariables, parseQuantity.
  destruct (db.FindEnvs conn _ "env") as [dbEnvs [e|]];
    destruct (String.eqb configMapName EmptyString);
    destruct (String.eqb secretName EmptyString); cbn [negb];
    rewrite (bind_run _ _ _ _ _ (getFlutterBuildImage_run w3));
    rewrite ?app_nil_r, <- ?app_assoc; unfold bind, ret;
    destruct (CreatePod _ _ w3) as [[[e'|]|msg] w4]; reflexivity.
Qed.

(** ** What a call leaves unchanged *)

#[local] Instance sameProcess_preorder : PreOrder sameProcess.
Proof.
  split.
  - intros w. repeat split.
  - intros w1 w2 w3 (A1 & B1 & C1 & D1 & E1) (A2 & B2 & C2 & D2 & E2).
    repeat split; congruence.
Qed.

#[local] Instance keeps_preorder {X} (part : Cluster -> X) : PreOrder (keeps part).
Proof.
  split; [intros w; reflexivity|].
  intros w1 w2 w3. unfold keeps. congruence.
Qed.

Lemma apiCreate_sameProcess {A} (k : Kind)
    (objects : Cluster -> gmap (string * string) A) setObjects ns name obj :
  preserves sameProcess (apiCreate k objects setObjects ns name obj).
Proof.
  intros w o w'. rewrite apiCreate_run.
  destruct (apiFault w _); [|destruct (_ !! _)]; intros [= <- <-];
    repeat split.
Qed.

Lemma apiCreate_keeps {A X} (part : Cluster -> X) (k : Kind)
    (objects : Cluster -> gmap (string * string) A) setObjects ns name obj :
  (forall m c, part (setObjects m c) = part c) ->
  preserves (keeps part) (apiCreate k objects setObjects ns name obj).
Proof.
  intros Hpart w o w'. rewrite apiCreate_run.
  destruct (apiFault w _); [|destruct (_ !! _)]; intros [= <- <-];
    unfold keeps; cbn; auto.
Qed.

Lemma CreatePersistentVolumeClaimForArtifacts_sameProcess buildID ns :
  preserves sameProcess (CreatePersistentVolumeClaimForArtifacts buildID ns).
Proof. unfold_calls. walk. apply apiCreate_sameProcess. Qed.

Lemma CreateConfigMapForEnvFiles_sameProcess buildID projectID ns :
  preserves sameProcess (CreateConfigMapForEnvFiles buildID projectID ns).
Proof. unfold_calls. walk. apply apiCreate_sameProcess. Qed.

Lemma CreateSecretForKeystore_sameProcess buildID projectID ns :
  preserves sameProcess (CreateSecretForKeystore buildID projectID ns).
Proof. unfold_calls. walk. apply apiCreate_sameProcess. Qed.

Lemma secretStep_sameProcess config ns :
  preserves sameProcess (secretStep config ns).
Proof.
  unfold secretStep. destruct (String.eqb _ _);
    [apply CreateSecretForKeystore_sameProcess | apply preserves_ret; exact _].
Qed.

Lemma CreatePersistentVolumeClaimForArtifacts_keeps {X} (part : Cluster -> X)
    buildID ns :
  (forall m c, part (setPvcs m c) = part c) ->
  preserves (keeps part) (CreatePersistentVolumeClaimForArtifacts buildID ns).
Proof. intros H. unfold_calls. walk. now apply apiCreate_keeps. Qed.

Lemma CreateConfigMapForEnvFiles_keeps {X} (part : Cluster -> X)
    buildID projectID ns :
  (forall m c, part (setConfigMaps m c) = part c) ->
  preserves (keeps part) (CreateConfigMapForEnvFiles buildID projectID ns).
Proof. intros H. unfold_calls. walk. now apply apiCreate_keeps. Qed.

Lemma CreateSecretForKeystore_keeps {X} (part : Cluster -> X)
    buildID projectID ns :
  (forall m c, part (setSecrets m c) = part c) ->
  preserves (keeps part) (CreateSecretForKeystore buildID projectID ns).
Proof. intros H. unfold_calls. walk. now apply apiCreate_keeps. Qed.

Lemma secretStep_keeps {X} (part : Cluster -> X) config ns :
  (forall m c, part (setSecrets m c) = part c) ->
  preserves (keeps part) (secretStep config ns).
Proof.
  intros H. unfold secretStep. destruct (String.eqb _ _);
    [now apply CreateSecretForKeystore_keeps | apply preserves_ret; exact _].
Qed.

Lemma CreatePod_keeps {X} (part : Cluster -> X) ns pod :
  (forall m c, part (setPods m c) = part c) ->
  preserves (keeps part) (CreatePod ns pod).
Proof. intros H. unfold CreatePod. now apply apiCreate_keeps. Qed.

Lemma CreatePod_sameProcess ns pod : preserves sameProcess (CreatePod ns pod).
Proof. apply apiCreate_sameProcess. Qed.

(** ** Successful runs *)

Lemma apiCreate_ok {A} (k : Kind)
    (objects : Cluster -> gmap (string * string) A) setObjects ns name obj w w' :
  apiCreate k objects setObjects ns name obj w = (Return None, w') ->
  apiFault w (mkRequest Create k ns name) = None /\
  objects (cluster w) !! (ns, name) = None /\
  w' = setCluster (setObjects (<[(ns, name) := obj]> (objects (cluster w)))
                              (cluster w))
                  (addRequest (mkRequest Create k ns name) w).
Proof.
  rewrite apiCreate_run.
  destruct (apiFault w _); [discriminate|].
  destruct (_ !! _); [discriminate|]. intros [= <-]. auto.
Qed.

(** A successful [CreateBuildPod] went through all its steps. *)
Lemma CreateBuildPod_success config w w' :
  CreateBuildPod config w = (Return None, w') ->
  exists conn pvcName configMapName secretName w1 w2 w3,
    CreatePersistentVolumeClaimForArtifacts
      (BuildConfig.BuildID config) (namespaceOf w) w
    = (Return (pvcName, None), w1) /\
    CreateConfigMapForEnvFiles
      (BuildConfig.BuildID config)
      (db.Project.ID (BuildConfig.Project config)) (namespaceOf w) w1
    = (Return (configMapName, None), w2) /\
    secretStep config (namespaceOf w) w2 = (Return (secretName, None), w3) /\
    DB w = Some conn /\
    sameProcess w w3 /\
    CreatePod (namespaceOf w)
              (podFor config conn (namespaceOf w) (imageOf w) pvcName
                      configMapName secretName) w3
    = (Return None, w').
Proof.
  rewrite CreateBuildPod_run. cbv zeta.
  destruct (kubernetesConfigOf w) as [kubeConfig|e]; [|discriminate].
  destruct (NewForConfig w kubeConfig); [discriminate|].
  destruct (CreatePersistentVolumeClaimForArtifacts _ _ w)
    as [[[pvcName [e|]]|msg] w1] eqn:E1; try discriminate.
  destruct (CreateConfigMapForEnvFiles _ _ _ w1)
    as [[[configMapName [e|]]|msg] w2] eqn:E2; try discriminate.
  destruct (secretStep config (namespaceOf w) w2)
    as [[[secretName [e|]]|msg] w3] eqn:E3; try discriminate.
  unfold podStep.
  assert (S3 : sameProcess w w3).
  { transitivity w1;
      [eapply CreatePersistentVolumeClaimForArtifacts_sameProcess, E1|].
    transitivity w2; [eapply CreateConfigMapForEnvFiles_sameProcess, E2|].
    eapply secretStep_sameProcess, E3. }
  pose proof S3 as (Henv & _ & _ & Hdb & _).
  assert (Himg : imageOf w3 = imageOf w) by (unfold imageOf; now rewrite Henv).
  rewrite Himg, Hdb.
  destruct (DB w) as [conn|]; [|discriminate].
  destruct (CreatePod _ _ w3) as [[[e|]|msg] w4] eqn:E4; try discriminate.
  intros [= <-]. exists conn, pvcName, configMapName, secretName, w1, w2, w3.
  auto 10.
Qed.

Lemma CreatePod_ok ns pod w w' :
  CreatePod ns pod w = (Return None, w') ->
  pods (cluster w) !! (ns, v1.ObjectMeta.Name (v1.Pod.ObjectMeta pod)) = None /\
  pods (cluster w') !! (ns, v1.ObjectMeta.Name (v1.Pod.ObjectMeta pod))
  = Some (pending pod) /\
  requests w' = requests w
                ++ [mkRequest Create Pods ns
                              (v1.ObjectMeta.Name (v1.Pod.ObjectMeta pod))].
Proof.
  intros H. apply apiCreate_ok in H as (_ & Hfree & ->).
  split; [assumption|]. split; [apply lookup_insert_eq | reflexivity].
Qed.

(** The pod a successful [CreateBuildPod] leaves in the cluster. *)
Lemma CreateBuildPod_pod config w w' :
  CreateBuildPod config w = (Return None, w') ->
  exists conn pvcName configMapName secretName,
    DB w = Some conn /\
    (secretName = EmptyString \/
     secretName = resourceName Secrets (BuildConfig.BuildID config)) /\
    pods (cluster w) !! (namespaceOf w,
                         resourceName Pods (BuildConfig.BuildID config)) = None /\
    pods (cluster w') !! (namespaceOf w,
                          resourceName Pods (BuildConfig.BuildID config))
    = Some (pending (podFor config conn (namespaceOf w) (imageOf w) pvcName
                            configMapName secretName)).
Proof.
  intros H.
  apply CreateBuildPod_success
    in H as (conn & pvcName & configMapName & secretName & w1 & w2 & w3
             & E1 & E2 & E3 & Hdb & S3 & E4).
  exists conn, pvcName, configMapName, secretName.
  split; [assumption|]. split.
  { unfold secretStep in E3. destruct (String.eqb _ _).
    - apply CreateSecretForKeystore_name in E3.
      destruct E3 as [[_ [->| ->]]|[Hc _]]; auto. contradiction.
    - injection E3 as <- _. auto. }
  pose proof (CreatePod_ok _ _ _ _ E4) as (Hfree & Hpod & _).
  cbn in Hfree, Hpod. split; [|exact Hpod].
  assert (Hp : pods (cluster w3) = pods (cluster w)).
  { transitivity (pods (cluster w2));
      [eapply (secretStep_keeps pods), E3; reflexivity|].
    transitivity (pods (cluster w1));
      [eapply (CreateConfigMapForEnvFiles_keeps pods), E2; reflexivity|].
    eapply (CreatePersistentVolumeClaimForArtifacts_keeps pods), E1;
      reflexivity. }
  now rewrite <- Hp.
Qed.

(** ** C6: the composed environment *)



(* ===================================================================== *)
(** * Optional resources                                                  *)
(* ===================================================================== *)

Lemma CreateConfigMapForEnvFiles_no_DB buildID projectID ns w :
  DB w = None ->
  CreateConfigMapForEnvFiles buildID projectID ns w
  = (Return (EmptyString, None), w).
Proof.
  intros H. unfold CreateConfigMapForEnvFiles, bind, ask. now rewrite H.
Qed.

Lemma CreateConfigMapForEnvFiles_no_files buildID projectID ns w conn :
  DB w = Some conn ->
  db.FindEnvs conn projectID "file" = ([], None) ->
  CreateConfigMapForEnvFiles buildID projectID ns w
  = (Return (EmptyString, None), w).
Proof.
  intros H1 H2. unfold CreateConfigMapForEnvFiles, bind, ask.
  now rewrite H1, H2.
Qed.

Lemma CreateSecretForKeystore_no_DB buildID projectID ns w :
  DB w = None ->
  CreateSecretForKeystore buildID projectID ns w
  = (Return (EmptyString, None), w).
Proof.
  intros H. unfold CreateSecretForKeystore, bind, ask. now rewrite H.
Qed.

Lemma CreateSecretForKeystore_query_failed buildID projectID ns w conn e :
  DB w = Some conn ->
  db.FirstActiveKeystore conn projectID = inr e ->
  CreateSecretForKeystore buildID projectID ns w
  = (Return (EmptyString, None), w).
Proof.
  intros H1 H2. unfold CreateSecretForKeystore, bind, ask.
  now rewrite H1, H2.
Qed.

(** A call of [CreateSecretForKeystore] that finds the active keystore and
    returns no error has created the Secret. *)
Lemma CreateSecretForKeystore_created buildID projectID ns w conn keystore n w' :
  DB w = Some conn ->
  db.FirstActiveKeystore conn projectID = inl keystore ->
  CreateSecretForKeystore buildID projectID ns w = (Return (n, None), w') ->
  exists keystoreData secret,
    DecodeString (db.Keystore.KeystoreFile keystore) = (keystoreData, None) /\
    n = resourceName Secrets buildID /\
    secrets (cluster w) !! (ns, n) = None /\
    secrets (cluster w') !! (ns, n) = Some secret /\
    requests w' = requests w ++ [mkRequest Create Secrets ns n] /\
    v1.Secret.Type_ secret = v1.SecretTypeOpaque /\
    v1.Secret.Data secret !! "keystore.jks" = Some keystoreData /\
    v1.Secret.StringData secret !! "store-password"
    = Some (db.Keystore.StorePassword keystore) /\
    v1.Secret.StringData secret !! "key-alias"
    = Some (db.Keystore.KeyAlias keystore) /\
    v1.Secret.StringData secret !! "key-password"
    = Some (db.Keystore.KeyPassword keystore).
Proof.
  intros H1 H2. unfold CreateSecretForKeystore, bind, ask.
  rewrite H1, H2.
  destruct (DecodeString _) as [keystoreData [e|]]; [discriminate|].
  unfold CreateSecret.
  match goal with
  | |- context [apiCreate ?k ?o ?s ?ns ?name ?obj w] =>
    destruct (apiCreate k o s ns name obj w) as [[[e|]|msg] w1] eqn:E;
      try discriminate
  end.
  apply apiCreate_ok in E as (_ & Hfree & ->).
  intros [= <- <-]. do 2 eexists.
  split; [reflexivity|]. split; [reflexivity|].
  split; [exact Hfree|]. split; [apply lookup_insert_eq|].
  split; [reflexivity|]. split; [reflexivity|].
  cbn. repeat split; now simplify_map_eq.
Qed.

Lemma secretStep_android config ns :
  BuildConfig.Platform config = "android" ->
  secretStep config ns =
  CreateSecretForKeystore (BuildConfig.BuildID config)
    (db.Project.ID (BuildConfig.Project config)) ns.
Proof. intros H. unfold secretStep. now rewrite H. Qed.

Lemma secretStep_other config ns :
  BuildConfig.Platform config <> "android" ->
  secretStep config ns = ret (EmptyString, None).
Proof.
  intros H. unfold secretStep.
  now destruct (String.eqb_spec (BuildConfig.Platform config) "android").
Qed.

Lemma whenNamed_empty {A} (l : list A) : whenNamed EmptyString l = [].
Proof. reflexivity. Qed.

Lemma whenNamed_resourceName {A} k buildID (l : list A) :
  whenNamed (resourceName k buildID) l = l.
Proof. destruct k; reflexivity. Qed.

Lemma keystoreNames_not_composed config x :
  In x (buildEnvironmentVariables config) ->
  ~ In (v1.EnvVar.Name x) keystoreNames.
Proof.
  intros Hx Hn. apply In_buildEnvironmentVariables in Hx.
  destruct Hx as [Hx|[[_ ->]|[[_ ->]|[_ ->]]]].
  - apply fixedVariables_name in Hx. simpl in Hx, Hn.
    destruct Hx as [E|[E|[E|[E|[E|[E|[E|[E|[E|[]]]]]]]]]];
      rewrite <- E in Hn; intuition discriminate.
  - simpl in Hn. intuition discriminate.
  - simpl in Hn. intuition discriminate.
  - simpl in Hn. intuition discriminate.
Qed.

Lemma dbVariables_plain conn projectID x :
  In x (dbVariables conn projectID) -> v1.EnvVar.ValueFrom x = None.
Proof.
  unfold dbVariables. destruct (db.FindEnvs _ _ _) as [dbEnvs [e|]]; [intros []|].
  intros H. apply in_map_iff in H as (e & <- & _). reflexivity.
Qed.

Lemma buildEnvironmentVariables_plain config x :
  In x (buildEnvironmentVariables config) -> v1.EnvVar.ValueFrom x = None.
Proof.
  intros Hx. apply In_buildEnvironmentVariables in Hx.
  destruct Hx as [Hx|[[_ ->]|[[_ ->]|[_ ->]]]]; try reflexivity.
  unfold fixedVariables in Hx. simpl in Hx.
  repeat (destruct Hx as [<-|Hx]; [reflexivity|]). destruct Hx.
Qed.

(** Unless the platform is Android, no request about a Secret is sent. *)
Lemma CreateBuildPod_no_secret_request config :
  BuildConfig.Platform config <> "android" ->
  preserves (requestsAll (fun r => kind r <> Secrets)) (CreateBuildPod config).
Proof.
  intros Hp. unfold CreateBuildPod.
  destruct (String.eqb_spec (BuildConfig.Platform config) "android");
    [contradiction|].
  unfold_calls. walk; apply apiCreate_requests; discriminate.
Qed.

Lemma CreateBuildPod_keeps_secrets config :
  BuildConfig.Platform config <> "android" ->
  preserves (keeps secrets) (CreateBuildPod config).
Proof.
  intros Hp. unfold CreateBuildPod.
  destruct (String.eqb_spec (BuildConfig.Platform config) "android");
    [contradiction|].
  unfold_calls. walk; apply apiCreate_keeps; reflexivity.
Qed.

(** ** C4: the keystore is wired in for Android only *)

(** C4: when the project has an active keystore record and the build is
    started, then for Platform "android" the Secret is created and the
    pod has the read-only mount /keystore of it, and its environment ends
    with KEYSTORE_PATH, a plain constant, and KEYSTORE_PASSWORD, KEY_ALIAS
    and KEY_PASSWORD, each a reference to a field of the Secret and no
    plain value; for Platform "web" no request about a Secret is sent,
    the Secrets of the cluster are as before, the pod has neither a
    keystore mount nor a Secret volume, and its environment is the
    composed one followed by the variables of the database only: no
    variable refers to a Secret, and a variable with the name of a keystore
    variable can only be one of the project's own variable entries. *)
Theorem C4_keystore_for_android_only
    (config : BuildConfig.t) (w w' : World) (conn : db.Conn)
    (keystore : db.Keystore.t) :
  DB w = Some conn ->
  db.FirstActiveKeystore conn (db.Project.ID (BuildConfig.Project config))
  = inl keystore ->
  CreateBuildPod config w = (Return None, w') ->
  let ns := namespaceOf w in
  let secretName := resourceName Secrets (BuildConfig.BuildID config) in
  exists pod container,
    pods (cluster w') !! (ns, resourceName Pods (BuildConfig.BuildID config))
    = Some pod /\
    v1.PodSpec.Containers (v1.Pod.Spec pod) = [container] /\
    (BuildConfig.Platform config = "android" ->
     (exists keystoreData secret,
        DecodeString (db.Keystore.KeystoreFile keystore)
        = (keystoreData, None) /\
        secrets (cluster w) !! (ns, secretName) = None /\
        secrets (cluster w') !! (ns, secretName) = Some secret /\
        v1.Secret.Data secret !! "keystore.jks" = Some keystoreData /\
        v1.Secret.StringData secret !! "store-password"
        = Some (db.Keystore.StorePassword keystore) /\
        v1.Secret.StringData secret !! "key-alias"
        = Some (db.Keystore.KeyAlias keystore) /\
        v1.Secret.StringData secret !! "key-password"
        = Some (db.Keystore.KeyPassword keystore)) /\
     In (v1.VolumeMount.mk "keystore" "/keystore" true)
        (v1.Container.VolumeMounts container) /\
     In (v1.Volume.mk "keystore" (v1.SecretSource secretName))
        (v1.PodSpec.Volumes (v1.Pod.Spec pod)) /\
     v1.Container.Env container =
     (buildEnvironmentVariables config
      ++ dbVariables conn (db.Project.ID (BuildConfig.Project config)))
     ++ [ plainVar "KEYSTORE_PATH" "/keystore/keystore.jks";
          secretVar "KEYSTORE_PASSWORD" secretName "store-password";
          secretVar "KEY_ALIAS" secretName "key-alias";
          secretVar "KEY_PASSWORD" secretName "key-password" ]) /\
    (BuildConfig.Platform config = "web" ->
     requestsAll (fun r => kind r <> Secrets) w w' /\
     secrets (cluster w') = secrets (cluster w) /\
     (forall m, In m (v1.Container.VolumeMounts container) ->
                v1.VolumeMount.Name m <> "keystore" /\
                v1.VolumeMount.MountPath m <> "/keystore") /\
     (forall v s, In v (v1.PodSpec.Volumes (v1.Pod.Spec pod)) ->
                  v1.Volume.Source v <> v1.SecretSource s) /\
     v1.Container.Env container =
     buildEnvironmentVariables config
     ++ dbVariables conn (db.Project.ID (BuildConfig.Project config)) /\
     (forall x, In x (v1.Container.Env container) ->
                v1.EnvVar.ValueFrom x = None) /\
     (forall x, In x (v1.Container.Env container) ->
                In (v1.EnvVar.Name x) keystoreNames ->
                In x (dbVariables conn
                        (db.Project.ID (BuildConfig.Project config))))).
Proof.
  intros Hdb Hks H. cbv zeta.
  pose proof (CreateBuildPod_success _ _ _ H)
    as (conn' & pvcName & configMapName & secretName & w1 & w2 & w3
        & E1 & E2 & E3 & Hdb' & S3 & E4).
  rewrite Hdb in Hdb'. injection Hdb' as <-.
  pose proof (CreatePod_ok _ _ _ _ E4) as (_ & Hpod & _). cbn in Hpod.
  do 2 eexists. split; [exact Hpod|]. split; [reflexivity|]. split.
  - (* android *)
    intros Hp. rewrite (secretStep_android _ _ Hp) in E3.
    assert (Hdb2 : DB w2 = Some conn).
    { rewrite <- Hdb.
      transitivity (DB w1);
        [eapply CreateConfigMapForEnvFiles_sameProcess, E2
        |eapply CreatePersistentVolumeClaimForArtifacts_sameProcess, E1]. }
    apply (CreateSecretForKeystore_created _ _ _ _ _ _ _ _ Hdb2 Hks) in E3
      as (keystoreData & secret & Hdec & -> & Hfree & Hsec & _ & _
          & D1 & D2 & D3 & D4).
    assert (Hs2 : secrets (cluster w2) = secrets (cluster w)).
    { transitivity (secrets (cluster w1));
        [eapply (CreateConfigMapForEnvFiles_keeps secrets), E2; reflexivity
        |eapply (CreatePersistentVolumeClaimForArtifacts_keeps secrets), E1;
           reflexivity]. }
    assert (Hs4 : secrets (cluster w') = secrets (cluster w3))
      by (eapply (CreatePod_keeps secrets), E4; reflexivity).
    rewrite Hs2 in Hfree. rewrite <- Hs4 in Hsec.
    split; [exists keystoreData, secret; auto 10|].
    cbn -[whenNamed resourceName buildEnvironmentVariables dbVariables].
    rewrite !whenNamed_resourceName.
    split; [rewrite !in_app_iff; simpl; tauto|].
    split; [rewrite !in_app_iff; simpl; tauto|].
    now rewrite app_assoc.
  - (* web *)
    intros Hp.
    assert (Hna : BuildConfig.Platform config <> "android")
      by (rewrite Hp; discriminate).
    rewrite (secretStep_other _ _ Hna) in E3. injection E3 as <- <-.
    split; [eapply CreateBuildPod_no_secret_request; eassumption|].
    split; [eapply CreateBuildPod_keeps_secrets; eassumption|].
    cbn -[whenNamed resourceName buildEnvironmentVariables dbVariables].
    rewrite !whenNamed_empty, !app_nil_r.
    split.
    { intros m Hm. destruct Hm as [<-|Hm].
      - split; discriminate.
      - unfold whenNamed in Hm. destruct (String.eqb _ _); [destruct Hm|].
        destruct Hm as [<-|[]]. split; discriminate. }
    split.
    { intros v s Hv. destruct Hv as [<-|Hv].
      - discriminate.
      - unfold whenNamed in Hv. destruct (String.eqb _ _); [destruct Hv|].
        destruct Hv as [<-|[]]. discriminate. }
    split; [reflexivity|]. split.
    { intros x Hx. apply in_app_iff in Hx as [Hx|Hx];
        eauto using buildEnvironmentVariables_plain, dbVariables_plain. }
    intros x Hx Hn. apply in_app_iff in Hx as [Hx|Hx]; [|assumption].
    now apply keystoreNames_not_composed in Hx.
Qed.

Lemma podFor_withoutKeystore config conn ns image pvcName configMapName :
  withoutKeystore config conn
    (pending (podFor config conn ns image pvcName configMapName EmptyString)).
Proof.
  eexists. split; [reflexivity|].
  cbn -[whenNamed resourceName buildEnvironmentVariables dbVariables].
  rewrite !whenNamed_empty, !app_nil_r.
  split.
  { intros m [<-|Hm]; [split; discriminate|].
    unfold whenNamed in Hm. destruct (String.eqb _ _); [destruct Hm|].
    destruct Hm as [<-|[]]. split; discriminate. }
  split.
  { intros v s [<-|Hv]; [discriminate|].
    unfold whenNamed in Hv. destruct (String.eqb _ _); [destruct Hv|].
    destruct Hv as [<-|[]]. discriminate. }
  split; [reflexivity|].
  intros x Hx. apply in_app_iff in Hx as [Hx|Hx];
    eauto using buildEnvironmentVariables_plain, dbVariables_plain.
Qed.

Lemma filter_none {A} (f : A -> bool) (l : list A) :
  (forall x, In x l -> f x = false) -> List.filter f l = [].
Proof.
  induction l as [|a l IH]; [reflexivity|]. intros H. simpl.
  rewrite (H a) by (now left). apply IH. intros x Hx. apply H. now right.
Qed.

Lemma noActiveKeystore_query conn projectID :
  noActiveKeystore conn projectID ->
  db.FirstActiveKeystore conn projectID = inr db.ErrRecordNotFound.
Proof.
  intros [Hf Hrows]. unfold db.FirstActiveKeystore. rewrite Hf.
  rewrite filter_none; [reflexivity|].
  intros k Hk. specialize (Hrows k Hk). unfold db.live.
  destruct (db.Model.DeletedAt (db.Keystore.Model k)); [reflexivity|].
  destruct (N.eqb_spec (db.Keystore.ProjectID k) projectID); [|reflexivity].
  destruct (db.Keystore.IsActive k); [|reflexivity]. now destruct Hrows.
Qed.

Lemma noFileEntries_query conn projectID :
  noFileEntries conn projectID ->
  db.FindEnvs conn projectID "file" = ([], None).
Proof.
  intros [Hf Hrows]. unfold db.FindEnvs. rewrite Hf.
  rewrite filter_none; [reflexivity|].
  intros e He. specialize (Hrows e He). unfold db.live.
  destruct (db.Model.DeletedAt (db.Env.Model e)); [reflexivity|].
  destruct (N.eqb_spec (db.Env.ProjectID e) projectID); [|reflexivity].
  destruct (String.eqb_spec (db.Env.Type_ e) "file"); [|reflexivity].
  now destruct Hrows.
Qed.

Lemma CreatePersistentVolumeClaimForArtifacts_requests P buildID ns :
  P (mkRequest Create PersistentVolumeClaims ns
               (resourceName PersistentVolumeClaims buildID)) ->
  preserves (requestsAll P) (CreatePersistentVolumeClaimForArtifacts buildID ns).
Proof. intros HP. unfold_calls. walk. now apply apiCreate_requests. Qed.

Lemma CreateConfigMapForEnvFiles_requests P buildID projectID ns :
  P (mkRequest Create ConfigMaps ns (resourceName ConfigMaps buildID)) ->
  preserves (requestsAll P) (CreateConfigMapForEnvFiles buildID projectID ns).
Proof. intros HP. unfold_calls. walk. now apply apiCreate_requests. Qed.

(** A started build whose secret step did nothing: no request about a
    Secret, the Secrets as before, and a pod without keystore. *)
Lemma CreateBuildPod_unsigned config w w' :
  CreateBuildPod config w = (Return None, w') ->
  (forall w2, sameProcess w w2 ->
              secretStep config (namespaceOf w) w2
              = (Return (EmptyString, None), w2)) ->
  exists conn pod,
    DB w = Some conn /\
    requestsAll (fun r => kind r <> Secrets) w w' /\
    secrets (cluster w') = secrets (cluster w) /\
    pods (cluster w') !! (namespaceOf w,
                          resourceName Pods (BuildConfig.BuildID config))
    = Some pod /\
    withoutKeystore config conn pod.
Proof.
  intros H Hstep.
  pose proof (CreateBuildPod_success _ _ _ H)
    as (conn & pvcName & configMapName & secretName & w1 & w2 & w3
        & E1 & E2 & E3 & Hdb & S3 & E4).
  assert (S2 : sameProcess w w2).
  { transitivity w1;
      [eapply CreatePersistentVolumeClaimForArtifacts_sameProcess, E1
      |eapply CreateConfigMapForEnvFiles_sameProcess, E2]. }
  rewrite (Hstep w2 S2) in E3. injection E3 as <- <-.
  pose proof (CreatePod_ok _ _ _ _ E4) as (_ & Hpod & _). cbn in Hpod.
  exists conn. eexists. split; [exact Hdb|]. split.
  { transitivity w1;
      [eapply CreatePersistentVolumeClaimForArtifacts_requests, E1; discriminate|].
    transitivity w2;
      [eapply CreateConfigMapForEnvFiles_requests, E2; discriminate|].
    eapply apiCreate_requests, E4. discriminate. }
  split.
  { transitivity (secrets (cluster w2));
      [eapply (CreatePod_keeps secrets), E4; reflexivity|].
    transitivity (secrets (cluster w1));
      [eapply (CreateConfigMapForEnvFiles_keeps secrets), E2; reflexivity|].
    eapply (CreatePersistentVolumeClaimForArtifacts_keeps secrets), E1;
      reflexivity. }
  split; [exact Hpod|]. apply podFor_withoutKeystore.
Qed.

(** With the earlier steps done and the pod accepted, [CreateBuildPod]
    succeeds. *)
Lemma CreateBuildPod_succeeds config w conn kubeConfig pvcName configMapName
    secretName w1 w2 w3 :
  kubernetesConfigOf w = inl kubeConfig ->
  NewForConfig w kubeConfig = None ->
  DB w = Some conn ->
  CreatePersistentVolumeClaimForArtifacts
    (BuildConfig.BuildID config) (namespaceOf w) w
  = (Return (pvcName, None), w1) ->
  CreateConfigMapForEnvFiles
    (BuildConfig.BuildID config)
    (db.Project.ID (BuildConfig.Project config)) (namespaceOf w) w1
  = (Return (configMapName, None), w2) ->
  secretStep config (namespaceOf w) w2 = (Return (secretName, None), w3) ->
  apiFault w (mkRequest Create Pods (namespaceOf w)
                        (resourceName Pods (BuildConfig.BuildID config)))
  = None ->
  pods (cluster w) !! (namespaceOf w,
                       resourceName Pods (BuildConfig.BuildID config)) = None ->
  exists w', CreateBuildPod config w = (Return None, w').
Proof.
  intros Hk Hn Hdb E1 E2 E3 Hfault Hfree.
  rewrite CreateBuildPod_run. cbv zeta. rewrite Hk, Hn, E1, E2, E3.
  assert (S3 : sameProcess w w3).
  { transitivity w1;
      [eapply CreatePersistentVolumeClaimForArtifacts_sameProcess, E1|].
    transitivity w2; [eapply CreateConfigMapForEnvFiles_sameProcess, E2|].
    eapply secretStep_sameProcess, E3. }
  assert (Hp : pods (cluster w3) = pods (cluster w)).
  { transitivity (pods (cluster w2));
      [eapply (secretStep_keeps pods), E3; reflexivity|].
    transitivity (pods (cluster w1));
      [eapply (CreateConfigMapForEnvFiles_keeps pods), E2; reflexivity|].
    eapply (CreatePersistentVolumeClaimForArtifacts_keeps pods), E1;
      reflexivity. }
  destruct S3 as (_ & _ & _ & Hdb3 & Hf3).
  unfold podStep. rewrite Hdb3, Hdb.
  unfold CreatePod. rewrite apiCreate_run. cbn [v1.Pod.ObjectMeta podFor
    v1.ObjectMeta.Name]. rewrite Hf3, Hp.
  change ("build-" +:+ FormatUint (BuildConfig.BuildID config))
    with (resourceName Pods (BuildConfig.BuildID config)).
  rewrite Hfault, Hfree. eauto.
Qed.

(** ** C7: absence of an optional feature is no error *)

(** C7: with no file entry for the project, with no active keystore for
    it, or with the data source uninitialized, the creation operation
    concerned returns an empty name and no error, sends no request and
    leaves the world as it is; and for Platform "android" without an active
    keystore the build starts as soon as its other steps succeed and the pod
    is accepted: no Secret is requested or created and the pod is without
    keystore mount, volume and variables. *)
Theorem C7_absence_is_no_error (config : BuildConfig.t) (w : World) :
  let buildID := BuildConfig.BuildID config in
  let projectID := db.Project.ID (BuildConfig.Project config) in
  let ns := namespaceOf w in
  (DB w = None ->
   CreateConfigMapForEnvFiles buildID projectID ns w
   = (Return (EmptyString, None), w) /\
   CreateSecretForKeystore buildID projectID ns w
   = (Return (EmptyString, None), w)) /\
  (forall conn, DB w = Some conn -> noFileEntries conn projectID ->
     CreateConfigMapForEnvFiles buildID projectID ns w
     = (Return (EmptyString, None), w)) /\
  (forall conn, DB w = Some conn -> noActiveKeystore conn projectID ->
     CreateSecretForKeystore buildID projectID ns w
     = (Return (EmptyString, None), w)) /\
  (forall conn kubeConfig pvcName configMapName w1 w2,
     BuildConfig.Platform config = "android" ->
     DB w = Some conn -> noActiveKeystore conn projectID ->
     kubernetesConfigOf w = inl kubeConfig ->
     NewForConfig w kubeConfig = None ->
     CreatePersistentVolumeClaimForArtifacts buildID ns w
     = (Return (pvcName, None), w1) ->
     CreateConfigMapForEnvFiles buildID projectID ns w1
     = (Return (configMapName, None), w2) ->
     apiFault w (mkRequest Create Pods ns (resourceName Pods buildID)) = None ->
     pods (cluster w) !! (ns, resourceName Pods buildID) = None ->
     exists w' pod,
       CreateBuildPod config w = (Return None, w') /\
       requestsAll (fun r => kind r <> Secrets) w w' /\
       secrets (cluster w') = secrets (cluster w) /\
       pods (cluster w') !! (ns, resourceName Pods buildID) = Some pod /\
       withoutKeystore config conn pod).
Proof.
  cbv zeta. split.
  { intros Hdb. split;
      [now apply CreateConfigMapForEnvFiles_no_DB
      |now apply CreateSecretForKeystore_no_DB]. }
  split.
  { intros conn Hdb Hnone.
    eapply CreateConfigMapForEnvFiles_no_files;
      [eassumption | now apply noFileEntries_query]. }
  split.
  { intros conn Hdb Hnone.
    eapply CreateSecretForKeystore_query_failed;
      [eassumption | now apply noActiveKeystore_query]. }
  intros conn kubeConfig pvcName configMapName w1 w2
         Hp Hdb Hnone Hk Hn E1 E2 Hfault Hfree.
  assert (Hstep : forall w2, sameProcess w w2 ->
            secretStep config (namespaceOf w) w2
            = (Return (EmptyString, None), w2)).
  { intros w2' (_ & _ & _ & Hdb2 & _). rewrite (secretStep_android _ _ Hp).
    eapply CreateSecretForKeystore_query_failed;
      [rewrite Hdb2; exact Hdb | now apply noActiveKeystore_query]. }
  assert (S2 : sameProcess w w2).
  { transitivity w1;
      [eapply CreatePersistentVolumeClaimForArtifacts_sameProcess, E1
      |eapply CreateConfigMapForEnvFiles_sameProcess, E2]. }
  destruct (CreateBuildPod_succeeds config w conn kubeConfig pvcName
              configMapName EmptyString w1 w2 w2 Hk Hn Hdb E1 E2
              (Hstep w2 S2) Hfault Hfree) as [w' H].
  destruct (CreateBuildPod_unsigned _ _ _ H Hstep)
    as (conn' & pod & Hdb' & R & S & P & U).
  rewrite Hdb in Hdb'. injection Hdb' as <-.
  exists w', pod. auto.
Qed.

(** ** C10: a failing keystore query *)

(** C10, as stated, fails in its consequence: when the database is down
    the query for the file entries, which comes first, fails too, and the
    build is not started; here every query is refused and [CreateBuildPod]
    reports the error of the ConfigMap step and creates no pod. *)
Lemma C10_database_outage_counterexample :
  let outage := db.mkConn [apiUrl] [sampleKeystore]
                          (fun _ => Some "connection refused") in
  let w := sampleWorld (Some outage) in
  let config := sampleConfig "android" EmptyString EmptyString in
  CreateSecretForKeystore 42 7 "default" w = (Return (EmptyString, None), w) /\
  fst (CreateBuildPod config w) =
  Return (Some ("failed to create ConfigMap: failed to fetch environment files: "
                +:+ "connection refused")) /\
  pods (cluster (snd (CreateBuildPod config w))) = ∅.
Proof. cbv zeta. split; [|split]; vm_compute; reflexivity. Qed.

(** C10 (amended): whatever error the query for the active keystore ends
    with, [CreateSecretForKeystore] returns an empty name and no error and
    changes nothing; so a build for Android that is started while that
    query fails, and whose claim, ConfigMap and pod are accepted, returns
    no error and gets a pod with no Secret, no keystore mount and no
    keystore variables; while the query for the
    file entries fails as well, as in an outage of the whole database, the
    call returns an error instead and creates no pod. *)
Theorem C10_keystore_query_failure
    (config : BuildConfig.t) (w : World) (conn : db.Conn) (e : string) :
  let buildID := BuildConfig.BuildID config in
  let projectID := db.Project.ID (BuildConfig.Project config) in
  DB w = Some conn ->
  db.fault conn (db.ActiveKeystore projectID) = Some e ->
  (forall ns, CreateSecretForKeystore buildID projectID ns w
              = (Return (EmptyString, None), w)) /\
  (forall kubeConfig pvcName configMapName w1 w2,
     BuildConfig.Platform config = "android" ->
     kubernetesConfigOf w = inl kubeConfig ->
     NewForConfig w kubeConfig = None ->
     CreatePersistentVolumeClaimForArtifacts buildID (namespaceOf w) w
     = (Return (pvcName, None), w1) ->
     CreateConfigMapForEnvFiles buildID projectID (namespaceOf w) w1
     = (Return (configMapName, None), w2) ->
     apiFault w (mkRequest Create Pods (namespaceOf w)
                           (resourceName Pods buildID)) = None ->
     pods (cluster w) !! (namespaceOf w, resourceName Pods buildID) = None ->
     exists w' pod,
       CreateBuildPod config w = (Return None, w') /\
       requestsAll (fun r => kind r <> Secrets) w w' /\
       secrets (cluster w') = secrets (cluster w) /\
       pods (cluster w') !! (namespaceOf w, resourceName Pods buildID)
       = Some pod /\
       withoutKeystore config conn pod) /\
  (forall e', db.fault conn (db.EnvsOfType projectID "file") = Some e' ->
   forall o w', CreateBuildPod config w = (o, w') ->
     (exists msg, o = Return (Some msg)) /\
     pods (cluster w') = pods (cluster w)).
Proof.
  cbv zeta. intros Hdb Hfault.
  assert (Hq : db.FirstActiveKeystore conn
                 (db.Project.ID (BuildConfig.Project config)) = inr e)
    by (unfold db.FirstActiveKeystore; now rewrite Hfault).
  split.
  { intros ns. eapply CreateSecretForKeystore_query_failed; eassumption. }
  split.
  { intros kubeConfig pvcName configMapName w1 w2 Hp Hk Hn E1 E2 Hapi Hfree.
    assert (Hstep : forall w2, sameProcess w w2 ->
              secretStep config (namespaceOf w) w2
              = (Return (EmptyString, None), w2)).
    { intros w2' (_ & _ & _ & Hdb2 & _). rewrite (secretStep_android _ _ Hp).
      eapply CreateSecretForKeystore_query_failed;
        [rewrite Hdb2; exact Hdb | eassumption]. }
    assert (S2 : sameProcess w w2).
    { transitivity w1;
        [eapply CreatePersistentVolumeClaimForArtifacts_sameProcess, E1
        |eapply CreateConfigMapForEnvFiles_sameProcess, E2]. }
    destruct (CreateBuildPod_succeeds config w conn kubeConfig pvcName
                configMapName EmptyString w1 w2 w2 Hk Hn Hdb E1 E2
                (Hstep w2 S2) Hapi Hfree) as [w' H].
    destruct (CreateBuildPod_unsigned _ _ _ H Hstep)
      as (conn' & pod & Hdb' & R & S & P & U).
    rewrite Hdb in Hdb'. injection Hdb' as <-. exists w', pod. auto. }
  intros e' Hfiles o w'. rewrite CreateBuildPod_run. cbv zeta.
  destruct (kubernetesConfigOf w) as [kubeConfig|e0];
    [|intros [= <- <-]; eauto].
  destruct (NewForConfig w kubeConfig); [intros [= <- <-]; eauto|].
  destruct (CreatePersistentVolumeClaimForArtifacts _ _ w)
    as [[[pvcName [e1|]]|msg] w1] eqn:E1.
  - intros [= <- <-]. split; [eauto|].
    eapply (CreatePersistentVolumeClaimForArtifacts_keeps pods), E1; reflexivity.
  - assert (Hdb1 : DB w1 = Some conn).
    { rewrite <- Hdb.
      eapply CreatePersistentVolumeClaimForArtifacts_sameProcess, E1. }
    unfold CreateConfigMapForEnvFiles, bind, ask. rewrite Hdb1.
    unfold db.FindEnvs. rewrite Hfiles. unfold ret.
    intros [= <- <-]. split; [eauto|].
    eapply (CreatePersistentVolumeClaimForArtifacts_keeps pods), E1; reflexivity.
  - exfalso. revert E1. unfold_calls. unfold bind, ret. rewrite apiCreate_run.
    destruct (apiFault w _); [|destruct (_ !! _)]; discriminate.
Qed.

(* ===================================================================== *)
(** * Deletion                                                            *)
(* ===================================================================== *)

(** ** C8: best-effort deletion *)

(** C8: in every state of the world [DeleteBuildResources] returns no
    error after sending the four requests to delete, for the Pod, the
    ConfigMap, the Secret and the claim under their derived names, in this
    order; each deletion succeeds or fails on its own, a failure ("not
    found" included) only printing a warning; so it returns no error either
    when none of the four objects exists, and then leaves the cluster as it
    is. *)
Theorem C8_deletion_is_best_effort (buildID : N) (ns : string) (w : World) :
  let podErr := deleteError Pods pods ns (resourceName Pods buildID) w in
  let cmErr :=
    deleteError ConfigMaps configMaps ns (resourceName ConfigMaps buildID) w in
  let secErr := deleteError Secrets secrets ns (resourceName Secrets buildID) w in
  let pvcErr :=
    deleteError PersistentVolumeClaims pvcs ns
                (resourceName PersistentVolumeClaims buildID) w in
  exists w',
    DeleteBuildResources buildID ns w = (Return None, w') /\
    requests w' =
    requests w
    ++ [ mkRequest Delete Pods ns (resourceName Pods buildID);
         mkRequest Delete ConfigMaps ns (resourceName ConfigMaps buildID);
         mkRequest Delete Secrets ns (resourceName Secrets buildID);
         mkRequest Delete PersistentVolumeClaims ns
                   (resourceName PersistentVolumeClaims buildID) ] /\
    stdout w' =
    stdout w
    ++ warning "pod" (resourceName Pods buildID) podErr
    ++ warning "ConfigMap" (resourceName ConfigMaps buildID) cmErr
    ++ warning "Secret" (resourceName Secrets buildID) secErr
    ++ warning "PVC" (resourceName PersistentVolumeClaims buildID) pvcErr /\
    pods (cluster w') =
    afterDelete podErr (ns, resourceName Pods buildID) (pods (cluster w)) /\
    configMaps (cluster w') =
    afterDelete cmErr (ns, resourceName ConfigMaps buildID)
                (configMaps (cluster w)) /\
    secrets (cluster w') =
    afterDelete secErr (ns, resourceName Secrets buildID) (secrets (cluster w)) /\
    pvcs (cluster w') =
    afterDelete pvcErr (ns, resourceName PersistentVolumeClaims buildID)
                (pvcs (cluster w)) /\
    (pods (cluster w) !! (ns, resourceName Pods buildID) = None ->
     configMaps (cluster w) !! (ns, resourceName ConfigMaps buildID) = None ->
     secrets (cluster w) !! (ns, resourceName Secrets buildID) = None ->
     pvcs (cluster w) !! (ns, resourceName PersistentVolumeClaims buildID)
     = None ->
     cluster w' = cluster w).
Proof.
  cbv zeta. unfold deleteError, warning, afterDelete, resourceName.
  unfold DeleteBuildResources, DeletePod, DeleteConfigMap, DeleteSecret,
    DeletePersistentVolumeClaim, Printf, bind, ret, modify.
  rewrite apiDelete_run.
  destruct (apiFault w (mkRequest Delete Pods _ _)) as [e1|];
    [|destruct (pods (cluster w) !! _) as [p|]];
    (rewrite apiDelete_run; cbn [apiFault cluster addRequest addOutput
       setCluster setPods setConfigMaps setSecrets setPvcs pods configMaps
       secrets pvcs];
     destruct (apiFault w (mkRequest Delete ConfigMaps _ _)) as [e2|];
       [|destruct (configMaps (cluster w) !! _) as [c|]]);
    (rewrite apiDelete_run; cbn [apiFault cluster addRequest addOutput
       setCluster setPods setConfigMaps setSecrets setPvcs pods configMaps
       secrets pvcs];
     destruct (apiFault w (mkRequest Delete Secrets _ _)) as [e3|];
       [|destruct (secrets (cluster w) !! _) as [s|]]);
    (rewrite apiDelete_run; cbn [apiFault cluster addRequest addOutput
       setCluster setPods setConfigMaps setSecrets setPvcs pods configMaps
       secrets pvcs];
     destruct (apiFault w (mkRequest Delete PersistentVolumeClaims _ _))
       as [e4|];
       [|destruct (pvcs (cluster w) !! _) as [v|]]);
    (eexists; split; [reflexivity|];
     cbn [apiFault cluster addRequest addOutput setCluster setPods
          setConfigMaps setSecrets setPvcs pods configMaps secrets pvcs
          requests stdout];
     rewrite <- ?app_assoc; cbn [app]; rewrite ?app_nil_r;
     repeat (split; [reflexivity|]);
     intros; try discriminate; destruct (cluster w); reflexivity).
Qed.

(* ===================================================================== *)
(** * Bytes and bits                                                      *)
(* ===================================================================== *)

Lemma land_shiftl_low hi lo n :
  0 <= n -> 0 <= lo < 2 ^ n -> Z.land (Z.shiftl hi n) lo = 0.
Proof.
  intros Hn Hlo. apply Z.bits_inj'. intros m Hm.
  rewrite Z.land_spec, Z.bits_0.
  destruct (Z.lt_ge_cases m n).
  - now rewrite Z.shiftl_spec_low.
  - rewrite <- (Z.mod_small lo (2 ^ n)) by lia.
    rewrite Z.mod_pow2_bits_high by lia. apply andb_false_r.
Qed.

(** Or-ing into the zero low bits of a number adds. *)
Lemma lor_add x y n :
  0 <= n -> x mod 2 ^ n = 0 -> 0 <= y < 2 ^ n -> Z.lor x y = x + y.
Proof.
  intros Hn Hx Hy.
  assert (E : x = Z.shiftl (x / 2 ^ n) n).
  { rewrite Z.shiftl_mul_pow2 by lia.
    pose proof (Z.div_mod x (2 ^ n)). lia. }
  pose proof (Z.add_lor_land x y) as H.
  rewrite E in H at 2. rewrite land_shiftl_low in H by lia. lia.
Qed.

Lemma byteZ_range c : 0 <= byteZ c < 256.
Proof. unfold byteZ. pose proof (N_ascii_bounded c). lia. Qed.

Lemma Zbyte_byteZ c : Zbyte (byteZ c) = c.
Proof.
  unfold Zbyte. rewrite Z.mod_small by apply byteZ_range.
  unfold byteZ. rewrite N2Z.id. apply ascii_N_embedding.
Qed.

Lemma byteZ_Zbyte z : byteZ (Zbyte z) = z mod 256.
Proof.
  unfold byteZ, Zbyte. rewrite N_ascii_embedding.
  - apply Z2N.id. apply Z.mod_pos_bound. lia.
  - pose proof (Z.mod_pos_bound z 256). lia.
Qed.

Lemma Zbyte_eq z c : z mod 256 = byteZ c -> Zbyte z = c.
Proof.
  intros H. unfold Zbyte. rewrite H. unfold byteZ. rewrite N2Z.id.
  apply ascii_N_embedding.
Qed.

Ltac pow2 :=
  repeat match goal with
         | |- context [2 ^ ?n] =>
           let v := eval vm_compute in (2 ^ n) in change (2 ^ n) with v
         | H : context [2 ^ ?n] |- _ =>
           let v := eval vm_compute in (2 ^ n) in change (2 ^ n) with v in H
         end.

Ltac arith := pow2; Z.div_mod_to_equations; lia.

Lemma land_mask v n : 0 <= n -> Z.land v (Z.ones n) = v mod 2 ^ n.
Proof. intros. now apply Z.land_ones. Qed.

(* ===================================================================== *)
(** * Base64                                                              *)
(* ===================================================================== *)

Lemma lor3 A B C :
  0 <= A < 256 -> 0 <= B < 256 -> 0 <= C < 256 ->
  Z.lor (Z.lor (Z.shiftl A 16) (Z.shiftl B 8)) C = A * 2 ^ 16 + B * 2 ^ 8 + C.
Proof.
  intros. rewrite !Z.shiftl_mul_pow2 by lia.
  rewrite (lor_add (A * 2 ^ 16) (B * 2 ^ 8) 16) by arith.
  rewrite (lor_add (A * 2 ^ 16 + B * 2 ^ 8) C 8) by arith. reflexivity.
Qed.

Lemma lor4 s0 s1 s2 s3 :
  0 <= s0 < 64 -> 0 <= s1 < 64 -> 0 <= s2 < 64 -> 0 <= s3 < 64 ->
  Z.lor (Z.lor (Z.lor (Z.shiftl s0 18) (Z.shiftl s1 12)) (Z.shiftl s2 6)) s3
  = s0 * 2 ^ 18 + s1 * 2 ^ 12 + s2 * 2 ^ 6 + s3.
Proof.
  intros. rewrite !Z.shiftl_mul_pow2 by lia.
  rewrite (lor_add (s0 * 2 ^ 18) (s1 * 2 ^ 12) 18) by arith.
  rewrite (lor_add (s0 * 2 ^ 18 + s1 * 2 ^ 12) (s2 * 2 ^ 6) 12) by arith.
  rewrite (lor_add (s0 * 2 ^ 18 + s1 * 2 ^ 12 + s2 * 2 ^ 6) s3 6) by arith.
  reflexivity.
Qed.

(** The six-bit value at bit [k] of [v]. *)
Lemma sextet_eq v k :
  0 <= k -> Z.land (Z.shiftr v k) 0x3F = (v / 2 ^ k) mod 64.
Proof.
  intros. change 0x3F with (Z.ones 6). rewrite Z.land_ones by lia.
  now rewrite Z.shiftr_div_pow2.
Qed.

Lemma sextet0_eq v : Z.land v 0x3F = v mod 64.
Proof. change 0x3F with (Z.ones 6). now rewrite Z.land_ones by lia. Qed.

Lemma sextet_range v k : 0 <= k -> 0 <= Z.land (Z.shiftr v k) 0x3F < 64.
Proof. intros. rewrite sextet_eq by lia. apply Z.mod_pos_bound. lia. Qed.

Lemma sextet0_range v : 0 <= Z.land v 0x3F < 64.
Proof. rewrite sextet0_eq. apply Z.mod_pos_bound. lia. Qed.

Lemma decodeMap_encodeChar v : 0 <= v < 64 -> decodeMap (encodeChar v) = v.
Proof.
  intros Hv. replace v with (Z.of_nat (Z.to_nat v)) by lia.
  assert (Hn : (Z.to_nat v < 64)%nat) by lia.
  generalize dependent (Z.to_nat v). intros n Hn.
  do 64 (destruct n as [|n]; [reflexivity|]). lia.
Qed.

(** Reading one character of the alphabet. *)
Lemma decodeFrom_sextet v rest dbuf dst :
  0 <= v < 64 ->
  decodeFrom (String (encodeChar v) rest) dbuf dst =
  if (List.length (dbuf ++ [v]) =? 4)%nat
  then decodeFrom rest [] (dst +:+ quantumBytes (dbuf ++ [v]))
  else decodeFrom rest (dbuf ++ [v]) dst.
Proof.
  intros Hv. cbn [decodeFrom]. rewrite decodeMap_encodeChar by assumption.
  destruct (Z.eqb_spec v 0xFF); [lia|]. reflexivity.
Qed.

Lemma quantum3 a b c :
  let val := Z.lor (Z.lor (Z.shiftl (byteZ a) 16) (Z.shiftl (byteZ b) 8))
                   (byteZ c) in
  quantumBytes [Z.land (Z.shiftr val 18) 0x3F; Z.land (Z.shiftr val 12) 0x3F;
                Z.land (Z.shiftr val 6) 0x3F; Z.land val 0x3F]
  = String a (String b (String c EmptyString)).
Proof.
  cbv zeta. pose proof (byteZ_range a) as Ha. pose proof (byteZ_range b) as Hb.
  pose proof (byteZ_range c) as Hc.
  rewrite lor3 by assumption.
  unfold quantumBytes. cbn [List.length List.nth].
  rewrite lor4 by (apply sextet_range || apply sextet0_range; lia).
  rewrite !sextet_eq, sextet0_eq, !Z.shiftr_div_pow2 by lia.
  repeat f_equal; apply Zbyte_eq; arith.
Qed.

Lemma quantum2 a b :
  let val := Z.lor (Z.shiftl (byteZ a) 16) (Z.shiftl (byteZ b) 8) in
  quantumBytes [Z.land (Z.shiftr val 18) 0x3F; Z.land (Z.shiftr val 12) 0x3F;
                Z.land (Z.shiftr val 6) 0x3F]
  = String a (String b EmptyString).
Proof.
  cbv zeta. pose proof (byteZ_range a) as Ha. pose proof (byteZ_range b) as Hb.
  rewrite !Z.shiftl_mul_pow2 by lia.
  rewrite (lor_add (byteZ a * 2 ^ 16) (byteZ b * 2 ^ 8) 16) by arith.
  unfold quantumBytes. cbn [List.length List.nth].
  rewrite lor4 by (first [apply sextet_range; lia | lia]).
  rewrite !sextet_eq, !Z.shiftr_div_pow2 by lia.
  repeat f_equal; apply Zbyte_eq; arith.
Qed.

Lemma quantum1 a :
  let val := Z.shiftl (byteZ a) 16 in
  quantumBytes [Z.land (Z.shiftr val 18) 0x3F; Z.land (Z.shiftr val 12) 0x3F]
  = String a EmptyString.
Proof.
  cbv zeta. pose proof (byteZ_range a) as Ha.
  rewrite !Z.shiftl_mul_pow2 by lia.
  unfold quantumBytes. cbn [List.length List.nth].
  rewrite lor4 by (first [apply sextet_range; lia | lia]).
  rewrite !sextet_eq, !Z.shiftr_div_pow2 by lia.
  repeat f_equal; apply Zbyte_eq; arith.
Qed.

Lemma string_ind3 (P : string -> Prop) :
  P EmptyString ->
  (forall a, P (String a EmptyString)) ->
  (forall a b, P (String a (String b EmptyString))) ->
  (forall a b c rest, P rest -> P (String a (String b (String c rest)))) ->
  forall s, P s.
Proof.
  intros H0 H1 H2 H3 s.
  assert (H : P s /\ (forall a, P (String a s)) /\
              (forall a b, P (String a (String b s)))).
  { induction s as [|c s (IH0 & IH1 & IH2)]; [auto|].
    split; [apply IH1|]. split; [intros a; apply IH2|]. intros a b. now apply H3. }
  apply H.
Qed.

Lemma decodeFrom_pad2 s0 s1 dst :
  decodeFrom (String padChar (String padChar EmptyString)) [s0; s1] dst
  = (dst +:+ quantumBytes [s0; s1], None).
Proof. reflexivity. Qed.

Lemma decodeFrom_pad1 s0 s1 s2 dst :
  decodeFrom (String padChar EmptyString) [s0; s1; s2] dst
  = (dst +:+ quantumBytes [s0; s1; s2], None).
Proof. reflexivity. Qed.

Lemma decodeFrom_EncodeToString content dst :
  decodeFrom (EncodeToString content) [] dst = (dst +:+ content, None).
Proof.
  revert dst. induction content as [|a|a b|a b c rest IH] using string_ind3;
    intros dst.
  - cbn. now rewrite append_empty_r.
  - cbn [EncodeToString].
    rewrite !decodeFrom_sextet by (apply sextet_range; lia). cbn [List.length app Nat.eqb].
    now rewrite decodeFrom_pad2, (quantum1 a).
  - cbn [EncodeToString].
    rewrite !decodeFrom_sextet by (apply sextet_range; lia). cbn [List.length app Nat.eqb].
    now rewrite decodeFrom_pad1, (quantum2 a b).
  - cbn [EncodeToString].
    rewrite !decodeFrom_sextet by (apply sextet_range || apply sextet0_range; lia).
    cbn [List.length app Nat.eqb].
    rewrite quantum3, IH, append_assoc. reflexivity.
Qed.

Lemma DecodeString_EncodeToString content :
  DecodeString (EncodeToString content) = (content, None).
Proof. unfold DecodeString. now rewrite decodeFrom_EncodeToString. Qed.

(* ===================================================================== *)
(** * File entries                                                        *)
(* ===================================================================== *)

Lemma envFileEntry_plain env :
  db.Env.IsBase64 env = false ->
  envFileEntry env = ((fileNameOf env, db.Env.Value env), None).
Proof.
  intros H. unfold envFileEntry, fileNameOf. rewrite H. cbn.
  destruct (String.eqb _ _); reflexivity.
Qed.

Lemma envFileEntry_base64 env :
  db.Env.IsBase64 env = true ->
  envFileEntry env =
  match DecodeString (db.Env.Value env) with
  | (_, Some e) =>
    ((EmptyString, EmptyString),
     Some ("failed to decode base64 content for " +:+ db.Env.Key env +:+ ": "
           +:+ e))
  | (decoded, None) => ((fileNameOf env, decoded), None)
  end.
Proof.
  intros H. unfold envFileEntry, fileNameOf. rewrite H.
  destruct (DecodeString _) as [decoded [e|]]; [reflexivity|]. cbn.
  destruct (String.eqb _ _); reflexivity.
Qed.

Lemma envFilesData_cons env rest data content :
  envFileEntry env = ((fileNameOf env, content), None) ->
  envFilesData (env :: rest) data =
  envFilesData rest (<[fileNameOf env := content]> data).
Proof. intros H. cbn [envFilesData]. now rewrite H. Qed.

(** An entry whose key no later entry shares decides the value stored
    under that key. *)
Lemma envFilesData_last before env after content :
  envFileEntry env = ((fileNameOf env, content), None) ->
  (forall e, In e after -> fileNameOf e <> fileNameOf env) ->
  forall data data',
    envFilesData (before ++ env :: after) data = (data', None) ->
    data' !! fileNameOf env = Some content.
Proof.
  intros Henv Hafter.
  assert (Htail : forall after data data',
             (forall e, In e after -> fileNameOf e <> fileNameOf env) ->
             data !! fileNameOf env = Some content ->
             envFilesData after data = (data', None) ->
             data' !! fileNameOf env = Some content).
  { clear Hafter after. induction after as [|e after IH]; intros data data' Hne Hd.
    - intros [= <-]. exact Hd.
    - cbn [envFilesData].
      destruct (envFileEntry e) as [[fileName c] [err|]] eqn:E; [discriminate|].
      apply IH; [intros e' He'; apply Hne; now right|].
      assert (fileName = fileNameOf e) as ->.
      { destruct (db.Env.IsBase64 e) eqn:B.
        - rewrite (envFileEntry_base64 _ B) in E.
          destruct (DecodeString _) as [d [x|]]; congruence.
        - rewrite (envFileEntry_plain _ B) in E. congruence. }
      rewrite lookup_insert_ne; [exact Hd|]. apply Hne. now left. }
  induction before as [|e before IH]; intros data data'.
  - cbn [app]. rewrite (envFilesData_cons _ _ _ _ Henv).
    apply Htail; [exact Hafter | apply lookup_insert_eq].
  - cbn [app envFilesData].
    destruct (envFileEntry e) as [[fileName c] [err|]]; [discriminate|].
    apply IH.
Qed.

Lemma envFilesData_fails envs env e :
  In env envs ->
  envFileEntry env = ((EmptyString, EmptyString), Some e) ->
  forall data, exists data' e', envFilesData envs data = (data', Some e').
Proof.
  intros Hin Hfail. induction envs as [|x envs IH]; [destruct Hin|].
  intros data. cbn [envFilesData].
  destruct (envFileEntry x) as [[fileName c] [err|]] eqn:E; [eauto|].
  destruct Hin as [->|Hin]; [congruence|]. apply IH, Hin.
Qed.

Lemma CreatePersistentVolumeClaimForArtifacts_returns buildID ns w :
  exists r w', CreatePersistentVolumeClaimForArtifacts buildID ns w
               = (Return r, w').
Proof.
  unfold_calls. unfold bind, ret. rewrite apiCreate_run.
  destruct (apiFault w _); [|destruct (_ !! _)]; eauto.
Qed.

(** While the ConfigMap step fails, [CreateBuildPod] returns an error and
    creates neither ConfigMap nor Secret nor pod. *)
Lemma CreateBuildPod_files_fail config w :
  (forall w1, sameProcess w w1 ->
     exists e,
       CreateConfigMapForEnvFiles
         (BuildConfig.BuildID config)
         (db.Project.ID (BuildConfig.Project config)) (namespaceOf w) w1
       = (Return (EmptyString, Some e), w1)) ->
  forall o w',
    CreateBuildPod config w = (o, w') ->
    (exists msg, o = Return (Some msg)) /\
    pods (cluster w') = pods (cluster w) /\
    configMaps (cluster w') = configMaps (cluster w) /\
    secrets (cluster w') = secrets (cluster w).
Proof.
  intros Hfail o w'. rewrite CreateBuildPod_run. cbv zeta.
  destruct (kubernetesConfigOf w) as [kubeConfig|e0];
    [|intros [= <- <-]; eauto].
  destruct (NewForConfig w kubeConfig); [intros [= <- <-]; eauto|].
  destruct (CreatePersistentVolumeClaimForArtifacts_returns
              (BuildConfig.BuildID config) (namespaceOf w) w)
    as ([pvcName err] & w1 & E1).
  rewrite E1.
  assert (Hkeep : pods (cluster w1) = pods (cluster w) /\
                  configMaps (cluster w1) = configMaps (cluster w) /\
                  secrets (cluster w1) = secrets (cluster w)).
  { repeat split;
      [eapply (CreatePersistentVolumeClaimForArtifacts_keeps pods), E1
      |eapply (CreatePersistentVolumeClaimForArtifacts_keeps configMaps), E1
      |eapply (CreatePersistentVolumeClaimForArtifacts_keeps secrets), E1];
      reflexivity. }
  destruct err as [e1|]; [intros [= <- <-]; eauto|].
  destruct (Hfail w1) as [e2 E2];
    [eapply CreatePersistentVolumeClaimForArtifacts_sameProcess, E1|].
  rewrite E2. intros [= <- <-]. eauto.
Qed.

Lemma CreateConfigMapForEnvFiles_decode_fails buildID projectID ns w conn envs
    env e :
  DB w = Some conn ->
  db.FindEnvs conn projectID "file" = (envs, None) ->
  In env envs ->
  envFileEntry env = ((EmptyString, EmptyString), Some e) ->
  exists e',
    CreateConfigMapForEnvFiles buildID projectID ns w
    = (Return (EmptyString, Some e'), w).
Proof.
  intros Hdb Hq Hin Hfail. unfold CreateConfigMapForEnvFiles, bind, ask.
  rewrite Hdb, Hq. destruct envs as [|x envs]; [destruct Hin|].
  cbn [List.length Nat.eqb].
  destruct (envFilesData_fails _ _ _ Hin Hfail ∅) as (data' & e' & ->).
  eauto.
Qed.

(** ** C3: the content stored for a file entry *)

(** C3: the loop of [CreateConfigMapForEnvFiles] stores, for a file entry
    with IsBase64 set whose value is the base64 text of a content, that
    content exactly, and for an entry without IsBase64 its value as it is;
    the ConfigMap holds it under the key of the entry unless a later entry
    has the same key; a value that does not decode makes
    [CreateConfigMapForEnvFiles] return an error without creating anything,
    and [CreateBuildPod] return an error without ConfigMap, Secret or pod;
    and the entry gs with value "e30=" and path android/app/g.json gives the
    data key gs::android__app__g.json with the value {}. *)
Theorem C3_file_entries (env : db.Env.t) :
  (forall content,
     db.Env.IsBase64 env = true ->
     db.Env.Value env = EncodeToString content ->
     envFileEntry env = ((fileNameOf env, content), None)) /\
  (db.Env.IsBase64 env = false ->
   envFileEntry env = ((fileNameOf env, db.Env.Value env), None)) /\
  (forall content before after data data',
     envFileEntry env = ((fileNameOf env, content), None) ->
     (forall e, In e after -> fileNameOf e <> fileNameOf env) ->
     envFilesData (before ++ env :: after) data = (data', None) ->
     data' !! fileNameOf env = Some content) /\
  (db.Env.IsBase64 env = true ->
   snd (DecodeString (db.Env.Value env)) <> None ->
   forall config w conn envs,
     DB w = Some conn ->
     db.FindEnvs conn (db.Project.ID (BuildConfig.Project config)) "file"
     = (envs, None) ->
     In env envs ->
     (exists e,
        CreateConfigMapForEnvFiles
          (BuildConfig.BuildID config)
          (db.Project.ID (BuildConfig.Project config)) (namespaceOf w) w
        = (Return (EmptyString, Some e), w)) /\
     (forall o w',
        CreateBuildPod config w = (o, w') ->
        (exists msg, o = Return (Some msg)) /\
        pods (cluster w') = pods (cluster w) /\
        configMaps (cluster w') = configMaps (cluster w) /\
        secrets (cluster w') = secrets (cluster w))) /\
  (exists w' configMap,
     CreateConfigMapForEnvFiles
       42 7 "default" (sampleWorld (Some (sampleConn [googleServices] [])))
     = (Return ("build-42-env-files", None), w') /\
     configMaps (cluster w') !! ("default", "build-42-env-files")
     = Some configMap /\
     v1.ConfigMap.Data configMap = {[ "gs::android__app__g.json" := "{}" ]}).
Proof.
  split.
  { intros content B V. rewrite (envFileEntry_base64 _ B), V.
    now rewrite DecodeString_EncodeToString. }
  split; [apply envFileEntry_plain|].
  split.
  { intros content before after data data' E Hafter.
    eapply envFilesData_last; eassumption. }
  split.
  { intros B Hdec config w conn envs Hdb Hq Hin.
    assert (Hfail : exists e,
               envFileEntry env = ((EmptyString, EmptyString), Some e)).
    { rewrite (envFileEntry_base64 _ B).
      destruct (DecodeString _) as [d [e|]]; [eauto | now destruct Hdec]. }
    destruct Hfail as [e Hfail]. split.
    - eapply CreateConfigMapForEnvFiles_decode_fails; eassumption.
    - apply CreateBuildPod_files_fail. intros w1 (_ & _ & _ & Hdb1 & _).
      eapply CreateConfigMapForEnvFiles_decode_fails; try eassumption.
      now rewrite Hdb1. }
  eexists _, _. split; [vm_compute; reflexivity|].
  split; vm_compute; reflexivity.
Qed.

(* ===================================================================== *)
(** * UTF-8                                                               *)
(* ===================================================================== *)

(** ** Arithmetic of the encoding *)

Lemma land_maskx b : Z.land b maskx = b mod 64.
Proof. change maskx with (Z.ones 6). apply Z.land_ones. lia. Qed.
Lemma land_mask2 b : Z.land b mask2 = b mod 32.
Proof. change mask2 with (Z.ones 5). apply Z.land_ones. lia. Qed.
Lemma land_mask3 b : Z.land b mask3 = b mod 16.
Proof. change mask3 with (Z.ones 4). apply Z.land_ones. lia. Qed.
Lemma land_mask4 b : Z.land b mask4 = b mod 8.
Proof. change mask4 with (Z.ones 3). apply Z.land_ones. lia. Qed.

Lemma rune2_eq b0 b1 :
  Z.lor (Z.shiftl (Z.land b0 mask2) 6) (Z.land b1 maskx)
  = b0 mod 32 * 64 + b1 mod 64.
Proof.
  rewrite land_mask2, land_maskx, Z.shiftl_mul_pow2 by lia.
  rewrite (lor_add _ _ 6) by arith. reflexivity.
Qed.

Lemma rune3_eq b0 b1 b2 :
  Z.lor (Z.lor (Z.shiftl (Z.land b0 mask3) 12) (Z.shiftl (Z.land b1 maskx) 6))
        (Z.land b2 maskx)
  = b0 mod 16 * 4096 + b1 mod 64 * 64 + b2 mod 64.
Proof.
  rewrite land_mask3, !land_maskx, !Z.shiftl_mul_pow2 by lia.
  rewrite (lor_add (b0 mod 16 * 2 ^ 12) _ 12) by arith.
  rewrite (lor_add _ _ 6) by arith. reflexivity.
Qed.

Lemma rune4_eq b0 b1 b2 b3 :
  Z.lor (Z.lor (Z.lor (Z.shiftl (Z.land b0 mask4) 18)
                      (Z.shiftl (Z.land b1 maskx) 12))
               (Z.shiftl (Z.land b2 maskx) 6))
        (Z.land b3 maskx)
  = b0 mod 8 * 262144 + b1 mod 64 * 4096 + b2 mod 64 * 64 + b3 mod 64.
Proof.
  rewrite land_mask4, !land_maskx, !Z.shiftl_mul_pow2 by lia.
  rewrite (lor_add (b0 mod 8 * 2 ^ 18) _ 18) by arith.
  rewrite (lor_add (b0 mod 8 * 2 ^ 18 + b1 mod 64 * 2 ^ 12) _ 12) by arith.
  rewrite (lor_add _ _ 6) by arith. reflexivity.
Qed.

(** The continuation byte for the six bits of [r] at bit [k]. *)
Lemma contByte r k :
  0 <= k ->
  Z.lor tx (Z.land (byteZ (Zbyte (Z.shiftr r k))) maskx)
  = 128 + (r / 2 ^ k) mod 64.
Proof.
  intros. rewrite byteZ_Zbyte, land_maskx, Z.shiftr_div_pow2 by lia.
  rewrite (lor_add tx _ 7) by (unfold tx; arith). unfold tx. arith.
Qed.

Lemma contByte0 r :
  Z.lor tx (Z.land (byteZ (Zbyte r)) maskx) = 128 + r mod 64.
Proof.
  rewrite byteZ_Zbyte, land_maskx.
  rewrite (lor_add tx _ 7) by (unfold tx; arith). unfold tx. arith.
Qed.

(** The leading byte: the tag [t] with the top bits of [r]. *)
Lemma leadByte t n r k :
  0 <= k -> 0 <= n -> t mod 2 ^ n = 0 -> 0 <= r / 2 ^ k < 2 ^ n -> n <= 8 ->
  Z.lor t (byteZ (Zbyte (Z.shiftr r k))) = t + r / 2 ^ k.
Proof.
  intros Hk Hn Ht Hr H8. rewrite byteZ_Zbyte, Z.shiftr_div_pow2 by lia.
  assert (2 ^ n <= 2 ^ 8) by (apply Z.pow_le_mono_r; lia).
  rewrite Z.mod_small by (pow2; lia).
  now rewrite (lor_add t _ n).
Qed.

(** ** Decoding by the shape of the first bytes *)

Ltac cases_first :=
  unfold first;
  repeat match goal with
         | |- context [?a <? ?b] => destruct (Z.ltb_spec a b); try lia
         | |- context [?a =? ?b] => destruct (Z.eqb_spec a b); try lia
         end.

Ltac range_checks :=
  repeat match goal with
         | |- context [?a <? ?b] =>
           destruct (Z.ltb_spec a b); [try lia|]; cbn [orb]
         end.

Ltac header x :=
  cbv zeta;
  let c := eval vm_compute in (as_ <=? x) in
  change (as_ <=? x) with c;
  let sz := eval vm_compute in (Z.land x 7) in
  change (Z.land x 7) with sz;
  let acc := eval vm_compute in (acceptRanges (Z.shiftr x 4)) in
  change (acceptRanges (Z.shiftr x 4)) with acc;
  cbn [lo hi Z.leb Z.compare Pos.compare Pos.compare_cont];
  cbv iota; unfold locb, hicb.

Lemma decode1 c0 rest :
  byteZ c0 < 0x80 -> DecodeRuneInString (String c0 rest) = (byteZ c0, 1%nat).
Proof.
  intros H. unfold DecodeRuneInString.
  replace (first (byteZ c0)) with as_ by (cases_first; reflexivity).
  reflexivity.
Qed.

Lemma decode2 c0 c1 rest :
  0xC2 <= byteZ c0 < 0xE0 -> 0x80 <= byteZ c1 <= 0xBF ->
  DecodeRuneInString (String c0 (String c1 rest))
  = (byteZ c0 mod 32 * 64 + byteZ c1 mod 64, 2%nat).
Proof.
  intros H0 H1. unfold DecodeRuneInString.
  replace (first (byteZ c0)) with s1 by (cases_first; reflexivity).
  header s1. range_checks; try lia.
  now rewrite rune2_eq.
Qed.

Lemma decode3 c0 c1 c2 rest :
  0xE0 <= byteZ c0 < 0xF0 ->
  lo3 (byteZ c0) <= byteZ c1 <= hi3 (byteZ c0) ->
  0x80 <= byteZ c2 <= 0xBF ->
  DecodeRuneInString (String c0 (String c1 (String c2 rest)))
  = (byteZ c0 mod 16 * 4096 + byteZ c1 mod 64 * 64 + byteZ c2 mod 64, 3%nat).
Proof.
  intros H0 H1 H2. unfold DecodeRuneInString, lo3, hi3 in *.
  assert (Hf : first (byteZ c0) = s2 /\ byteZ c0 = 0xE0 \/
               first (byteZ c0) = s4 /\ byteZ c0 = 0xED \/
               first (byteZ c0) = s3 /\ byteZ c0 <> 0xE0 /\ byteZ c0 <> 0xED).
  { cases_first; auto. }
  destruct Hf as [[-> E]|[[-> E]|[-> [E E']]]];
    [header s2 | header s4 | header s3];
    repeat match goal with
           | H : context [?a =? ?b] |- _ =>
             destruct (Z.eqb_spec a b); try lia
           end;
    range_checks; try lia; cbn [Z.leb Z.compare Pos.compare Pos.compare_cont];
    range_checks; try lia; now rewrite rune3_eq.
Qed.

Lemma decode4 c0 c1 c2 c3 rest :
  0xF0 <= byteZ c0 <= 0xF4 ->
  lo4 (byteZ c0) <= byteZ c1 <= hi4 (byteZ c0) ->
  0x80 <= byteZ c2 <= 0xBF ->
  0x80 <= byteZ c3 <= 0xBF ->
  DecodeRuneInString (String c0 (String c1 (String c2 (String c3 rest))))
  = (byteZ c0 mod 8 * 262144 + byteZ c1 mod 64 * 4096 + byteZ c2 mod 64 * 64
     + byteZ c3 mod 64, 4%nat).
Proof.
  intros H0 H1 H2 H3. unfold DecodeRuneInString, lo4, hi4 in *.
  assert (Hf : first (byteZ c0) = s5 /\ byteZ c0 = 0xF0 \/
               first (byteZ c0) = s7 /\ byteZ c0 = 0xF4 \/
               first (byteZ c0) = s6 /\ byteZ c0 <> 0xF0 /\ byteZ c0 <> 0xF4).
  { cases_first; auto. }
  destruct Hf as [[-> E]|[[-> E]|[-> [E E']]]];
    [header s5 | header s7 | header s6];
    repeat match goal with
           | H : context [?a =? ?b] |- _ =>
             destruct (Z.eqb_spec a b); try lia
           end;
    range_checks; try lia; cbn [Z.leb Z.compare Pos.compare Pos.compare_cont];
    range_checks; try lia; cbn [Z.leb Z.compare Pos.compare Pos.compare_cont];
    range_checks; try lia; now rewrite rune4_eq.
Qed.

Ltac range_checks' :=
  repeat (match goal with
          | |- context [?a <? ?b] => destruct (Z.ltb_spec a b); [try lia|]
          end; cbn [orb]; cbv iota;
          cbn [Z.leb Z.compare Pos.compare Pos.compare_cont]; cbv iota).

Ltac decode_fail code :=
  unfold DecodeRuneInString;
  replace (first _) with code by (cases_first; reflexivity);
  header code; range_checks'; try lia; try reflexivity.

Ltac split_eqb :=
  repeat match goal with
         | H : context [?a =? ?b] |- _ => destruct (Z.eqb_spec a b); try lia
         | |- context [?a =? ?b] => destruct (Z.eqb_spec a b); try lia
         end.

(** Every decoding step fails with [(RuneError, 1)] or reads one of the
    four shapes. *)
Lemma decode_cases c0 r0 :
  DecodeRuneInString (String c0 r0) = (RuneError, 1%nat) \/
  byteZ c0 < 0x80 \/
  (exists c1 rest,
     r0 = String c1 rest /\
     0xC2 <= byteZ c0 < 0xE0 /\ 0x80 <= byteZ c1 <= 0xBF) \/
  (exists c1 c2 rest,
     r0 = String c1 (String c2 rest) /\
     0xE0 <= byteZ c0 < 0xF0 /\
     lo3 (byteZ c0) <= byteZ c1 <= hi3 (byteZ c0) /\
     0x80 <= byteZ c2 <= 0xBF) \/
  (exists c1 c2 c3 rest,
     r0 = String c1 (String c2 (String c3 rest)) /\
     0xF0 <= byteZ c0 <= 0xF4 /\
     lo4 (byteZ c0) <= byteZ c1 <= hi4 (byteZ c0) /\
     0x80 <= byteZ c2 <= 0xBF /\ 0x80 <= byteZ c3 <= 0xBF).
Proof.
  pose proof (byteZ_range c0) as R0.
  assert (C : byteZ c0 < 0x80 \/
              (0x80 <= byteZ c0 < 0xC2 \/ 0xF4 < byteZ c0) \/
              0xC2 <= byteZ c0 < 0xE0 \/
              0xE0 <= byteZ c0 < 0xF0 \/
              0xF0 <= byteZ c0 <= 0xF4) by lia.
  destruct C as [C|[C|[C|[C|C]]]].
  - auto.
  - left. decode_fail xx.
  - destruct r0 as [|c1 rest]; [left; decode_fail s1|].
    assert (C1 : 0x80 <= byteZ c1 <= 0xBF \/
                 (byteZ c1 < 0x80 \/ 0xBF < byteZ c1)) by lia.
    destruct C1 as [C1|C1]; [right; right; left; eauto|].
    left. decode_fail s1.
  - assert (Hf : first (byteZ c0) = s2 /\ byteZ c0 = 0xE0 \/
                 first (byteZ c0) = s4 /\ byteZ c0 = 0xED \/
                 first (byteZ c0) = s3 /\ byteZ c0 <> 0xE0 /\ byteZ c0 <> 0xED)
      by (cases_first; auto).
    destruct r0 as [|c1 [|c2 rest]].
    + left. destruct Hf as [[E _]|[[E _]|[E _]]];
        unfold DecodeRuneInString; rewrite E; reflexivity.
    + left. destruct Hf as [[E _]|[[E _]|[E _]]];
        unfold DecodeRuneInString; rewrite E;
        [header s2 | header s4 | header s3]; range_checks'; reflexivity.
    + assert (C1 : (lo3 (byteZ c0) <= byteZ c1 <= hi3 (byteZ c0) /\
                    0x80 <= byteZ c2 <= 0xBF) \/
                   (byteZ c1 < lo3 (byteZ c0) \/ hi3 (byteZ c0) < byteZ c1 \/
                    byteZ c2 < 0x80 \/ 0xBF < byteZ c2)) by lia.
      destruct C1 as [C1|C1]; [right; right; right; left; eauto 10|].
      left. unfold lo3, hi3 in C1.
      destruct Hf as [[E E']|[[E E']|[E [E' E'']]]];
        unfold DecodeRuneInString; rewrite E;
        [header s2 | header s4 | header s3]; split_eqb;
        range_checks'; try lia; reflexivity.
  - assert (Hf : first (byteZ c0) = s5 /\ byteZ c0 = 0xF0 \/
                 first (byteZ c0) = s7 /\ byteZ c0 = 0xF4 \/
                 first (byteZ c0) = s6 /\ byteZ c0 <> 0xF0 /\ byteZ c0 <> 0xF4)
      by (cases_first; auto).
    destruct r0 as [|c1 [|c2 [|c3 rest]]].
    + left. destruct Hf as [[E _]|[[E _]|[E _]]];
        unfold DecodeRuneInString; rewrite E; reflexivity.
    + left. destruct Hf as [[E _]|[[E _]|[E _]]];
        unfold DecodeRuneInString; rewrite E;
        [header s5 | header s7 | header s6]; range_checks'; reflexivity.
    + left. destruct Hf as [[E _]|[[E _]|[E _]]];
        unfold DecodeRuneInString; rewrite E;
        [header s5 | header s7 | header s6]; range_checks'; reflexivity.
    + assert (C1 : (lo4 (byteZ c0) <= byteZ c1 <= hi4 (byteZ c0) /\
                    0x80 <= byteZ c2 <= 0xBF /\ 0x80 <= byteZ c3 <= 0xBF) \/
                   (byteZ c1 < lo4 (byteZ c0) \/ hi4 (byteZ c0) < byteZ c1 \/
                    byteZ c2 < 0x80 \/ 0xBF < byteZ c2 \/
                    byteZ c3 < 0x80 \/ 0xBF < byteZ c3)) by lia.
      destruct C1 as [C1|C1]; [right; right; right; right; eauto 12|].
      left. unfold lo4, hi4 in C1.
      destruct Hf as [[E E']|[[E E']|[E [E' E'']]]];
        unfold DecodeRuneInString; rewrite E;
        [header s5 | header s7 | header s6]; split_eqb;
        range_checks'; try lia; reflexivity.
Qed.

(** ** The encoding of a rune, by its size *)

Ltac rune_class :=
  unfold runeString, rune1Max, rune2Max, rune3Max, MaxRune, surrogateMin,
    surrogateMax;
  cbv beta zeta;
  repeat match goal with
         | |- context [?r mod 2 ^ 32] =>
           rewrite (Z.mod_small r (2 ^ 32)) by (pow2; lia)
         end;
  repeat (match goal with
          | |- context [?a <=? ?b] => destruct (Z.leb_spec a b); try lia
          | |- context [?a <? ?b] => destruct (Z.ltb_spec a b); try lia
          end; cbn [orb andb]; cbv beta iota).

Lemma runeString_1 r :
  0 <= r < 0x80 -> runeString r = String (Zbyte r) EmptyString.
Proof. intros H. rune_class. reflexivity. Qed.

Lemma runeString_2 r :
  0x80 <= r < 0x800 ->
  runeString r =
  String (Zbyte (192 + r / 64)) (String (Zbyte (128 + r mod 64)) EmptyString).
Proof.
  intros H. rune_class.
  rewrite (contByte0 r), (leadByte t2 6 r 6) by (unfold t2; arith).
  reflexivity.
Qed.

Lemma runeString_3 r :
  0x800 <= r < 0x10000 -> ~ (0xD800 <= r <= 0xDFFF) ->
  runeString r =
  String (Zbyte (224 + r / 4096))
 (String (Zbyte (128 + (r / 64) mod 64))
 (String (Zbyte (128 + r mod 64)) EmptyString)).
Proof.
  intros H Hs. rune_class;
    rewrite (contByte0 r), (contByte r 6), (leadByte t3 5 r 12)
      by (unfold t3; arith);
    reflexivity.
Qed.

Lemma runeString_4 r :
  0x10000 <= r <= 0x10FFFF ->
  runeString r =
  String (Zbyte (240 + r / 262144))
 (String (Zbyte (128 + (r / 4096) mod 64))
 (String (Zbyte (128 + (r / 64) mod 64))
 (String (Zbyte (128 + r mod 64)) EmptyString))).
Proof.
  intros H. rune_class.
  rewrite (contByte0 r), (contByte r 6), (contByte r 12), (leadByte t4 4 r 18)
    by (unfold t4; arith).
  reflexivity.
Qed.

Lemma byteZ_Zbyte_small z : 0 <= z < 256 -> byteZ (Zbyte z) = z.
Proof. intros. rewrite byteZ_Zbyte. now apply Z.mod_small. Qed.

(** ** Decoding what was encoded, and encoding what was decoded *)

Lemma validRune_cases r :
  validRune r ->
  0 <= r < 0x80 \/ 0x80 <= r < 0x800 \/
  (0x800 <= r < 0x10000 /\ ~ (0xD800 <= r <= 0xDFFF)) \/
  0x10000 <= r <= 0x10FFFF.
Proof. unfold validRune. lia. Qed.

Ltac bytes_small :=
  repeat match goal with
         | |- context [byteZ (Zbyte ?z)] =>
           rewrite (byteZ_Zbyte_small z) by arith
         end.

Lemma DecodeRuneInString_runeString r rest :
  validRune r ->
  DecodeRuneInString (runeString r +:+ rest)
  = (r, String.length (runeString r)).
Proof.
  intros Hv. destruct (validRune_cases r Hv) as [H|[H|[[H Hs]|H]]].
  - rewrite (runeString_1 r H), append_cons, decode1;
      bytes_small; [reflexivity | lia].
  - rewrite (runeString_2 r H), !append_cons, decode2;
      bytes_small; [|arith ..]. cbn [String.length]. f_equal. arith.
  - rewrite (runeString_3 r H Hs), !append_cons, decode3;
      unfold lo3, hi3; bytes_small; split_eqb; [| |arith ..];
      cbn [String.length]; f_equal; arith.
  - rewrite (runeString_4 r H), !append_cons, decode4;
      unfold lo4, hi4; bytes_small; split_eqb; [| |arith ..];
      cbn [String.length]; f_equal; arith.
Qed.

Lemma validRune_RuneError : validRune RuneError.
Proof. unfold validRune, RuneError. lia. Qed.

(** A decoding step that does not fail reads the encoding of the rune it
    returns. *)
Lemma runeString_DecodeRuneInString c0 r0 r w :
  DecodeRuneInString (String c0 r0) = (r, w) ->
  (r, w) = (RuneError, 1%nat) \/
  (validRune r /\ w = String.length (runeString r) /\
   exists rest, String c0 r0 = runeString r +:+ rest).
Proof.
  intros H. pose proof (byteZ_range c0) as R0.
  destruct (decode_cases c0 r0)
    as [E|[C|[(c1 & rest & -> & C0 & C1)
             |[(c1 & c2 & rest & -> & C0 & C1 & C2)
              |(c1 & c2 & c3 & rest & -> & C0 & C1 & C2 & C3)]]]].
  - left. congruence.
  - right. rewrite decode1 in H by assumption. injection H as <- <-.
    rewrite runeString_1 by lia. rewrite Zbyte_byteZ.
    split; [unfold validRune; lia|]. split; [reflexivity|]. now exists r0.
  - right. pose proof (byteZ_range c1).
    rewrite decode2 in H by assumption. injection H as <- <-.
    rewrite runeString_2 by arith.
    split; [unfold validRune; arith|]. split; [reflexivity|]. exists rest.
    rewrite !append_cons, append_empty_l.
    repeat f_equal; symmetry; apply Zbyte_eq; arith.
  - right. pose proof (byteZ_range c1). pose proof (byteZ_range c2).
    rewrite decode3 in H by assumption. injection H as <- <-.
    unfold lo3, hi3 in C1.
    assert (Hr : 0x800 <= byteZ c0 mod 16 * 4096 + byteZ c1 mod 64 * 64
                          + byteZ c2 mod 64 < 0x10000 /\
                 ~ (0xD800 <= byteZ c0 mod 16 * 4096 + byteZ c1 mod 64 * 64
                              + byteZ c2 mod 64 <= 0xDFFF))
      by (split_eqb; arith).
    destruct Hr as [Hr Hs]. rewrite runeString_3 by assumption.
    split; [unfold validRune; lia|]. split; [reflexivity|]. exists rest.
    rewrite !append_cons, append_empty_l.
    assert (E0 : byteZ c0 = 224 + byteZ c0 mod 16) by arith.
    assert (E1 : byteZ c1 = 128 + byteZ c1 mod 64) by (split_eqb; arith).
    assert (E2 : byteZ c2 = 128 + byteZ c2 mod 64) by arith.
    pose proof (Z.mod_pos_bound (byteZ c0) 16 ltac:(lia)).
    pose proof (Z.mod_pos_bound (byteZ c1) 64 ltac:(lia)).
    pose proof (Z.mod_pos_bound (byteZ c2) 64 ltac:(lia)).
    clear C1 Hr Hs.
    set (x0 := byteZ c0 mod 16) in *. set (x1 := byteZ c1 mod 64) in *.
    set (x2 := byteZ c2 mod 64) in *. clearbody x0 x1 x2.
    repeat f_equal; symmetry; apply Zbyte_eq; arith.
  - right. pose proof (byteZ_range c1). pose proof (byteZ_range c2).
    pose proof (byteZ_range c3).
    rewrite decode4 in H by assumption. injection H as <- <-.
    unfold lo4, hi4 in C1.
    assert (Hr : 0x10000 <= byteZ c0 mod 8 * 262144 + byteZ c1 mod 64 * 4096
                            + byteZ c2 mod 64 * 64 + byteZ c3 mod 64
                 <= 0x10FFFF)
      by (split_eqb; arith).
    rewrite runeString_4 by assumption.
    split; [unfold validRune; lia|]. split; [reflexivity|]. exists rest.
    rewrite !append_cons, append_empty_l.
    assert (E0 : byteZ c0 = 240 + byteZ c0 mod 8) by arith.
    assert (E1 : byteZ c1 = 128 + byteZ c1 mod 64) by (split_eqb; arith).
    assert (E2 : byteZ c2 = 128 + byteZ c2 mod 64) by arith.
    assert (E3 : byteZ c3 = 128 + byteZ c3 mod 64) by arith.
    pose proof (Z.mod_pos_bound (byteZ c0) 8 ltac:(lia)).
    pose proof (Z.mod_pos_bound (byteZ c1) 64 ltac:(lia)).
    pose proof (Z.mod_pos_bound (byteZ c2) 64 ltac:(lia)).
    pose proof (Z.mod_pos_bound (byteZ c3) 64 ltac:(lia)).
    clear C1 Hr.
    set (x0 := byteZ c0 mod 8) in *. set (x1 := byteZ c1 mod 64) in *.
    set (x2 := byteZ c2 mod 64) in *. set (x3 := byteZ c3 mod 64) in *.
    clearbody x0 x1 x2 x3.
    repeat f_equal; symmetry; apply Zbyte_eq; arith.
Qed.

(** ** Strings and the runes a range yields *)


Lemma runeString_nonempty r : validRune r -> exists c t, runeString r = String c t.
Proof.
  intros Hv. destruct (validRune_cases r Hv) as [H|[H|[[H Hs]|H]]].
  - rewrite runeString_1 by assumption. eauto.
  - rewrite runeString_2 by assumption. eauto.
  - rewrite runeString_3 by assumption. eauto.
  - rewrite runeString_4 by assumption. eauto.
Qed.

Lemma joinMap_cons {A} (f : A -> string) a l :
  joinMap f (a :: l) = f a +:+ joinMap f l.
Proof. reflexivity. Qed.

Lemma encodeRunes_cons r rs :
  encodeRunes (r :: rs) = runeString r +:+ encodeRunes rs.
Proof. reflexivity. Qed.

Lemma replaceAll_from_runes old new s :
  forall skip result,
    replaceAll_from old new skip s result =
    result +:+ joinMap (substRune old new) (runesFrom skip s).
Proof.
  induction s as [|c s IH]; intros skip result.
  - cbn. now rewrite append_empty_r.
  - destruct skip as [|n].
    + cbn [replaceAll_from runesFrom].
      destruct (DecodeRuneInString (String c s)) as [r w].
      rewrite IH, joinMap_cons. unfold substRune at 2.
      destruct (String.eqb (runeString r) old); now rewrite append_assoc.
    + cbn [replaceAll_from runesFrom]. apply IH.
Qed.

Lemma replaceAll_runes s old new :
  replaceAll s old new = joinMap (substRune old new) (runes s).
Proof. unfold replaceAll, runes. now rewrite replaceAll_from_runes. Qed.

Lemma runesFrom_skip pre rest :
  runesFrom (String.length pre) (pre +:+ rest) = runes rest.
Proof.
  induction pre as [|c pre IH]; [reflexivity|].
  rewrite append_cons. cbn [String.length runesFrom]. exact IH.
Qed.

Lemma runes_runeString r rest :
  validRune r -> runes (runeString r +:+ rest) = r :: runes rest.
Proof.
  intros Hv. pose proof (DecodeRuneInString_runeString r rest Hv) as D.
  destruct (runeString_nonempty r Hv) as (c & t & E). rewrite E in *.
  rewrite append_cons in *. unfold runes at 1. cbn [runesFrom].
  rewrite D. cbn [String.length Nat.pred]. now rewrite runesFrom_skip.
Qed.

Lemma runes_encodeRunes rs :
  Forall validRune rs -> runes (encodeRunes rs) = rs.
Proof.
  induction 1 as [|r rs Hr _ IH]; [reflexivity|].
  rewrite encodeRunes_cons, runes_runeString by assumption. now rewrite IH.
Qed.

Lemma runesFrom_valid s : forall skip, Forall validRune (runesFrom skip s).
Proof.
  induction s as [|c s IH]; intros skip; [constructor|].
  destruct skip as [|n]; cbn [runesFrom]; [|apply IH].
  destruct (DecodeRuneInString (String c s)) as [r w] eqn:D.
  constructor; [|apply IH].
  destruct (runeString_DecodeRuneInString _ _ _ _ D) as [[= -> _]|[Hv _]];
    [apply validRune_RuneError | exact Hv].
Qed.

Lemma runes_valid s : Forall validRune (runes s).
Proof. apply runesFrom_valid. Qed.

Lemma dropBytes_append pre rest :
  dropBytes (String.length pre) (pre +:+ rest) = rest.
Proof.
  induction pre as [|c pre IH]; [now destruct rest|].
  rewrite append_cons. cbn [String.length dropBytes]. exact IH.
Qed.

Lemma encodeRunes_runesFrom s :
  forall skip,
    validFrom skip s = true ->
    encodeRunes (runesFrom skip s) = dropBytes skip s.
Proof.
  induction s as [|c s IH]; intros skip Hv; [now destruct skip|].
  destruct skip as [|n]; cbn [runesFrom validFrom dropBytes] in *;
    [|now apply IH].
  destruct (DecodeRuneInString (String c s)) as [r w] eqn:D.
  destruct (runeString_DecodeRuneInString _ _ _ _ D)
    as [[= -> ->]|(Hr & -> & rest & E)]; [discriminate|].
  destruct ((r =? RuneError) && (_ =? 1)%nat); [discriminate|].
  rewrite encodeRunes_cons, (IH _ Hv).
  destruct (runeString_nonempty r Hr) as (c' & t & Et). rewrite Et in *.
  rewrite append_cons in E. injection E as <- ->.
  cbn [String.length Nat.pred]. now rewrite dropBytes_append, append_cons.
Qed.

(** A valid string is the encoding of its runes. *)
Lemma encodeRunes_runes s : ValidString s = true -> encodeRunes (runes s) = s.
Proof. intros H. apply (encodeRunes_runesFrom s 0 H). Qed.

(** ** The bytes of an encoded rune *)

Lemma byteZ_inj a b : byteZ a = byteZ b -> a = b.
Proof. intros H. now rewrite <- (Zbyte_byteZ a), <- (Zbyte_byteZ b), H. Qed.

Lemma Ascii_eqb_byteZ a b : Ascii.eqb a b = (byteZ a =? byteZ b).
Proof.
  destruct (Ascii.eqb_spec a b) as [->|Hne].
  - now rewrite Z.eqb_refl.
  - symmetry. apply Z.eqb_neq. intros E. now apply Hne, byteZ_inj.
Qed.

(** The encoding of [r] is the single byte [x] when [r] is its value, and
    does not contain that byte otherwise. *)
Lemma runeString_byte r x :
  validRune r -> byteZ x < 0x80 ->
  (r = byteZ x /\ runeString r = String x EmptyString) \/
  (r <> byteZ x /\ hasByte x (runeString r) = false).
Proof.
  intros Hv Hx. pose proof (byteZ_range x) as Rx.
  destruct (Z.eq_dec r (byteZ x)) as [->|Hne].
  - left. split; [reflexivity|]. rewrite runeString_1 by lia.
    now rewrite Zbyte_byteZ.
  - right. split; [assumption|].
    destruct (validRune_cases r Hv) as [H|[H|[[H Hs]|H]]];
      [rewrite runeString_1 by assumption
      |rewrite runeString_2 by assumption
      |rewrite runeString_3 by assumption
      |rewrite runeString_4 by assumption];
      cbn [hasByte]; rewrite !Ascii_eqb_byteZ; bytes_small;
      repeat match goal with
             | |- context [?a =? ?b] => destruct (Z.eqb_spec a b); [arith|]
             end; reflexivity.
Qed.

Lemma slash_byte : byteZ "/" = 47. Proof. reflexivity. Qed.
Lemma underscore_byte : byteZ "_" = 95. Proof. reflexivity. Qed.

Lemma validRune_47 : validRune 47. Proof. unfold validRune. lia. Qed.
Lemma validRune_95 : validRune 95. Proof. unfold validRune. lia. Qed.

Lemma substRune_slash r :
  validRune r ->
  substRune "/" "__" r = encodeRunes (if r =? 47 then [95; 95] else [r]).
Proof.
  intros Hv. unfold substRune.
  destruct (runeString_byte r "/" Hv ltac:(reflexivity)) as [[-> E]|[Hne Hb]].
  - rewrite E. reflexivity.
  - rewrite slash_byte in Hne. destruct (Z.eqb_spec r 47); [contradiction|].
    destruct (String.eqb_spec (runeString r) "/") as [E|_].
    + rewrite E in Hb. discriminate.
    + unfold encodeRunes. cbn. now rewrite append_empty_r.
Qed.

Lemma encodeRunes_app a b :
  encodeRunes (a ++ b) = encodeRunes a +:+ encodeRunes b.
Proof.
  induction a as [|r a IH]; [reflexivity|].
  cbn [app]. now rewrite !encodeRunes_cons, IH, append_assoc.
Qed.

Lemma joinMap_substRune rs :
  Forall validRune rs ->
  joinMap (substRune "/" "__") rs = encodeRunes (underscored rs).
Proof.
  induction 1 as [|r rs Hr _ IH]; [reflexivity|].
  rewrite joinMap_cons, IH, substRune_slash by assumption.
  unfold underscored. cbn [flat_map]. now rewrite encodeRunes_app.
Qed.

(** [replaceAll] with "/" and "__", on runes. *)
Lemma encodePath_runes p : encodePath p = encodeRunes (underscored (runes p)).
Proof.
  unfold encodePath. rewrite replaceAll_runes.
  apply joinMap_substRune, runes_valid.
Qed.

Lemma underscored_valid rs :
  Forall validRune rs -> Forall validRune (underscored rs).
Proof.
  induction 1 as [|r rs Hr _ IH]; [constructor|].
  unfold underscored in *. cbn [flat_map]. apply Forall_app. split; [|exact IH].
  destruct (r =? 47); repeat (constructor; auto using validRune_95).
Qed.

Lemma underscored_no_slash rs : ~ In 47 (underscored rs).
Proof.
  induction rs as [|r rs IH]; [intros []|].
  unfold underscored in *. cbn [flat_map]. rewrite in_app_iff.
  intros [H|H]; [|now apply IH].
  destruct (Z.eqb_spec r 47); cbn in H; lia.
Qed.

(** ** The two byte-level passes on encoded runes *)

Lemma slashToUnderscores_chunk s t :
  hasByte "/" s = false ->
  slashToUnderscores (s +:+ t) = s +:+ slashToUnderscores t.
Proof.
  induction s as [|c s IH]; [reflexivity|].
  cbn [hasByte]. intros H. apply orb_false_iff in H as [Hc Hs].
  rewrite !append_cons. cbn [slashToUnderscores]. rewrite Hc.
  now rewrite IH.
Qed.

Lemma slashToUnderscores_encodeRunes rs :
  Forall validRune rs ->
  slashToUnderscores (encodeRunes rs) = encodeRunes (underscored rs).
Proof.
  induction 1 as [|r rs Hr _ IH]; [reflexivity|].
  rewrite encodeRunes_cons. unfold underscored in *. cbn [flat_map].
  rewrite encodeRunes_app, <- IH.
  destruct (runeString_byte r "/" Hr ltac:(reflexivity)) as [[-> E]|[Hne Hb]].
  - rewrite E. reflexivity.
  - rewrite slash_byte in Hne. destruct (Z.eqb_spec r 47); [contradiction|].
    rewrite slashToUnderscores_chunk by assumption.
    unfold encodeRunes at 2. cbn. now rewrite append_empty_r.
Qed.

(** On a valid string [replaceAll] is the byte-by-byte replacement. *)
Lemma encodePath_valid p :
  ValidString p = true -> encodePath p = slashToUnderscores p.
Proof.
  intros Hv. rewrite encodePath_runes.
  rewrite <- (encodeRunes_runes p Hv) at 2.
  symmetry. apply slashToUnderscores_encodeRunes, runes_valid.
Qed.

Import BuildScript.

Lemma restoreSlashes_other c s :
  c <> "_"%char -> restoreSlashes (String c s) = String c (restoreSlashes s).
Proof.
  intros Hc. cbn [restoreSlashes].
  destruct (Ascii.eqb_spec c "_"); [contradiction|]. now destruct s.
Qed.

Lemma restoreSlashes_single c c' s :
  c' <> "_"%char ->
  restoreSlashes (String c (String c' s))
  = String c (restoreSlashes (String c' s)).
Proof.
  intros Hc. cbn [restoreSlashes].
  destruct (Ascii.eqb_spec c' "_"); [contradiction|].
  now rewrite andb_false_r.
Qed.

Lemma restoreSlashes_pair s :
  restoreSlashes (String "_" (String "_" s)) = String "/" (restoreSlashes s).
Proof. reflexivity. Qed.

Lemma restoreSlashes_chunk s t :
  hasByte "_" s = false ->
  restoreSlashes (s +:+ t) = s +:+ restoreSlashes t.
Proof.
  induction s as [|c s IH]; [reflexivity|].
  cbn [hasByte]. intros H. apply orb_false_iff in H as [Hc Hs].
  rewrite !append_cons, restoreSlashes_other, IH; auto.
  intros ->. discriminate.
Qed.

Lemma restoreRunes_cons2 r r' rest :
  restoreRunes (r :: r' :: rest) =
  if (r =? 95) && (r' =? 95) then 47 :: restoreRunes rest
  else r :: restoreRunes (r' :: rest).
Proof. reflexivity. Qed.

Lemma restoreRunes_valid rs :
  Forall validRune rs -> Forall validRune (restoreRunes rs).
Proof.
  assert (H : forall n rs, (List.length rs <= n)%nat ->
                Forall validRune rs -> Forall validRune (restoreRunes rs)).
  { induction n as [|n IH]; intros [|r [|r' rest]] Hn Hv;
      cbn [List.length] in Hn; try lia; auto.
    rewrite restoreRunes_cons2.
    inversion Hv as [|? ? Hr Hv']; subst.
    inversion Hv' as [|? ? Hr' Hv'']; subst.
    destruct ((r =? 95) && (r' =? 95)).
    - constructor; [apply validRune_47 | apply IH; [lia | assumption]].
    - constructor; [assumption | apply IH; [cbn; lia | assumption]]. }
  intros Hv. now apply (H (List.length rs)).
Qed.

(** The decoding of the build script, on runes. *)
Lemma restoreSlashes_encodeRunes rs :
  Forall validRune rs ->
  restoreSlashes (encodeRunes rs) = encodeRunes (restoreRunes rs).
Proof.
  assert (H : forall n rs, (List.length rs <= n)%nat ->
                Forall validRune rs ->
                restoreSlashes (encodeRunes rs) = encodeRunes (restoreRunes rs)).
  { induction n as [|n IH]; intros [|r [|r' rest]] Hn Hv;
      cbn [List.length] in Hn; try lia; try reflexivity.
    - (* one rune *)
      inversion Hv as [|? ? Hr _]; subst. cbn [restoreRunes].
      rewrite encodeRunes_cons.
      destruct (runeString_byte r "_" Hr ltac:(reflexivity))
        as [[-> E]|[Hne Hb]]; [rewrite E; reflexivity|].
      now rewrite restoreSlashes_chunk.
    - (* two runes or more *)
      inversion Hv as [|? ? Hr Hv']; subst.
      inversion Hv' as [|? ? Hr' Hv'']; subst.
      rewrite restoreRunes_cons2, !encodeRunes_cons.
      destruct (runeString_byte r "_" Hr ltac:(reflexivity))
        as [[-> E]|[Hne Hb]]; change (byteZ "_") with 95 in *.
      + rewrite Z.eqb_refl. cbn [andb].
        destruct (runeString_byte r' "_" Hr' ltac:(reflexivity))
          as [[-> E']|[Hne' Hb']]; change (byteZ "_") with 95 in *.
        * rewrite Z.eqb_refl, E.
          rewrite !append_cons, !append_empty_l, restoreSlashes_pair.
          rewrite IH by (assumption || lia).
          rewrite encodeRunes_cons.
          destruct (runeString_byte 47 "/" validRune_47 ltac:(reflexivity))
            as [[_ E47]|[Hc _]]; [now rewrite E47|].
          now destruct Hc.
        * destruct (Z.eqb_spec r' 95); [contradiction|].
          rewrite encodeRunes_cons, E.
          rewrite <- (IH (r' :: rest)) by (assumption || (cbn; lia)).
          rewrite encodeRunes_cons.
          destruct (runeString_nonempty r' Hr') as (c' & t & Et).
          rewrite Et in *. rewrite !append_cons, append_empty_l.
          apply restoreSlashes_single. intros ->.
          cbn [hasByte] in Hb'. discriminate.
      + destruct (Z.eqb_spec r 95); [contradiction|]. cbn [andb].
        rewrite encodeRunes_cons.
        rewrite <- (IH (r' :: rest)) by (assumption || (cbn; lia)).
        rewrite encodeRunes_cons. now apply restoreSlashes_chunk. }
  intros Hv. now apply (H (List.length rs)).
Qed.

Lemma underscored_restoreRunes rs :
  ~ In 47 rs -> underscored (restoreRunes rs) = rs.
Proof.
  assert (H : forall n rs, (List.length rs <= n)%nat -> ~ In 47 rs ->
                underscored (restoreRunes rs) = rs).
  { induction n as [|n IH]; intros [|r [|r' rest]] Hn Hs;
      cbn [List.length] in Hn; try lia; try reflexivity.
    - cbn. destruct (Z.eqb_spec r 47) as [->|]; [|reflexivity].
      exfalso. apply Hs. now left.
    - rewrite restoreRunes_cons2.
      destruct (Z.eqb_spec r 95) as [->|Hr]; cbn [andb].
      + destruct (Z.eqb_spec r' 95) as [->|Hr'].
        * unfold underscored in *. cbn [flat_map]. cbn [Z.eqb Pos.eqb app].
          f_equal. f_equal. apply IH; [lia|].
          intros Hin. apply Hs. now do 2 right.
        * unfold underscored in *. cbn [flat_map]. cbn [Z.eqb Pos.eqb app].
          f_equal. apply (IH (r' :: rest)); [cbn; lia|].
          intros Hin. apply Hs. now right.
      + unfold underscored in *. cbn [flat_map].
        destruct (Z.eqb_spec r 47) as [->|_]; [exfalso; apply Hs; now left|].
        cbn [app]. f_equal. apply (IH (r' :: rest)); [cbn; lia|].
        intros Hin. apply Hs. now right. }
  intros Hs. now apply (H (List.length rs)).
Qed.

(** Encoding what the build script decodes from an encoded path gives the
    encoded path again. *)
Lemma encodePath_restoreSlashes_encodePath p :
  encodePath (restoreSlashes (encodePath p)) = encodePath p.
Proof.
  rewrite (encodePath_runes p).
  pose proof (underscored_valid _ (runes_valid p)) as Hv.
  rewrite restoreSlashes_encodeRunes by assumption.
  rewrite encodePath_runes, runes_encodeRunes by now apply restoreRunes_valid.
  now rewrite underscored_restoreRunes by apply underscored_no_slash.
Qed.

Lemma restoreSlashes_slashToUnderscores p :
  unambiguous p = true -> restoreSlashes (slashToUnderscores p) = p.
Proof.
  induction p as [|c p IH]; [reflexivity|].
  cbn [unambiguous slashToUnderscores]. intros H.
  apply andb_prop in H as [Hc Hp]. specialize (IH Hp).
  destruct (Ascii.eqb_spec c "/") as [->|Hslash].
  - now rewrite restoreSlashes_pair, IH.
  - destruct (Ascii.eqb_spec c "_") as [->|Hus].
    + destruct p as [|c' p]; [reflexivity|].
      apply negb_true_iff, orb_false_iff in Hc as [H1 H2].
      cbn [slashToUnderscores] in *. rewrite H2 in *.
      rewrite restoreSlashes_single, IH; [reflexivity|].
      intros ->. discriminate.
    + now rewrite restoreSlashes_other, IH.
Qed.

Lemma afterSeparator_cons2 c c' s :
  afterSeparator (String c (String c' s)) =
  if Ascii.eqb c ":" && Ascii.eqb c' ":" then Some s
  else afterSeparator (String c' s).
Proof. reflexivity. Qed.

Lemma afterSeparator_plainKey key rest :
  plainKey key -> afterSeparator (key +:+ "::" +:+ rest) = Some rest.
Proof.
  unfold plainKey. induction key as [|c key IH]; [reflexivity|].
  rewrite !append_cons.
  destruct key as [|c' key].
  - rewrite !append_empty_l, !afterSeparator_cons2.
    destruct (Ascii.eqb c ":" && Ascii.eqb ":" ":"); [discriminate|].
    intros _. reflexivity.
  - rewrite !append_cons in *. rewrite !(afterSeparator_cons2 c c').
    destruct (Ascii.eqb c ":" && Ascii.eqb c' ":"); [discriminate|].
    exact IH.
Qed.

Lemma envFileEntry_fileName env fileName content :
  envFileEntry env = ((fileName, content), None) -> fileName = fileNameOf env.
Proof.
  unfold envFileEntry, fileNameOf.
  destruct (db.Env.IsBase64 env).
  - destruct (DecodeString (db.Env.Value env)) as [decoded [e|]];
      [discriminate|].
    cbn. destruct (String.eqb _ _); cbn; congruence.
  - cbn. destruct (String.eqb _ _); cbn; congruence.
Qed.

Lemma destination_fileNameOf env :
  db.Env.Path env <> EmptyString ->
  plainKey (db.Env.Key env) ->
  BuildScript.destination (fileNameOf env)
  = restoreSlashes (encodePath (db.Env.Path env)).
Proof.
  intros Hp Hk. unfold fileNameOf, BuildScript.destination.
  destruct (String.eqb_spec (db.Env.Path env) EmptyString); [contradiction|].
  fold (encodePath (db.Env.Path env)).
  now rewrite afterSeparator_plainKey.
Qed.

(** ** C2: the encoding of the path in the key of a file entry *)

(** C2, as worded, fails: the entry with the path
    assets/my__icons/logo.png is stored under the key
    logo::assets__my__icons__logo.png, which the build script copies to
    assets/my/icons/logo.png, not to the path of the entry. *)
Lemma C2_double_underscore_counterexample :
  envFileEntry iconsEntry
  = (("logo::assets__my__icons__logo.png", "PNG"), None) /\
  BuildScript.destination "logo::assets__my__icons__logo.png"
  = "assets/my/icons/logo.png" /\
  BuildScript.destination "logo::assets__my__icons__logo.png"
  <> db.Env.Path iconsEntry.
Proof. split; [reflexivity|split; [reflexivity|discriminate]]. Qed.

(** C2: the key [CreateConfigMapForEnvFiles] stores an entry with a path
    under is the Key, "::" and the path with "__" for every "/"; the build
    script finds android/app/google-services.json again from the key of
    that path; for every entry with a path, whose Key neither contains "::"
    nor ends with ":", encoding the path the script finds gives the same key
    again; and the script finds the path of the entry itself when that path
    is valid UTF-8 and has no "_" followed by "_" or "/". *)
Theorem C2_path_encoding_round_trip :
  (envFileEntry googleServicesJson
   = (("google-services.json::android__app__google-services.json", "{}"),
      None) /\
   BuildScript.destination
     "google-services.json::android__app__google-services.json"
   = "android/app/google-services.json") /\
  (forall p, encodePath (BuildScript.restoreSlashes (encodePath p))
             = encodePath p) /\
  (forall env fileName content,
     envFileEntry env = ((fileName, content), None) ->
     db.Env.Path env <> EmptyString ->
     plainKey (db.Env.Key env) ->
     fileName = db.Env.Key env +:+ "::" +:+ encodePath (db.Env.Path env) /\
     db.Env.Key env +:+ "::" +:+ encodePath (BuildScript.destination fileName)
     = fileName) /\
  (forall env fileName content,
     envFileEntry env = ((fileName, content), None) ->
     db.Env.Path env <> EmptyString ->
     plainKey (db.Env.Key env) ->
     ValidString (db.Env.Path env) = true ->
     unambiguous (db.Env.Path env) = true ->
     BuildScript.destination fileName = db.Env.Path env).
Proof.
  split; [split; reflexivity|].
  split; [exact encodePath_restoreSlashes_encodePath|].
  split.
  - intros env fileName content He Hp Hk.
    apply envFileEntry_fileName in He. subst fileName.
    rewrite destination_fileNameOf by assumption.
    rewrite encodePath_restoreSlashes_encodePath.
    unfold fileNameOf.
    destruct (String.eqb_spec (db.Env.Path env) EmptyString);
      [contradiction|].
    split; reflexivity.
  - intros env fileName content He Hp Hk Hv Hu.
    apply envFileEntry_fileName in He. subst fileName.
    rewrite destination_fileNameOf by assumption.
    rewrite encodePath_valid by assumption.
    now apply restoreSlashes_slashToUnderscores.
Qed.

Lemma C2_witness :
  BuildScript.destination "gs::android__app__g.json" = "android/app/g.json".
Proof.
  apply (proj2 (proj2 (proj2 C2_path_encoding_round_trip))
           googleServices "gs::android__app__g.json" "{}");
    try reflexivity.
  intros H. discriminate H.
Defined.

(* ===================================================================== *)
(** * The properties on the sample build                                  *)
(* ===================================================================== *)

(** The theorems above, applied to build 42 of the sample project in a
    cluster with no object yet. *)

Lemma C1_witness :
  resourceName Pods 42 <> resourceName Secrets 43 /\
  resourceName ConfigMaps 42 = "build-42-env-files".
Proof.
  split.
  - apply (proj2 (proj2 (proj2 (proj2 (proj2 (proj2 (proj2
             (C1_resource_names 42)))))))). lia.
  - apply (proj1 (C1_resource_names 42)).
Defined.

Lemma C3_witness :
  envFileEntry googleServices = (("gs::android__app__g.json", "{}"), None) /\
  envFileEntry apiUrl = (("API_URL", "https://api.example.org"), None).
Proof.
  split.
  - apply (proj1 (C3_file_entries googleServices) "{}"); reflexivity.
  - apply (proj1 (proj2 (C3_file_entries apiUrl))); reflexivity.
Defined.

Lemma C4_witness :
  exists pod secret,
    pods (cluster (snd (CreateBuildPod androidBuild signedWorld)))
    !! ("default", "build-42") = Some pod /\
    secrets (cluster (snd (CreateBuildPod androidBuild signedWorld)))
    !! ("default", "build-42-keystore") = Some secret.
Proof.
  destruct (C4_keystore_for_android_only
              androidBuild signedWorld
              (snd (CreateBuildPod androidBuild signedWorld))
              (sampleConn [googleServices; apiUrl] [sampleKeystore])
              sampleKeystore)
    as (pod & container & Hpod & _ & Handroid & _).
  - reflexivity.
  - vm_compute. reflexivity.
  - vm_compute. reflexivity.
  - destruct Handroid as [(data & secret & _ & _ & Hsecret & _) _];
      [reflexivity|].
    exists pod, secret. split; [exact Hpod | exact Hsecret].
Defined.


Lemma C7_witness :
  CreateSecretForKeystore 42 7 "default" unsignedWorld
  = (Return (EmptyString, None), unsignedWorld) /\
  exists w' pod,
    CreateBuildPod androidBuild unsignedWorld = (Return None, w') /\
    pods (cluster w') !! ("default", "build-42") = Some pod /\
    secrets (cluster w') = ∅.
Proof.
  pose proof (C7_absence_is_no_error androidBuild unsignedWorld) as H.
  cbv zeta in H. destruct H as (_ & _ & Hsecret & Hbuild).
  assert (Hnone : noActiveKeystore (sampleConn [apiUrl] []) 7).
  { split; [reflexivity|]. intros k []. }
  split.
  - apply (Hsecret (sampleConn [apiUrl] [])); [reflexivity | exact Hnone].
  - destruct (Hbuild (sampleConn [apiUrl] [])
                (rest.mkConfig "https://kubernetes.default.svc" "token" false)
                "build-42-artifacts" EmptyString
                (snd (CreatePersistentVolumeClaimForArtifacts
                        42 "default" unsignedWorld))
                (snd (CreatePersistentVolumeClaimForArtifacts
                        42 "default" unsignedWorld)))
      as (w' & pod & Hrun & _ & Hsec & Hpod & _);
      try exact Hnone; try (vm_compute; reflexivity).
    exists w', pod. split; [exact Hrun|]. split; [exact Hpod|].
    rewrite Hsec. reflexivity.
Defined.

Lemma C8_witness :
  exists w',
    DeleteBuildResources 42 "default" (sampleWorld None) = (Return None, w') /\
    cluster w' = emptyCluster /\
    List.length (stdout w') = 4%nat.
Proof.
  destruct (C8_deletion_is_best_effort 42 "default" (sampleWorld None))
    as (w' & Hrun & _ & Hout & _ & _ & _ & _ & Hsame).
  exists w'. split; [exact Hrun|]. split.
  - apply Hsame; reflexivity.
  - rewrite Hout. reflexivity.
Defined.

Lemma C9_witness :
  exists pod,
    pods (cluster (snd (CreateBuildPod androidBuild signedWorld)))
    !! ("default", "build-42") = Some pod /\
    podLabels androidBuild (v1.Pod.ObjectMeta pod) /\
    labelled (v1.Pod.ObjectMeta pod) "build-id" "42".
Proof.
  destruct (pods (cluster (snd (CreateBuildPod androidBuild signedWorld)))
            !! ("default", "build-42")) as [pod|] eqn:Hpod;
    [|vm_compute in Hpod; discriminate Hpod].
  exists pod. split; [reflexivity|].
  destruct (C9_created_objects_are_labelled
              androidBuild signedWorld
              (snd (CreateBuildPod androidBuild signedWorld))
              (fst (CreateBuildPod androidBuild signedWorld))
              "default" "build-42")
    as (_ & _ & _ & Hlabels).
  - vm_compute. reflexivity.
  - destruct (Hlabels pod) as [H1 H2]; [reflexivity | exact Hpod |].
    split; [exact H1 | apply H2; reflexivity].
Defined.

Lemma C10_witness :
  CreateSecretForKeystore 42 7 "default" (sampleWorld (Some keystoreQueryDown))
  = (Return (EmptyString, None), sampleWorld (Some keystoreQueryDown)) /\
  exists w' pod,
    CreateBuildPod androidBuild (sampleWorld (Some keystoreQueryDown))
    = (Return None, w') /\
    pods (cluster w') !! ("default", "build-42") = Some pod /\
    secrets (cluster w') = ∅.
Proof.
  pose proof (C10_keystore_query_failure
                androidBuild (sampleWorld (Some keystoreQueryDown))
                keystoreQueryDown "connection reset") as H.
  cbv zeta in H.
  destruct H as (Hsecret & Hbuild & _); [reflexivity | reflexivity |].
  split; [apply Hsecret|].
  destruct (Hbuild
              (rest.mkConfig "https://kubernetes.default.svc" "token" false)
              "build-42-artifacts" EmptyString
              (snd (CreatePersistentVolumeClaimForArtifacts
                      42 "default" (sampleWorld (Some keystoreQueryDown))))
              (snd (CreatePersistentVolumeClaimForArtifacts
                      42 "default" (sampleWorld (Some keystoreQueryDown)))))
    as (w' & pod & Hrun & _ & Hsec & Hpod & _);
    try (vm_compute; reflexivity).
  exists w', pod. split; [exact Hrun|]. split; [exact Hpod|].
  rewrite Hsec. reflexivity.
Defined.

(* ===================================================================== *)
(** * The cluster before and after a build                                *)
(* ===================================================================== *)

(** ** Running [CreateBuildPod] step by step *)

(** A relation that each step of [CreateBuildPod] keeps is kept by the
    call, in the namespace it works in. *)
Lemma CreateBuildPod_preserves (R : World -> World -> Prop) `{!PreOrder R}
    config w :
  preserves R (CreatePersistentVolumeClaimForArtifacts
                 (BuildConfig.BuildID config) (namespaceOf w)) ->
  preserves R (CreateConfigMapForEnvFiles
                 (BuildConfig.BuildID config)
                 (db.Project.ID (BuildConfig.Project config)) (namespaceOf w)) ->
  preserves R (secretStep config (namespaceOf w)) ->
  (forall conn image pvcName configMapName secretName,
     preserves R (CreatePod (namespaceOf w)
                            (podFor config conn (namespaceOf w) image pvcName
                                    configMapName secretName))) ->
  forall o w', CreateBuildPod config w = (o, w') -> R w w'.
Proof.
  intros H1 H2 H3 H4 o w'. rewrite CreateBuildPod_run. cbv zeta.
  destruct (kubernetesConfigOf w) as [kubeConfig|e];
    [|intros [= <- <-]; reflexivity].
  destruct (NewForConfig w kubeConfig); [intros [= <- <-]; reflexivity|].
  destruct (CreatePersistentVolumeClaimForArtifacts _ _ w)
    as [[[pvcName [e|]]|msg] w1] eqn:E1;
    try (intros [= <- <-]; eapply H1, E1).
  apply H1 in E1.
  destruct (CreateConfigMapForEnvFiles _ _ _ w1)
    as [[[configMapName [e|]]|msg] w2] eqn:E2;
    try (intros [= <- <-]; transitivity w1; [exact E1 | eapply H2, E2]).
  apply H2 in E2.
  destruct (secretStep config (namespaceOf w) w2)
    as [[[secretName [e|]]|msg] w3] eqn:E3;
    try (intros [= <- <-]; transitivity w1; [exact E1|];
         transitivity w2; [exact E2 | eapply H3, E3]).
  apply H3 in E3.
  assert (R w w3) by (transitivity w1; [exact E1|]; now transitivity w2).
  unfold podStep. destruct (DB w3); [|intros [= <- <-]; assumption].
  destruct (CreatePod _ _ w3) as [[[e|]|msg] w4] eqn:E4;
    intros [= <- <-]; (transitivity w3; [assumption | eapply H4, E4]).
Qed.

Lemma secretStep_preserves (R : World -> World -> Prop) `{!PreOrder R}
    config ns :
  preserves R (CreateSecretForKeystore
                 (BuildConfig.BuildID config)
                 (db.Project.ID (BuildConfig.Project config)) ns) ->
  preserves R (secretStep config ns).
Proof.
  intros H. unfold secretStep. destruct (String.eqb _ _); [exact H|].
  now apply preserves_ret.
Qed.

Lemma CreateBuildPod_sameProcess config :
  preserves sameProcess (CreateBuildPod config).
Proof.
  intros w o w'. apply CreateBuildPod_preserves; try exact _.
  - apply CreatePersistentVolumeClaimForArtifacts_sameProcess.
  - apply CreateConfigMapForEnvFiles_sameProcess.
  - apply secretStep_sameProcess.
  - intros. apply CreatePod_sameProcess.
Qed.

(** ** What [CreateBuildPod] sends and changes *)

Lemma sends_refl allowed w : sends allowed w w.
Proof. exists []. split; [now rewrite app_nil_r | apply sublist_nil_l]. Qed.












#[local] Instance sameOutput_preorder :
  PreOrder (fun w w' : World => stdout w' = stdout w).
Proof. split; [intros w; reflexivity | intros w1 w2 w3; congruence]. Qed.




(** ** What [DeleteBuildResources] changes *)

(** The run of [DeleteBuildResources]: each of the four deletions ends with
    its own [deleteError] and removes its object when there is none. *)
Lemma DeleteBuildResources_effect buildID ns w :
  exists w',
    DeleteBuildResources buildID ns w = (Return None, w') /\
    sameProcess w w' /\
    pods (cluster w') =
    afterDelete (deleteError Pods pods ns (resourceName Pods buildID) w)
                (ns, resourceName Pods buildID) (pods (cluster w)) /\
    configMaps (cluster w') =
    afterDelete
      (deleteError ConfigMaps configMaps ns (resourceName ConfigMaps buildID) w)
      (ns, resourceName ConfigMaps buildID) (configMaps (cluster w)) /\
    secrets (cluster w') =
    afterDelete (deleteError Secrets secrets ns (resourceName Secrets buildID) w)
                (ns, resourceName Secrets buildID) (secrets (cluster w)) /\
    pvcs (cluster w') =
    afterDelete
      (deleteError PersistentVolumeClaims pvcs ns
                   (resourceName PersistentVolumeClaims buildID) w)
      (ns, resourceName PersistentVolumeClaims buildID) (pvcs (cluster w)).
Proof.
  unfold deleteError, afterDelete, resourceName.
  unfold DeleteBuildResources, DeletePod, DeleteConfigMap, DeleteSecret,
    DeletePersistentVolumeClaim, Printf, bind, ret, modify.
  rewrite apiDelete_run.
  destruct (apiFault w (mkRequest Delete Pods _ _)) as [e1|];
    [|destruct (pods (cluster w) !! _) as [p|]];
    (rewrite apiDelete_run; cbn [apiFault cluster addRequest addOutput
       setCluster setPods setConfigMaps setSecrets setPvcs pods configMaps
       secrets pvcs];
     destruct (apiFault w (mkRequest Delete ConfigMaps _ _)) as [e2|];
       [|destruct (configMaps (cluster w) !! _) as [c|]]);
    (rewrite apiDelete_run; cbn [apiFault cluster addRequest addOutput
       setCluster setPods setConfigMaps setSecrets setPvcs pods configMaps
       secrets pvcs];
     destruct (apiFault w (mkRequest Delete Secrets _ _)) as [e3|];
       [|destruct (secrets (cluster w) !! _) as [s|]]);
    (rewrite apiDelete_run; cbn [apiFault cluster addRequest addOutput
       setCluster setPods setConfigMaps setSecrets setPvcs pods configMaps
       secrets pvcs];
     destruct (apiFault w (mkRequest Delete PersistentVolumeClaims _ _))
       as [e4|];
       [|destruct (pvcs (cluster w) !! _) as [v|]]);
    (eexists; split; [reflexivity|]; repeat split).
Qed.

Lemma onlyAt_afterDelete {A} (err : error) (key : string * string)
    (m : gmap (string * string) A) :
  onlyAt key m (afterDelete err key m).
Proof.
  intros key' Hne. destruct err; [reflexivity|]. now apply lookup_delete_ne.
Qed.

Lemma afterDelete_subseteq {A} (err : error) (key : string * string)
    (m : gmap (string * string) A) :
  afterDelete err key m ⊆ m.
Proof. destruct err; [reflexivity | apply delete_subseteq]. Qed.

Lemma resourceName_key_ne (k k' : Kind) (x y : N) (ns ns' : string) :
  x <> y -> (ns, resourceName k x) <> (ns', resourceName k' y).
Proof.
  intros Hne [= _ Hname]. apply resourceName_inj in Hname as [_ ->].
  contradiction.
Qed.

(** X2: [DeleteBuildResources] touches the four objects of its build only:
    it always returns, with no error; in each of the four kinds the only
    object that can have changed is the one of the build in the given
    namespace, and nothing is added; so the objects of every other build,
    of whatever kind and in whatever namespace, are as they were. *)
Theorem DeleteBuildResources_isolation
    (buildID : N) (ns : string) (w : World) :
  exists w',
    DeleteBuildResources buildID ns w = (Return None, w') /\
    ownObjects buildID ns w w' /\
    keepsObjects w' w /\
    (forall other ns' k,
       other <> buildID ->
       pods (cluster w') !! (ns', resourceName k other)
       = pods (cluster w) !! (ns', resourceName k other) /\
       configMaps (cluster w') !! (ns', resourceName k other)
       = configMaps (cluster w) !! (ns', resourceName k other) /\
       secrets (cluster w') !! (ns', resourceName k other)
       = secrets (cluster w) !! (ns', resourceName k other) /\
       pvcs (cluster w') !! (ns', resourceName k other)
       = pvcs (cluster w) !! (ns', resourceName k other)).
Proof.
  destruct (DeleteBuildResources_effect buildID ns w)
    as (w' & Hrun & _ & P & C & S & V).
  exists w'. split; [exact Hrun|].
  assert (Hown : ownObjects buildID ns w w').
  { unfold ownObjects. rewrite P, C, S, V.
    repeat split; apply onlyAt_afterDelete. }
  split; [exact Hown|]. split.
  { unfold keepsObjects. rewrite P, C, S, V.
    repeat split; apply afterDelete_subseteq. }
  intros other ns' k Hother. destruct Hown as (HP & HC & HS & HV).
  repeat split; [apply HP | apply HC | apply HS | apply HV];
    now apply resourceName_key_ne.
Qed.

(** ** Creating, then deleting *)

#[local] Instance onlyAt_preorder {A} (key : string * string) :
  PreOrder (@onlyAt A key).
Proof.
  split; [intros m key' _; reflexivity|].
  intros m1 m2 m3 H1 H2 key' Hne. now rewrite H2, H1.
Qed.

#[local] Instance ownObjects_preorder buildID ns :
  PreOrder (ownObjects buildID ns).
Proof.
  split.
  - intros w. repeat split; reflexivity.
  - intros w1 w2 w3 (P1 & C1 & S1 & V1) (P2 & C2 & S2 & V2).
    repeat split; etransitivity; eassumption.
Qed.

Lemma onlyAt_insert {A} (key : string * string) (obj : A)
    (m : gmap (string * string) A) :
  onlyAt key m (<[key := obj]> m).
Proof. intros key' Hne. now apply lookup_insert_ne. Qed.

Ltac own_objects :=
  match goal with
  | |- preserves _ (apiCreate _ _ _ _ _ _) =>
    let w := fresh "w" in let o := fresh "o" in let w' := fresh "w'" in
    intros w o w'; rewrite apiCreate_run;
    destruct (apiFault w _);
      [|destruct (_ !! _) eqn:?]; intros [= <- <-];
    try reflexivity;
    repeat split; cbn; try reflexivity; apply onlyAt_insert
  end.

Lemma CreateBuildPod_ownObjects config w o w' :
  CreateBuildPod config w = (o, w') ->
  ownObjects (BuildConfig.BuildID config) (namespaceOf w) w w'.
Proof.
  apply CreateBuildPod_preserves; try exact _.
  - unfold_calls. walk. own_objects.
  - unfold_calls. walk. own_objects.
  - apply secretStep_preserves; [exact _|]. unfold_calls. walk. own_objects.
  - intros. unfold CreatePod. own_objects.
Qed.

Lemma onlyAt_delete {A} (key : string * string)
    (m m' : gmap (string * string) A) :
  onlyAt key m m' -> m !! key = None -> delete key m' = m.
Proof.
  intros Honly Hfree. apply map_eq. intros key'.
  destruct (decide (key' = key)) as [->|Hne].
  - now rewrite lookup_delete_eq.
  - rewrite lookup_delete_ne by congruence. now apply Honly.
Qed.

Lemma afterDelete_deleteError {A} (k : Kind)
    (objects : Cluster -> gmap (string * string) A) ns name w :
  apiFault w (mkRequest Delete k ns name) = None ->
  afterDelete (deleteError k objects ns name w) (ns, name) (objects (cluster w))
  = delete (ns, name) (objects (cluster w)).
Proof.
  intros Hfault. unfold deleteError. rewrite Hfault.
  destruct (_ !! _) eqn:E; [reflexivity|]. cbn.
  symmetry. now apply delete_id.
Qed.

(** X3: [DeleteBuildResources] undoes [CreateBuildPod], however far it got:
    when none of the four names of the build was taken and the cluster
    refuses none of the four deletions, deleting the resources of the build
    after [CreateBuildPod], whether it succeeded, returned an error or
    panicked, leaves the cluster exactly as it was before. *)
Theorem DeleteBuildResources_undoes_CreateBuildPod
    (config : BuildConfig.t) (w w1 : World) (o : Outcome error) :
  let buildID := BuildConfig.BuildID config in
  let ns := namespaceOf w in
  namesFree buildID ns w ->
  (forall k, apiFault w (requestFor Delete buildID ns k) = None) ->
  CreateBuildPod config w = (o, w1) ->
  exists w2,
    DeleteBuildResources buildID ns w1 = (Return None, w2) /\
    cluster w2 = cluster w.
Proof.
  cbv zeta. intros (FP & FC & FS & FV) Hfault Hrun.
  pose proof (CreateBuildPod_ownObjects _ _ _ _ Hrun) as (OP & OC & OS & OV).
  apply CreateBuildPod_sameProcess in Hrun as (_ & _ & _ & _ & Hapi).
  destruct (DeleteBuildResources_effect (BuildConfig.BuildID config)
              (namespaceOf w) w1) as (w2 & Hdel & _ & P & C & S & V).
  exists w2. split; [exact Hdel|].
  rewrite afterDelete_deleteError in P by (rewrite Hapi; apply Hfault).
  rewrite afterDelete_deleteError in C by (rewrite Hapi; apply Hfault).
  rewrite afterDelete_deleteError in S by (rewrite Hapi; apply Hfault).
  rewrite afterDelete_deleteError in V by (rewrite Hapi; apply Hfault).
  rewrite (onlyAt_delete _ _ _ OP FP) in P.
  rewrite (onlyAt_delete _ _ _ OC FC) in C.
  rewrite (onlyAt_delete _ _ _ OS FS) in S.
  rewrite (onlyAt_delete _ _ _ OV FV) in V.
  destruct (cluster w2), (cluster w). cbn in *. congruence.
Qed.

(** ** Builds that fail, and builds started twice *)

Lemma sameProcess_namespaceOf w w' :
  sameProcess w w' -> namespaceOf w' = namespaceOf w.
Proof. intros (E & _). unfold namespaceOf. now rewrite E. Qed.

Lemma sameProcess_kubernetesConfigOf w w' :
  sameProcess w w' -> kubernetesConfigOf w' = kubernetesConfigOf w.
Proof. intros (E & I & _). unfold kubernetesConfigOf. now rewrite E, I. Qed.

Lemma CreateBuildPod_success_client config w w' :
  CreateBuildPod config w = (Return None, w') ->
  exists kubeConfig,
    kubernetesConfigOf w = inl kubeConfig /\ NewForConfig w kubeConfig = None.
Proof.
  rewrite CreateBuildPod_run. cbv zeta.
  destruct (kubernetesConfigOf w) as [kubeConfig|e]; [|discriminate].
  destruct (NewForConfig w kubeConfig) eqn:Hn; [discriminate|]. eauto.
Qed.

(** The claim step: it sends its request, and either the claim is created
    under the name of the build or the error of the cluster is returned. *)
Lemma CreatePersistentVolumeClaimForArtifacts_run buildID ns w :
  let r := requestFor Create buildID ns PersistentVolumeClaims in
  let key := (ns, resourceName PersistentVolumeClaims buildID) in
  match apiFault w r with
  | Some e =>
    CreatePersistentVolumeClaimForArtifacts buildID ns w
    = (Return (EmptyString, Some ("failed to create PVC: " +:+ e)),
       addRequest r w)
  | None =>
    match pvcs (cluster w) !! key with
    | Some _ =>
      CreatePersistentVolumeClaimForArtifacts buildID ns w
      = (Return (EmptyString,
                 Some ("failed to create PVC: "
                       +:+ AlreadyExists PersistentVolumeClaims
                             (resourceName PersistentVolumeClaims buildID))),
         addRequest r w)
    | None =>
      exists w' pvc,
        CreatePersistentVolumeClaimForArtifacts buildID ns w
        = (Return (resourceName PersistentVolumeClaims buildID, None), w') /\
        pvcs (cluster w') !! key = Some pvc /\
        requests w' = requests w ++ [r]
    end
  end.
Proof.
  cbv zeta.
  unfold CreatePersistentVolumeClaimForArtifacts, CreatePersistentVolumeClaim,
    bind, ret.
  rewrite apiCreate_run. cbn [v1.ObjectMeta.Name v1.PersistentVolumeClaim.ObjectMeta].
  change ("build-" +:+ FormatUint buildID +:+ "-artifacts")
    with (resourceName PersistentVolumeClaims buildID).
  fold (requestFor Create buildID ns PersistentVolumeClaims).
  destruct (apiFault w _); [reflexivity|].
  destruct (_ !! _); [reflexivity|].
  do 2 eexists. split; [reflexivity|]. split; [apply lookup_insert_eq|].
  reflexivity.
Qed.

(** After its claim step, [CreateBuildPod] leaves the claims alone. *)
Lemma CreateBuildPod_after_claim config w pvcName w1 o w' :
  CreatePersistentVolumeClaimForArtifacts
    (BuildConfig.BuildID config) (namespaceOf w) w
  = (Return (pvcName, None), w1) ->
  CreateBuildPod config w = (o, w') ->
  (exists kubeConfig,
     kubernetesConfigOf w = inl kubeConfig /\ NewForConfig w kubeConfig = None) ->
  pvcs (cluster w') = pvcs (cluster w1).
Proof.
  intros E1 H (kubeConfig & Hk & Hn). revert H.
  rewrite CreateBuildPod_run. cbv zeta. rewrite Hk, Hn, E1.
  destruct (CreateConfigMapForEnvFiles _ _ _ w1)
    as [[[configMapName err]|msg] w2] eqn:E2;
    apply (CreateConfigMapForEnvFiles_keeps pvcs) in E2; try reflexivity;
    [destruct err|]; try (intros [= <- <-]; exact E2).
  destruct (secretStep config (namespaceOf w) w2)
    as [[[secretName err]|msg] w3] eqn:E3;
    apply (secretStep_keeps pvcs) in E3; try reflexivity;
    [destruct err|]; try (intros [= <- <-]; unfold keeps in *; congruence).
  unfold podStep. destruct (DB w3);
    [|intros [= <- <-]; unfold keeps in *; congruence].
  destruct (CreatePod _ _ w3) as [[[e|]|msg] w4] eqn:E4;
    apply (CreatePod_keeps pvcs) in E4; try reflexivity;
    intros [= <- <-]; unfold keeps in *; congruence.
Qed.

(** Only a build that succeeds changes the pods. *)
Lemma CreateBuildPod_failure_no_pod config w o w' :
  CreateBuildPod config w = (o, w') ->
  o <> Return None -> pods (cluster w') = pods (cluster w).
Proof.
  rewrite CreateBuildPod_run. cbv zeta.
  destruct (kubernetesConfigOf w) as [kubeConfig|e];
    [|intros [= <- <-]; reflexivity].
  destruct (NewForConfig w kubeConfig); [intros [= <- <-]; reflexivity|].
  destruct (CreatePersistentVolumeClaimForArtifacts _ _ w)
    as [[[pvcName err]|msg] w1] eqn:E1;
    apply (CreatePersistentVolumeClaimForArtifacts_keeps pods) in E1;
    try reflexivity;
    [destruct err|]; try (intros [= <- <-] _; exact E1).
  destruct (CreateConfigMapForEnvFiles _ _ _ w1)
    as [[[configMapName err]|msg] w2] eqn:E2;
    apply (CreateConfigMapForEnvFiles_keeps pods) in E2; try reflexivity;
    [destruct err|]; try (intros [= <- <-] _; unfold keeps in *; congruence).
  destruct (secretStep config (namespaceOf w) w2)
    as [[[secretName err]|msg] w3] eqn:E3;
    apply (secretStep_keeps pods) in E3; try reflexivity;
    [destruct err|]; try (intros [= <- <-] _; unfold keeps in *; congruence).
  unfold podStep. destruct (DB w3);
    [|intros [= <- <-] _; unfold keeps in *; congruence].
  unfold CreatePod. rewrite apiCreate_run.
  destruct (apiFault w3 _); [|destruct (_ !! _)]; intros [= <- <-] Ho;
    unfold keeps in *; cbn; congruence.
Qed.

(** X4: A second [CreateBuildPod] for the same build: once a build has been
    started, starting it again from the world it left fails at the first
    step, because the claim exists; the error names the step twice, and the
    only effect is the request that was refused. *)
Theorem CreateBuildPod_twice (config : BuildConfig.t) (w w1 : World) :
  CreateBuildPod config w = (Return None, w1) ->
  let buildID := BuildConfig.BuildID config in
  CreateBuildPod config w1 =
  (Return (Some ("failed to create PVC: failed to create PVC: "
                 +:+ AlreadyExists PersistentVolumeClaims
                       (resourceName PersistentVolumeClaims buildID))),
   addRequest (requestFor Create buildID (namespaceOf w)
                          PersistentVolumeClaims) w1).
Proof.
  intros H. cbv zeta.
  pose proof (CreateBuildPod_success_client _ _ _ H) as Hclient.
  pose proof (CreateBuildPod_sameProcess _ _ _ _ H) as Hsame.
  pose proof H as Hsteps.
  apply CreateBuildPod_success in Hsteps
    as (conn & pvcName & configMapName & secretName & w1' & w2 & w3
        & E1 & _).
  pose proof (CreateBuildPod_after_claim _ _ _ _ _ _ E1 H Hclient) as Hpvcs.
  destruct Hclient as (kubeConfig & Hk & Hn).
  pose proof (CreatePersistentVolumeClaimForArtifacts_run
                (BuildConfig.BuildID config) (namespaceOf w) w) as Hfirst.
  cbv zeta in Hfirst.
  destruct (apiFault w _) eqn:Hfault; [congruence|].
  destruct (pvcs (cluster w) !! _) eqn:Hfree; [congruence|].
  destruct Hfirst as (w1'' & pvc & E1' & Hpvc & _).
  rewrite E1 in E1'. injection E1' as _ <-.
  rewrite CreateBuildPod_run. cbv zeta.
  rewrite (sameProcess_kubernetesConfigOf _ _ Hsame), Hk.
  destruct Hsame as (Henv & _ & Hnew & _ & Hapi). 
  rewrite Hnew, Hn.
  assert (Hns : namespaceOf w1 = namespaceOf w)
    by (unfold namespaceOf; now rewrite Henv).
  rewrite Hns.
  pose proof (CreatePersistentVolumeClaimForArtifacts_run
                (BuildConfig.BuildID config) (namespaceOf w) w1) as Hsecond.
  cbv zeta in Hsecond. rewrite Hapi, Hfault, Hpvcs, Hpvc in Hsecond.
  rewrite Hsecond. reflexivity.
Qed.

(** X5: No rollback: when the client is configured and the claim of the build
    is accepted, a [CreateBuildPod] that then fails, by an error or by a
    panic, leaves the claim in the cluster and creates no pod. *)
Theorem CreateBuildPod_no_rollback
    (config : BuildConfig.t) (w w' : World) (o : Outcome error)
    (kubeConfig : rest.Config) :
  let buildID := BuildConfig.BuildID config in
  let ns := namespaceOf w in
  kubernetesConfigOf w = inl kubeConfig ->
  NewForConfig w kubeConfig = None ->
  apiFault w (requestFor Create buildID ns PersistentVolumeClaims) = None ->
  pvcs (cluster w) !! (ns, resourceName PersistentVolumeClaims buildID) = None ->
  CreateBuildPod config w = (o, w') ->
  o <> Return None ->
  (exists pvc,
     pvcs (cluster w') !! (ns, resourceName PersistentVolumeClaims buildID)
     = Some pvc) /\
  pods (cluster w') = pods (cluster w).
Proof.
  cbv zeta. intros Hk Hn Hfault Hfree H Ho.
  split; [|now apply (CreateBuildPod_failure_no_pod _ _ _ _ H)].
  pose proof (CreatePersistentVolumeClaimForArtifacts_run
                (BuildConfig.BuildID config) (namespaceOf w) w) as Hfirst.
  cbv zeta in Hfirst. rewrite Hfault, Hfree in Hfirst.
  destruct Hfirst as (w1 & pvc & E1 & Hpvc & _).
  exists pvc. rewrite (CreateBuildPod_after_claim _ _ _ _ _ _ E1 H); eauto.
Qed.

(** X6: Without a database ([db.DB] is nil) [CreateBuildPod] never succeeds
    and creates no pod, ConfigMap or Secret; when the client is configured
    and the claim is accepted it creates the claim and then panics, on the
    query for the variables of the project. *)
Theorem CreateBuildPod_without_database
    (config : BuildConfig.t) (w w' : World) (o : Outcome error) :
  let buildID := BuildConfig.BuildID config in
  let ns := namespaceOf w in
  DB w = None ->
  CreateBuildPod config w = (o, w') ->
  o <> Return None /\
  pods (cluster w') = pods (cluster w) /\
  configMaps (cluster w') = configMaps (cluster w) /\
  secrets (cluster w') = secrets (cluster w) /\
  (forall kubeConfig,
     kubernetesConfigOf w = inl kubeConfig ->
     NewForConfig w kubeConfig = None ->
     apiFault w (requestFor Create buildID ns PersistentVolumeClaims) = None ->
     pvcs (cluster w) !! (ns, resourceName PersistentVolumeClaims buildID)
     = None ->
     o = Panic nilDereference /\
     requests w' =
     requests w ++ [requestFor Create buildID ns PersistentVolumeClaims] /\
     exists pvc,
       pvcs (cluster w') !! (ns, resourceName PersistentVolumeClaims buildID)
       = Some pvc).
Proof.
  cbv zeta. intros Hdb H.
  assert (Ho : o <> Return None).
  { intros ->. apply CreateBuildPod_success in H
      as (conn & _ & _ & _ & _ & _ & _ & _ & _ & _ & Hconn & _).
    congruence. }
  split; [exact Ho|].
  split; [now apply (CreateBuildPod_failure_no_pod _ _ _ _ H)|].
  revert H. rewrite CreateBuildPod_run. cbv zeta.
  destruct (kubernetesConfigOf w) as [kubeConfig|e];
    [|intros [= <- <-]; split; [reflexivity|]; split; [reflexivity|];
      discriminate].
  destruct (NewForConfig w kubeConfig) eqn:Hn;
    [intros [= <- <-]; split; [reflexivity|]; split; [reflexivity|];
     intros c [= <-]; congruence|].
  pose proof (CreatePersistentVolumeClaimForArtifacts_run
                (BuildConfig.BuildID config) (namespaceOf w) w) as Hfirst.
  cbv zeta in Hfirst.
  destruct (CreatePersistentVolumeClaimForArtifacts _ _ w)
    as [[[pvcName err]|msg] w1] eqn:E1.
  2:{ exfalso. destruct (apiFault w _); [discriminate|].
      destruct (_ !! _); [discriminate|].
      destruct Hfirst as (? & ? & [=] & _). }
  pose proof (CreatePersistentVolumeClaimForArtifacts_keeps configMaps _ _
                ltac:(reflexivity) _ _ _ E1) as KC.
  pose proof (CreatePersistentVolumeClaimForArtifacts_keeps secrets _ _
                ltac:(reflexivity) _ _ _ E1) as KS.
  pose proof (CreatePersistentVolumeClaimForArtifacts_sameProcess _ _ _ _ _ E1)
    as (_ & _ & _ & Hdb1 & _).
  rewrite Hdb in Hdb1.
  destruct err as [e|].
  { intros [= <- <-]. split; [exact KC|]. split; [exact KS|].
    intros c _ _ Hfault Hfree. rewrite Hfault, Hfree in Hfirst.
    destruct Hfirst as (? & ? & [=] & _). }
  rewrite (CreateConfigMapForEnvFiles_no_DB _ _ _ _ Hdb1).
  assert (E3 : secretStep config (namespaceOf w) w1
               = (Return (EmptyString, None), w1)).
  { unfold secretStep. destruct (String.eqb _ _); [|reflexivity].
    now apply CreateSecretForKeystore_no_DB. }
  rewrite E3. unfold podStep. rewrite Hdb1. intros [= <- <-].
  split; [exact KC|]. split; [exact KS|].
  intros c _ _ Hfault Hfree. rewrite Hfault, Hfree in Hfirst.
  destruct Hfirst as (w1' & pvc & [= _ <-] & Hpvc & Hreq). eauto.
Qed.

(** ** The pod of a build *)







(** ** The client, and the status of the pod *)

Lemma GetPodStatus_run buildID w :
  GetPodStatus buildID w =
  match kubernetesConfigOf w with
  | inr e => (Return (EmptyString, Some e), w)
  | inl kubeConfig =>
    match NewForConfig w kubeConfig with
    | Some e =>
      (Return (EmptyString, Some ("failed to create clientset: " +:+ e)), w)
    | None =>
      let r := requestFor Get buildID (namespaceOf w) Pods in
      (Return
         match apiFault w r with
         | Some e => (EmptyString, Some ("failed to get pod: " +:+ e))
         | None =>
           match pods (cluster w)
                 !! (namespaceOf w, resourceName Pods buildID) with
           | None =>
             (EmptyString,
              Some ("failed to get pod: "
                    +:+ NotFound Pods (resourceName Pods buildID)))
           | Some pod => (v1.Pod.Phase pod, None)
           end
         end,
       addRequest r w)
    end
  end.
Proof.
  unfold GetPodStatus.
  rewrite (bind_run _ _ _ _ _ (getKubernetesConfig_run w)).
  destruct (kubernetesConfigOf w) as [kubeConfig|e]; [|reflexivity].
  unfold bind at 1. unfold ask at 1.
  destruct (NewForConfig w kubeConfig); [reflexivity|].
  rewrite (bind_run _ _ _ _ _ (getNamespace_run w)).
  unfold GetPod, bind, ret. rewrite apiGet_run. cbv zeta.
  unfold requestFor, resourceName.
  destruct (apiFault w _); [reflexivity|].
  destruct (_ !! _); reflexivity.
Qed.

(** X8: Without a client nothing is asked of the cluster: when the process is
    outside a cluster and KUBECTL_API or KUBECTL_TOKEN is not set, or when
    the clientset cannot be made, [CreateBuildPod] and [GetPodStatus] return
    that error and leave the world as it is; and the configuration taken
    from the two variables never verifies the certificate of the server. *)
Theorem no_client_no_request (config : BuildConfig.t) (w : World) :
  (forall e,
     InClusterConfig w = inr e ->
     Getenv w "KUBECTL_API" = EmptyString
     \/ Getenv w "KUBECTL_TOKEN" = EmptyString ->
     let msg := "failed to get in-cluster config and no external config "
                +:+ "provided: " +:+ e in
     CreateBuildPod config w = (Return (Some msg), w) /\
     GetPodStatus (BuildConfig.BuildID config) w
     = (Return (EmptyString, Some msg), w)) /\
  (forall kubeConfig e,
     kubernetesConfigOf w = inl kubeConfig ->
     NewForConfig w kubeConfig = Some e ->
     let msg := "failed to create clientset: " +:+ e in
     CreateBuildPod config w = (Return (Some msg), w) /\
     GetPodStatus (BuildConfig.BuildID config) w
     = (Return (EmptyString, Some msg), w)) /\
  (forall kubeConfig,
     getKubernetesConfig w = (Return (inl kubeConfig), w) ->
     InClusterConfig w = inl kubeConfig \/
     (exists e, InClusterConfig w = inr e) /\
     kubeConfig = rest.mkConfig (Getenv w "KUBECTL_API")
                                (Getenv w "KUBECTL_TOKEN") true /\
     rest.Host kubeConfig <> EmptyString /\
     rest.BearerToken kubeConfig <> EmptyString /\
     rest.Insecure kubeConfig = true).
Proof.
  split; [|split].
  - intros e Hin Hvar. cbv zeta.
    assert (Hk : kubernetesConfigOf w
                 = inr ("failed to get in-cluster config and no external "
                        +:+ "config provided: " +:+ e)).
    { unfold kubernetesConfigOf. rewrite Hin.
      destruct Hvar as [-> | ->]; cbn [String.eqb orb];
        [|rewrite orb_true_r]; reflexivity. }
    rewrite CreateBuildPod_run, GetPodStatus_run. cbv zeta. rewrite Hk.
    split; reflexivity.
  - intros kubeConfig e Hk Hn. cbv zeta.
    rewrite CreateBuildPod_run, GetPodStatus_run. cbv zeta. rewrite Hk, Hn.
    split; reflexivity.
  - intros kubeConfig. rewrite getKubernetesConfig_run.
    unfold kubernetesConfigOf.
    destruct (InClusterConfig w) as [c|e]; [intros [= ->]; now left|].
    destruct (String.eqb_spec (Getenv w "KUBECTL_API") EmptyString);
      [discriminate|].
    destruct (String.eqb_spec (Getenv w "KUBECTL_TOKEN") EmptyString);
      [discriminate|].
    intros [= <-]. right. cbn. eauto 10.
Qed.

(** X9: [GetPodStatus] only reads, and follows what the other calls did: it
    changes neither the cluster nor the output and sends at most the one
    request for the pod of the build; after a successful [CreateBuildPod]
    it returns the phase Pending; after [DeleteBuildResources] it returns
    the error of a pod that is not found (each time unless the cluster
    refuses the request concerned). *)
Theorem GetPodStatus_follows_the_pod (config : BuildConfig.t) (w : World) :
  let buildID := BuildConfig.BuildID config in
  let ns := namespaceOf w in
  (forall o w',
     GetPodStatus buildID w = (o, w') ->
     cluster w' = cluster w /\ stdout w' = stdout w /\
     sends [requestFor Get buildID ns Pods] w w') /\
  (forall w1,
     CreateBuildPod config w = (Return None, w1) ->
     apiFault w (requestFor Get buildID ns Pods) = None ->
     GetPodStatus buildID w1
     = (Return (v1.PodPending, None),
        addRequest (requestFor Get buildID ns Pods) w1)) /\
  (forall kubeConfig w1,
     kubernetesConfigOf w = inl kubeConfig ->
     NewForConfig w kubeConfig = None ->
     DeleteBuildResources buildID ns w = (Return None, w1) ->
     apiFault w (requestFor Delete buildID ns Pods) = None ->
     apiFault w (requestFor Get buildID ns Pods) = None ->
     GetPodStatus buildID w1
     = (Return (EmptyString,
                Some ("failed to get pod: "
                      +:+ NotFound Pods (resourceName Pods buildID))),
        addRequest (requestFor Get buildID ns Pods) w1)).
Proof.
  cbv zeta. split; [|split].
  - intros o w'. rewrite GetPodStatus_run. cbv zeta.
    destruct (kubernetesConfigOf w) as [kubeConfig|e];
      [|intros [= <- <-]; repeat split; apply sends_refl].
    destruct (NewForConfig w kubeConfig);
      [intros [= <- <-]; repeat split; apply sends_refl|].
    intros [= <- <-]. repeat split.
    exists [requestFor Get (BuildConfig.BuildID config) (namespaceOf w) Pods].
    split; [reflexivity | constructor; constructor].
  - intros w1 H Hfault.
    destruct (CreateBuildPod_success_client _ _ _ H) as (kubeConfig & Hk & Hn).
    pose proof (CreateBuildPod_sameProcess _ _ _ _ H) as Hsame.
    destruct (CreateBuildPod_pod _ _ _ H)
      as (conn & pvcName & configMapName & secretName & _ & _ & _ & Hpod).
    rewrite GetPodStatus_run. cbv zeta.
    rewrite (sameProcess_kubernetesConfigOf _ _ Hsame), Hk.
    rewrite (sameProcess_namespaceOf _ _ Hsame).
    destruct Hsame as (_ & _ & -> & _ & ->). rewrite Hn, Hfault, Hpod.
    reflexivity.
  - intros kubeConfig w1 Hk Hn Hdel Hfd Hfg.
    destruct (DeleteBuildResources_effect (BuildConfig.BuildID config)
                (namespaceOf w) w) as (w1' & Hrun & Hsame & P & _).
    rewrite Hdel in Hrun. injection Hrun as <-.
    rewrite afterDelete_deleteError in P by exact Hfd.
    rewrite GetPodStatus_run. cbv zeta.
    rewrite (sameProcess_kubernetesConfigOf _ _ Hsame), Hk.
    rewrite (sameProcess_namespaceOf _ _ Hsame).
    destruct Hsame as (_ & _ & -> & _ & ->). rewrite Hn, Hfg, P.
    now rewrite lookup_delete_eq.
Qed.

(* ===================================================================== *)
(** * The files of a project in the ConfigMap                             *)
(* ===================================================================== *)





Lemma envFilesData_lookup envs :
  forall data0 data,
    envFilesData envs data0 = (data, None) ->
    forall k, data !! k = match contentOf envs k with
                          | Some content => Some content
                          | None => data0 !! k
                          end.
Proof.
  induction envs as [|env envs IH]; intros data0 data H k.
  - injection H as <-. reflexivity.
  - cbn [envFilesData contentOf] in *.
    destruct (envFileEntry env) as [[fileName content] [e|]]; [discriminate|].
    rewrite (IH _ _ H k).
    destruct (contentOf envs k); [reflexivity|].
    destruct (String.eqb_spec fileName k) as [->|Hne].
    + apply lookup_insert_eq.
    + now apply lookup_insert_ne.
Qed.

Lemma envFilesData_succeeds envs :
  forall data0,
    (forall env, In env envs -> snd (envFileEntry env) = None) ->
    exists data, envFilesData envs data0 = (data, None).
Proof.
  induction envs as [|env envs IH]; intros data0 Hall; [now eexists|].
  cbn [envFilesData].
  pose proof (Hall env (or_introl eq_refl)) as Henv.
  destruct (envFileEntry env) as [[fileName content] err]. cbn in Henv.
  subst err. apply IH. intros env' Hin. apply Hall. now right.
Qed.

Lemma envFilesData_first_error envs :
  forall data0 data e,
    envFilesData envs data0 = (data, Some e) ->
    exists before env after,
      envs = before ++ env :: after /\
      (forall env', In env' before -> snd (envFileEntry env') = None) /\
      snd (envFileEntry env) = Some e.
Proof.
  induction envs as [|env envs IH]; intros data0 data e H; [discriminate|].
  cbn [envFilesData] in H.
  destruct (envFileEntry env) as [[fileName content] [e'|]] eqn:E.
  - injection H as _ <-. exists [], env, envs.
    split; [reflexivity|]. split; [intros ? []|]. now rewrite E.
  - destruct (IH _ _ _ H) as (before & env' & after & -> & Hb & He).
    exists (env :: before), env', after. split; [reflexivity|].
    split; [|exact He]. intros x [<-|Hin]; [now rewrite E | now apply Hb].
Qed.

Lemma contentOf_fileName envs k content :
  contentOf envs k = Some content -> In k (List.map fileNameOf envs).
Proof.
  revert content. induction envs as [|env envs IH]; intros content;
    [discriminate|].
  cbn [contentOf List.map].
  destruct (contentOf envs k) as [c0|]; [intros _; right; now apply (IH c0)|].
  destruct (envFileEntry env) as [[fileName c] [e|]] eqn:E; [discriminate|].
  destruct (String.eqb_spec fileName k) as [<-|]; [|discriminate].
  intros _. left. symmetry. now apply envFileEntry_fileName in E.
Qed.

Lemma contentOf_unique envs :
  List.NoDup (List.map fileNameOf envs) ->
  forall env content,
    In env envs ->
    envFileEntry env = ((fileNameOf env, content), None) ->
    contentOf envs (fileNameOf env) = Some content.
Proof.
  induction envs as [|env0 envs IH]; intros Hnd env content Hin E; [easy|].
  cbn [List.map] in Hnd. inversion Hnd as [|? ? Hfresh Hnd']; subst.
  cbn [contentOf]. destruct Hin as [->|Hin].
  - destruct (contentOf envs (fileNameOf env)) as [c|] eqn:Hc.
    + exfalso. apply Hfresh. eapply contentOf_fileName, Hc.
    + rewrite E, String.eqb_refl. reflexivity.
  - now rewrite (IH Hnd' env content Hin E).
Qed.

Lemma envFilesData_all_ok envs :
  forall data0 data,
    envFilesData envs data0 = (data, None) ->
    forall env, In env envs ->
                exists content,
                  envFileEntry env = ((fileNameOf env, content), None).
Proof.
  induction envs as [|env0 envs IH]; intros data0 data H env Hin; [easy|].
  cbn [envFilesData] in H.
  destruct (envFileEntry env0) as [[fileName content] [e|]] eqn:E;
    [discriminate|].
  destruct Hin as [<-|Hin]; [|eapply IH; eassumption].
  exists content. now rewrite (envFileEntry_fileName _ _ _ E) in E.
Qed.

Lemma FindEnvs_rows conn projectID type envs :
  db.FindEnvs conn projectID type = (envs, None) ->
  forall env, In env envs ->
              In env (db.envs conn) /\
              db.Env.ProjectID env = projectID /\
              db.Env.Type_ env = type /\
              db.Model.DeletedAt (db.Env.Model env) = None.
Proof.
  unfold db.FindEnvs. destruct (db.fault conn _); [discriminate|].
  intros [= <-] env Hin. apply filter_In in Hin as [Hin Hf].
  apply andb_prop in Hf as [Hf Ht]. apply andb_prop in Hf as [Hl Hp].
  split; [exact Hin|]. split; [now apply N.eqb_eq|].
  split; [now apply String.eqb_eq|].
  unfold db.live in Hl. now destruct (db.Model.DeletedAt _).
Qed.

(** X11: The ConfigMap of a build holds the files of its project, and of no
    other: when [CreateConfigMapForEnvFiles] creates a ConfigMap, its data
    are those of the entries the query returned, all of them decoded, which
    are rows of this project of type file that are not deleted; under each
    key is the content of the last entry stored under it; and when no two
    entries have the same key, every entry has its content in the
    ConfigMap. *)
Theorem ConfigMap_holds_the_files
    (buildID projectID : N) (ns : string) (w w' : World) (n : string) :
  CreateConfigMapForEnvFiles buildID projectID ns w = (Return (n, None), w') ->
  n <> EmptyString ->
  exists conn envs configMap,
    DB w = Some conn /\
    db.FindEnvs conn projectID "file" = (envs, None) /\
    configMaps (cluster w') !! (ns, n) = Some configMap /\
    (forall env, In env envs ->
                 In env (db.envs conn) /\
                 db.Env.ProjectID env = projectID /\
                 db.Env.Type_ env = "file" /\
                 db.Model.DeletedAt (db.Env.Model env) = None) /\
    (forall k, v1.ConfigMap.Data configMap !! k = contentOf envs k) /\
    (forall k, is_Some (v1.ConfigMap.Data configMap !! k) ->
               In k (List.map fileNameOf envs)) /\
    (List.NoDup (List.map fileNameOf envs) ->
     forall env, In env envs ->
                 exists content,
                   envFileEntry env = ((fileNameOf env, content), None) /\
                   v1.ConfigMap.Data configMap !! fileNameOf env
                   = Some content).
Proof.
  unfold CreateConfigMapForEnvFiles, CreateConfigMap, bind, ask, ret.
  destruct (DB w) as [conn|]; [|intros [= <- <-]; contradiction].
  destruct (db.FindEnvs conn projectID "file") as [envs [e|]] eqn:Hq;
    [discriminate|].
  destruct (_ =? _)%nat; [intros [= <- <-]; contradiction|].
  destruct (envFilesData envs ∅) as [data [e|]] eqn:Hd; [discriminate|].
  match goal with
  | |- context [apiCreate ?k ?ob ?s ?n ?name ?obj w] =>
    destruct (apiCreate k ob s n name obj w) as [[[e|]|msg] w1] eqn:E;
      try discriminate
  end.
  apply apiCreate_ok in E as (_ & _ & ->). intros [= <- <-] _.
  exists conn, envs. eexists. split; [reflexivity|]. split; [exact Hq|].
  split; [cbn; apply lookup_insert_eq|].
  split; [now apply FindEnvs_rows|].
  cbn [v1.ConfigMap.Data].
  assert (Hlookup : forall k, data !! k = contentOf envs k).
  { intros k. rewrite (envFilesData_lookup _ _ _ Hd k).
    destruct (contentOf envs k); [reflexivity | apply lookup_empty]. }
  split; [exact Hlookup|]. split.
  - intros k [content Hk]. rewrite Hlookup in Hk.
    eapply contentOf_fileName, Hk.
  - intros Hnd env Hin.
    destruct (envFilesData_all_ok _ _ _ Hd env Hin) as [content Hc].
    exists content. split; [exact Hc|]. rewrite Hlookup.
    now apply contentOf_unique.
Qed.

(* ===================================================================== *)
(** * [replaceAll] and the encoded path                                   *)
(* ===================================================================== *)

Lemma validFrom_skip pre rest :
  validFrom (String.length pre) (pre +:+ rest) = ValidString rest.
Proof.
  induction pre as [|c pre IH]; [reflexivity|].
  rewrite append_cons. cbn [String.length validFrom]. exact IH.
Qed.

Lemma ValidString_runeString r rest :
  validRune r -> ValidString (runeString r +:+ rest) = ValidString rest.
Proof.
  intros Hv. pose proof (DecodeRuneInString_runeString r rest Hv) as D.
  destruct (runeString_nonempty r Hv) as (c & t & E).
  assert (Hw : (r =? RuneError) && (String.length (runeString r) =? 1)%nat
               = false).
  { destruct (Z.eqb_spec r RuneError) as [->|]; [reflexivity|reflexivity]. }
  rewrite E in *. rewrite append_cons in *. unfold ValidString at 1.
  cbn [validFrom]. rewrite D, Hw. cbn [String.length Nat.pred].
  apply validFrom_skip.
Qed.

Lemma ValidString_encodeRunes rs :
  Forall validRune rs -> ValidString (encodeRunes rs) = true.
Proof.
  induction 1 as [|r rs Hr _ IH]; [reflexivity|].
  now rewrite encodeRunes_cons, ValidString_runeString.
Qed.

Lemma ValidString_append a b :
  ValidString a = true -> ValidString b = true -> ValidString (a +:+ b) = true.
Proof.
  intros Ha Hb.
  rewrite <- (encodeRunes_runes a Ha), <- (encodeRunes_runes b Hb).
  rewrite <- encodeRunes_app. apply ValidString_encodeRunes.
  apply Forall_app. split; apply runes_valid.
Qed.

Lemma ValidString_joinMap old new rs :
  Forall validRune rs -> ValidString new = true ->
  ValidString (joinMap (substRune old new) rs) = true.
Proof.
  intros Hrs Hnew. induction Hrs as [|r rs Hr _ IH]; [reflexivity|].
  rewrite joinMap_cons. apply ValidString_append; [|exact IH].
  unfold substRune. destruct (String.eqb _ _); [exact Hnew|].
  rewrite <- (append_empty_r (runeString r)).
  now rewrite ValidString_runeString.
Qed.

Lemma joinMap_unchanged old new rs :
  (forall r, In r rs -> runeString r <> old) ->
  joinMap (substRune old new) rs = encodeRunes rs.
Proof.
  induction rs as [|r rs IH]; intros H; [reflexivity|].
  rewrite joinMap_cons, encodeRunes_cons, IH
    by (intros r' Hr'; apply H; now right).
  unfold substRune.
  destruct (String.eqb_spec (runeString r) old) as [E|]; [|reflexivity].
  now destruct (H r (or_introl eq_refl)).
Qed.

(** X12: [replaceAll] is not the replacement of a substring.  Its result is
    valid UTF-8 whenever [new] is, whatever the bytes of [s]; and on a
    string that is valid UTF-8 a pattern [old] is replaced only where it is
    one whole character of [s]: an empty pattern, and a pattern of an ASCII
    character followed by more, are never replaced. *)
Theorem replaceAll_replaces_single_characters (s old new : string) :
  (ValidString new = true -> ValidString (replaceAll s old new) = true) /\
  (ValidString s = true ->
   (forall r, In r (runes s) -> runeString r <> old) ->
   replaceAll s old new = s) /\
  (ValidString s = true -> old = EmptyString -> replaceAll s old new = s) /\
  (ValidString s = true ->
   forall c rest,
     old = String c rest -> byteZ c < 128 -> rest <> EmptyString ->
     replaceAll s old new = s).
Proof.
  assert (Hsame : ValidString s = true ->
                  (forall r, In r (runes s) -> runeString r <> old) ->
                  replaceAll s old new = s).
  { intros Hs Hold. rewrite replaceAll_runes, joinMap_unchanged by exact Hold.
    now apply encodeRunes_runes. }
  split; [|split; [exact Hsame|split]].
  - intros Hnew. rewrite replaceAll_runes.
    apply ValidString_joinMap; [apply runes_valid | exact Hnew].
  - intros Hs ->. apply Hsame; [exact Hs|]. intros r Hr E.
    pose proof (proj1 (List.Forall_forall _ _) (runes_valid s)) as Hv.
    destruct (runeString_nonempty r (Hv r Hr)) as (c & t & Hc). congruence.
  - intros Hs c rest -> Hc Hrest. apply Hsame; [exact Hs|]. intros r Hr E.
    pose proof (proj1 (List.Forall_forall _ _) (runes_valid s)) as Hv.
    destruct (runeString_byte r c (Hv r Hr) Hc) as [[_ E']|[_ E']].
    + rewrite E' in E. injection E as <-. contradiction.
    + rewrite E in E'. cbn [hasByte] in E'.
      now rewrite Ascii.eqb_refl in E'.
Qed.

Lemma hasByte_append x a b :
  hasByte x (a +:+ b) = hasByte x a || hasByte x b.
Proof.
  induction a as [|c a IH]; [reflexivity|].
  rewrite append_cons. cbn [hasByte]. now rewrite IH, orb_assoc.
Qed.

Lemma hasByte_encodeRunes x rs :
  byteZ x < 128 -> Forall validRune rs -> ~ In (byteZ x) rs ->
  hasByte x (encodeRunes rs) = false.
Proof.
  intros Hx Hv. induction Hv as [|r rs Hr _ IH]; intros Hin; [reflexivity|].
  rewrite encodeRunes_cons, hasByte_append, IH
    by (intros H; apply Hin; now right).
  destruct (runeString_byte r x Hr Hx) as [[-> _]|[_ ->]]; [|reflexivity].
  destruct Hin. now left.
Qed.

(** X13: The path part of a key of the ConfigMap is clean, whatever the path
    of the entry: it contains no "/" and is valid UTF-8; when the path of
    the entry is valid UTF-8 it is the path with "__" for every "/" and
    nothing else changed, so a path without "/" is kept as it is. *)
Theorem encodePath_is_clean (path : string) :
  hasByte "/" (encodePath path) = false /\
  ValidString (encodePath path) = true /\
  (ValidString path = true -> encodePath path = slashToUnderscores path) /\
  (ValidString path = true -> hasByte "/" path = false ->
   encodePath path = path).
Proof.
  split; [|split; [|split]].
  - rewrite encodePath_runes. apply hasByte_encodeRunes.
    + reflexivity.
    + apply underscored_valid, runes_valid.
    + apply underscored_no_slash.
  - rewrite encodePath_runes.
    apply ValidString_encodeRunes, underscored_valid, runes_valid.
  - apply encodePath_valid.
  - intros Hv Hs. rewrite encodePath_valid by exact Hv.
    rewrite <- (append_empty_r path) at 1.
    rewrite slashToUnderscores_chunk by exact Hs. cbn.
    apply append_empty_r.
Qed.

(* ===================================================================== *)
(** * What a build takes from the database                                *)
(* ===================================================================== *)

Lemma leastID_least rows k :
  db.leastID rows = Some k ->
  In k rows /\
  forall k', In k' rows ->
             (db.Model.ID (db.Keystore.Model k)
              <= db.Model.ID (db.Keystore.Model k'))%N.
Proof.
  revert k. induction rows as [|k0 rows IH]; intros k; [discriminate|].
  cbn [db.leastID].
  destruct (db.leastID rows) as [k1|] eqn:E.
  - destruct (IH k1 eq_refl) as [Hin Hle].
    destruct (N.ltb_spec (db.Model.ID (db.Keystore.Model k1))
                         (db.Model.ID (db.Keystore.Model k0))) as [Hlt|Hge];
      intros [= <-].
    + split; [now right|]. intros k' [<-|Hk']; [lia | now apply Hle].
    + split; [now left|]. intros k' [<-|Hk']; [lia|].
      specialize (Hle k' Hk'). lia.
  - intros [= <-]. split; [now left|].
    intros k' [<-|Hk']; [lia|]. destruct rows as [|k1 rows]; [destruct Hk'|].
    cbn [db.leastID] in E.
    destruct (db.leastID rows); [destruct (_ <? _)%N|]; discriminate.
Qed.

Lemma FirstActiveKeystore_row conn projectID keystore :
  db.FirstActiveKeystore conn projectID = inl keystore ->
  In keystore (db.keystores conn) /\
  db.Keystore.ProjectID keystore = projectID /\
  db.Keystore.IsActive keystore = true /\
  db.Model.DeletedAt (db.Keystore.Model keystore) = None /\
  forall k', In k' (db.keystores conn) ->
             db.Keystore.ProjectID k' = projectID ->
             db.Keystore.IsActive k' = true ->
             db.Model.DeletedAt (db.Keystore.Model k') = None ->
             (db.Model.ID (db.Keystore.Model keystore)
              <= db.Model.ID (db.Keystore.Model k'))%N.
Proof.
  unfold db.FirstActiveKeystore. destruct (db.fault conn _); [discriminate|].
  destruct (db.leastID _) as [k|] eqn:E; [|discriminate]. intros [= <-].
  apply leastID_least in E as [Hin Hle].
  apply filter_In in Hin as [Hin Hf].
  apply andb_prop in Hf as [Hf Ha]. apply andb_prop in Hf as [Hl Hp].
  split; [exact Hin|]. split; [now apply N.eqb_eq|]. split; [exact Ha|].
  split; [unfold db.live in Hl; now destruct (db.Model.DeletedAt _)|].
  intros k' Hin' Hp' Ha' Hd'. apply Hle. apply filter_In. split; [exact Hin'|].
  unfold db.live. rewrite Hd', Ha'. cbn. rewrite andb_true_r.
  now apply N.eqb_eq.
Qed.

(** X14: The Secret of a build holds a keystore of its project: when
    [CreateSecretForKeystore] creates a Secret, its content comes from a row
    of the keystores that belongs to this project, is active and is not
    deleted, and among these from the one of least id; the keystore file is
    stored decoded, the two passwords and the alias as they are. *)
Theorem Secret_holds_the_keystore_of_the_project
    (buildID projectID : N) (ns : string) (w w' : World) (n : string) :
  CreateSecretForKeystore buildID projectID ns w = (Return (n, None), w') ->
  n <> EmptyString ->
  exists conn keystore keystoreData secret,
    DB w = Some conn /\
    In keystore (db.keystores conn) /\
    db.Keystore.ProjectID keystore = projectID /\
    db.Keystore.IsActive keystore = true /\
    db.Model.DeletedAt (db.Keystore.Model keystore) = None /\
    (forall k', In k' (db.keystores conn) ->
                db.Keystore.ProjectID k' = projectID ->
                db.Keystore.IsActive k' = true ->
                db.Model.DeletedAt (db.Keystore.Model k') = None ->
                (db.Model.ID (db.Keystore.Model keystore)
                 <= db.Model.ID (db.Keystore.Model k'))%N) /\
    DecodeString (db.Keystore.KeystoreFile keystore) = (keystoreData, None) /\
    secrets (cluster w') !! (ns, n) = Some secret /\
    v1.Secret.Data secret = {[ "keystore.jks" := keystoreData ]} /\
    v1.Secret.StringData secret =
    {[ "store-password" := db.Keystore.StorePassword keystore;
       "key-alias" := db.Keystore.KeyAlias keystore;
       "key-password" := db.Keystore.KeyPassword keystore ]}.
Proof.
  unfold CreateSecretForKeystore, CreateSecret, bind, ask, ret.
  destruct (DB w) as [conn|]; [|intros [= <- <-]; contradiction].
  destruct (db.FirstActiveKeystore conn projectID) as [keystore|e] eqn:Hq;
    [|intros [= <- <-]; contradiction].
  destruct (DecodeString _) as [keystoreData [e|]] eqn:Hd; [discriminate|].
  match goal with
  | |- context [apiCreate ?k ?ob ?s ?n ?name ?obj w] =>
    destruct (apiCreate k ob s n name obj w) as [[[e|]|msg] w1] eqn:E;
      try discriminate
  end.
  apply apiCreate_ok in E as (_ & _ & ->). intros [= <- <-] _.
  destruct (FirstActiveKeystore_row _ _ _ Hq) as (Hin & Hp & Ha & Hl & Hle).
  exists conn, keystore, keystoreData. eexists.
  split; [reflexivity|]. do 5 (split; [assumption|]).
  split; [exact Hd|]. split; [cbn; apply lookup_insert_eq|].
  split; reflexivity.
Qed.

Lemma dbVariables_rows conn projectID x :
  In x (dbVariables conn projectID) ->
  exists env,
    In env (db.envs conn) /\
    db.Env.ProjectID env = projectID /\
    db.Env.Type_ env = "env" /\
    db.Model.DeletedAt (db.Env.Model env) = None /\
    x = plainVar (db.Env.Key env) (db.Env.Value env).
Proof.
  unfold dbVariables.
  destruct (db.FindEnvs conn projectID "env") as [envs [e|]] eqn:Hq;
    [intros []|].
  intros Hin. apply in_map_iff in Hin as (env & <- & Hin).
  destruct (FindEnvs_rows _ _ _ _ Hq env Hin) as (H1 & H2 & H3 & H4).
  exists env. auto.
Qed.

(** X15: The variables of the pod of a build: each is one of the composed
    variables, or comes from a row of the entries of this project of type
    env that is not deleted, or is one of the four keystore variables; and
    when the query for these entries fails the build goes on, without an
    error and without any variable of the project. *)
Theorem pod_variables_come_from_the_project
    (config : BuildConfig.t) (w w' : World) :
  CreateBuildPod config w = (Return None, w') ->
  let projectID := db.Project.ID (BuildConfig.Project config) in
  exists conn pod container,
    DB w = Some conn /\
    pods (cluster w') !! (namespaceOf w,
                          resourceName Pods (BuildConfig.BuildID config))
    = Some pod /\
    v1.PodSpec.Containers (v1.Pod.Spec pod) = [container] /\
    (forall x,
       In x (v1.Container.Env container) ->
       In x (buildEnvironmentVariables config) \/
       (exists env,
          In env (db.envs conn) /\
          db.Env.ProjectID env = projectID /\
          db.Env.Type_ env = "env" /\
          db.Model.DeletedAt (db.Env.Model env) = None /\
          x = plainVar (db.Env.Key env) (db.Env.Value env)) \/
       In x (keystoreVariables
               (resourceName Secrets (BuildConfig.BuildID config)))) /\
    (forall e,
       db.fault conn (db.EnvsOfType projectID "env") = Some e ->
       forall x, In x (v1.Container.Env container) ->
                 In x (buildEnvironmentVariables config) \/
                 In x (keystoreVariables
                         (resourceName Secrets (BuildConfig.BuildID config)))).
Proof.
  intros H. cbv zeta.
  destruct (CreateBuildPod_pod _ _ _ H)
    as (conn & pvcName & configMapName & secretName & Hdb & Hsec & _ & Hpod).
  exists conn. do 2 eexists. split; [exact Hdb|]. split; [exact Hpod|].
  cbn [pending podFor v1.Pod.Spec v1.PodSpec.Containers v1.Container.Env].
  split; [reflexivity|].
  assert (Hk : forall x,
             In x (whenNamed secretName (keystoreVariables secretName)) ->
             In x (keystoreVariables
                     (resourceName Secrets (BuildConfig.BuildID config)))).
  { destruct Hsec as [-> | ->]; [now rewrite whenNamed_empty|].
    now rewrite whenNamed_resourceName. }
  split.
  - intros x Hx. apply in_app_or in Hx as [Hx|Hx]; [now left|].
    apply in_app_or in Hx as [Hx|Hx]; [|right; right; now apply Hk].
    right. left. now apply dbVariables_rows.
  - intros e Hfault x Hx. apply in_app_or in Hx as [Hx|Hx]; [now left|].
    apply in_app_or in Hx as [Hx|Hx]; [|right; now apply Hk].
    unfold dbVariables, db.FindEnvs in Hx. rewrite Hfault in Hx.
    destruct Hx.
Qed.

(* ===================================================================== *)
(** * The logs of a pod                                                   *)
(* ===================================================================== *)

Lemma readLogs_app logStream :
  forall logs, readLogs logStream logs = logs ++ readLogs logStream [].
Proof.
  induction logStream as [|[chunk err] rest IH]; intros logs;
    cbn [readLogs]; [now rewrite app_nil_r|].
  destruct (0 <? String.length chunk)%nat, err as [e|]; cbn [app];
    rewrite ?app_nil_r; try reflexivity.
  - rewrite IH, (IH [chunk]). now rewrite app_assoc.
  - apply IH.
Qed.

Lemma readLogs_cons chunk err rest :
  readLogs ((chunk, err) :: rest) [] =
  (if (0 <? String.length chunk)%nat then [chunk] else [])
  ++ match err with Some _ => [] | None => readLogs rest [] end.
Proof.
  cbn [readLogs].
  destruct (0 <? String.length chunk)%nat, err as [e|]; cbn [app];
    try reflexivity.
  now rewrite readLogs_app.
Qed.

Lemma bytesOf_app a b : bytesOf (a ++ b) = bytesOf a +:+ bytesOf b.
Proof.
  unfold bytesOf. induction a as [|x a IH]; [reflexivity|].
  cbn [app]. rewrite !joinMap_cons, IH. unfold id. now rewrite append_assoc.
Qed.

Lemma readLogs_bytes logStream :
  bytesOf (readLogs logStream [])
  = bytesOf (List.map fst (untilError logStream)).
Proof.
  induction logStream as [|[chunk err] rest IH]; [reflexivity|].
  rewrite readLogs_cons, bytesOf_app.
  assert (Hchunk : bytesOf (if (0 <? String.length chunk)%nat
                            then [chunk] else []) = chunk).
  { destruct chunk; [reflexivity|]. cbn. unfold id. apply append_empty_r. }
  rewrite Hchunk. destruct err as [e|]; cbn [untilError List.map fst].
  - unfold bytesOf. rewrite joinMap_cons. reflexivity.
  - rewrite IH. unfold bytesOf. rewrite joinMap_cons. reflexivity.
Qed.

Lemma readLogs_nonempty logStream :
  Forall (fun chunk => chunk <> EmptyString) (readLogs logStream []).
Proof.
  induction logStream as [|[chunk err] rest IH]; [constructor|].
  rewrite readLogs_cons. apply Forall_app. split.
  - destruct chunk; cbn; repeat constructor. discriminate.
  - destruct err; [constructor | exact IH].
Qed.

Lemma readLogs_untilError logStream :
  readLogs logStream []
  = readLogs (List.map (fun r => (fst r, None)) (untilError logStream)) [].
Proof.
  induction logStream as [|[chunk err] rest IH]; [reflexivity|].
  destruct err as [e|]; cbn [untilError List.map fst];
    rewrite !readLogs_cons; [reflexivity|]. now rewrite IH.
Qed.

Section LogTheorems.
Variable Stream :
  World -> string -> string -> v1.PodLogOptions.t
  -> list (string * error) + string.

Lemma GetPodLogs_run buildID w :
  GetPodLogs Stream buildID w =
  (Return
     match kubernetesConfigOf w with
     | inr e => ([], Some e)
     | inl kubeConfig =>
       match NewForConfig w kubeConfig with
       | Some e => ([], Some ("failed to create clientset: " +:+ e))
       | None =>
         match Stream w (namespaceOf w) (resourceName Pods buildID)
                      (v1.PodLogOptions.mk EmptyString false) with
         | inr e => ([], Some ("failed to get log stream: " +:+ e))
         | inl logStream => (readLogs logStream [], None)
         end
       end
     end, w).
Proof.
  unfold GetPodLogs.
  rewrite (bind_run _ _ _ _ _ (getKubernetesConfig_run w)).
  destruct (kubernetesConfigOf w) as [kubeConfig|e]; [|reflexivity].
  unfold bind at 1. unfold ask at 1.
  destruct (NewForConfig w kubeConfig); [reflexivity|].
  rewrite (bind_run _ _ _ _ _ (getNamespace_run w)).
  unfold bind, ask, ret, resourceName.
  destruct (Stream w _ _ _); reflexivity.
Qed.

(** X16: [GetPodLogs] returns what was read and hides how the reading ended:
    with a client, if the stream cannot be opened the error is returned
    with no logs; if it is opened no error is ever returned, the chunks
    returned are not empty and their bytes are those read up to the first
    failing read, in order; the result is the same as for a stream that
    ends there without an error, so a log cut by a failure cannot be told
    from a complete one. *)
Theorem GetPodLogs_hides_read_errors
    (buildID : N) (w : World) (kubeConfig : rest.Config) :
  kubernetesConfigOf w = inl kubeConfig ->
  NewForConfig w kubeConfig = None ->
  let opened := Stream w (namespaceOf w) (resourceName Pods buildID)
                       (v1.PodLogOptions.mk EmptyString false) in
  (forall e,
     opened = inr e ->
     GetPodLogs Stream buildID w
     = (Return ([], Some ("failed to get log stream: " +:+ e)), w)) /\
  (forall logStream,
     opened = inl logStream ->
     exists logs,
       GetPodLogs Stream buildID w = (Return (logs, None), w) /\
       Forall (fun chunk => chunk <> EmptyString) logs /\
       bytesOf logs = bytesOf (List.map fst (untilError logStream)) /\
       logs = readLogs (List.map (fun r => (fst r, None))
                                 (untilError logStream)) []).
Proof.
  intros Hk Hn. cbv zeta. split.
  - intros e He. now rewrite GetPodLogs_run, Hk, Hn, He.
  - intros logStream Hs. exists (readLogs logStream []).
    split; [now rewrite GetPodLogs_run, Hk, Hn, Hs|].
    split; [apply readLogs_nonempty|].
    split; [apply readLogs_bytes | apply readLogs_untilError].
Qed.

Lemma streamLogs_open logStream :
  forall logChan,
    Chan.closed logChan = false ->
    streamLogs logStream logChan
    = Return (Chan.mk (Chan.sent logChan ++ readLogs logStream []) true).
Proof.
  induction logStream as [|[chunk err] rest IH]; intros [sent closed] Hopen;
    cbn in Hopen; subst closed.
  - cbn. now rewrite app_nil_r.
  - cbn [streamLogs]. rewrite readLogs_cons.
    destruct (0 <? String.length chunk)%nat; cbn [send Chan.closed Chan.sent].
    + destruct err as [e|].
      * cbn. reflexivity.
      * rewrite IH by reflexivity. cbn. now rewrite <- app_assoc.
    + destruct err as [e|].
      * cbn. now rewrite app_nil_r.
      * rewrite IH by reflexivity. reflexivity.
Qed.

Lemma streamLogs_closed logStream logChan :
  Chan.closed logChan = true ->
  exists msg, streamLogs logStream logChan = Panic msg.
Proof.
  revert logChan.
  induction logStream as [|[chunk err] rest IH]; intros logChan Hclosed.
  - cbn. unfold close. rewrite Hclosed. eauto.
  - cbn [streamLogs]. destruct (0 <? String.length chunk)%nat.
    + unfold send. rewrite Hclosed. eauto.
    + destruct err as [e|]; [|now apply IH].
      unfold close. rewrite Hclosed. eauto.
Qed.

Lemma StreamPodLogs_run buildID logChan w :
  StreamPodLogs Stream buildID logChan w =
  (match kubernetesConfigOf w with
   | inr e => Return (logChan, Some e)
   | inl kubeConfig =>
     match NewForConfig w kubeConfig with
     | Some e => Return (logChan, Some ("failed to create clientset: " +:+ e))
     | None =>
       match Stream w (namespaceOf w) (resourceName Pods buildID)
                    (v1.PodLogOptions.mk EmptyString true) with
       | inr e => Return (logChan, Some ("failed to get log stream: " +:+ e))
       | inl logStream =>
         match streamLogs logStream logChan with
         | Panic msg => Panic msg
         | Return logChan => Return (logChan, None)
         end
       end
     end
   end, w).
Proof.
  unfold StreamPodLogs.
  rewrite (bind_run _ _ _ _ _ (getKubernetesConfig_run w)).
  destruct (kubernetesConfigOf w) as [kubeConfig|e]; [|reflexivity].
  unfold bind at 1. unfold ask at 1.
  destruct (NewForConfig w kubeConfig); [reflexivity|].
  rewrite (bind_run _ _ _ _ _ (getNamespace_run w)).
  unfold bind, ask, ret, panic, resourceName.
  destruct (Stream w _ _ _); [|reflexivity].
  destruct (streamLogs _ _); reflexivity.
Qed.

(** X17: [StreamPodLogs] closes the channel exactly when it returns no error:
    it never changes the world; when it returns an error the channel is as
    it was, so not closed by the call; when it returns no error the channel
    was open, is now closed, and has received, after what it had, the
    chunks [GetPodLogs] would return for the same stream; and it panics
    only on a channel that was closed already. *)
Theorem StreamPodLogs_closes_on_success_only
    (buildID : N) (logChan : Chan.t) (w w' : World)
    (o : Outcome (Chan.t * error)) :
  StreamPodLogs Stream buildID logChan w = (o, w') ->
  w' = w /\
  (forall ch e, o = Return (ch, Some e) -> ch = logChan) /\
  (forall ch,
     o = Return (ch, None) ->
     Chan.closed logChan = false /\ Chan.closed ch = true /\
     exists logStream,
       Stream w (namespaceOf w) (resourceName Pods buildID)
              (v1.PodLogOptions.mk EmptyString true) = inl logStream /\
       Chan.sent ch = Chan.sent logChan ++ readLogs logStream []) /\
  (forall msg, o = Panic msg -> Chan.closed logChan = true).
Proof.
  rewrite StreamPodLogs_run.
  destruct (kubernetesConfigOf w) as [kubeConfig|e0];
    [|intros [= <- <-]; split; [reflexivity|];
      split; [intros ch e [= <- _]; reflexivity|]; split; discriminate].
  destruct (NewForConfig w kubeConfig);
    [intros [= <- <-]; split; [reflexivity|];
     split; [intros ch e [= <- _]; reflexivity|]; split; discriminate|].
  destruct (Stream w _ _ _) as [logStream|e0] eqn:Hs;
    [|intros [= <- <-]; split; [reflexivity|];
      split; [intros ch e [= <- _]; reflexivity|]; split; discriminate].
  destruct (Chan.closed logChan) eqn:Hc.
  - destruct (streamLogs_closed logStream logChan Hc) as [msg ->].
    intros [= <- <-]. split; [reflexivity|].
    split; [discriminate|]. split; [discriminate | reflexivity].
  - rewrite (streamLogs_open logStream logChan Hc).
    intros [= <- <-]. split; [reflexivity|].
    split; [discriminate|]. split; [|discriminate].
    intros ch [= <-]. split; [reflexivity|]. split; [reflexivity|].
    exists logStream. split; reflexivity.
Qed.

End LogTheorems.

(* ===================================================================== *)
(** * More on the edges                                                   *)
(* ===================================================================== *)

Lemma afterDelete_twice {A} (k : Kind)
    (objects : Cluster -> gmap (string * string) A) ns name w w' :
  apiFault w' = apiFault w ->
  objects (cluster w')
  = afterDelete (deleteError k objects ns name w) (ns, name)
                (objects (cluster w)) ->
  afterDelete (deleteError k objects ns name w') (ns, name)
              (objects (cluster w'))
  = objects (cluster w').
Proof.
  intros Hapi Hm. unfold deleteError in *. rewrite Hapi.
  destruct (apiFault w _); [reflexivity|].
  destruct (objects (cluster w) !! (ns, name)) eqn:E; cbn in Hm.
  - rewrite Hm, lookup_delete_eq. reflexivity.
  - rewrite Hm, E. reflexivity.
Qed.

(** X18: Deleting twice is deleting once: a second [DeleteBuildResources] for
    the same build, from the world the first one left, leaves the cluster as
    the first one left it, whatever the cluster answered. *)
Theorem DeleteBuildResources_idempotent
    (buildID : N) (ns : string) (w w1 w2 : World) :
  DeleteBuildResources buildID ns w = (Return None, w1) ->
  DeleteBuildResources buildID ns w1 = (Return None, w2) ->
  cluster w2 = cluster w1.
Proof.
  intros H1 H2.
  destruct (DeleteBuildResources_effect buildID ns w)
    as (w1' & E1 & S1 & P1 & C1 & X1 & V1).
  rewrite H1 in E1. injection E1 as <-.
  destruct (DeleteBuildResources_effect buildID ns w1)
    as (w2' & E2 & _ & P2 & C2 & X2 & V2).
  rewrite H2 in E2. injection E2 as <-.
  destruct S1 as (_ & _ & _ & _ & Hapi).
  rewrite (afterDelete_twice _ _ _ _ _ _ Hapi P1) in P2.
  rewrite (afterDelete_twice _ _ _ _ _ _ Hapi C1) in C2.
  rewrite (afterDelete_twice _ _ _ _ _ _ Hapi X1) in X2.
  rewrite (afterDelete_twice _ _ _ _ _ _ Hapi V1) in V2.
  destruct (cluster w2), (cluster w1). cbn in *. congruence.
Qed.



Lemma CreateSecretForKeystore_bad_keystore buildID projectID ns w conn
    keystore e :
  DB w = Some conn ->
  db.FirstActiveKeystore conn projectID = inl keystore ->
  snd (DecodeString (db.Keystore.KeystoreFile keystore)) = Some e ->
  CreateSecretForKeystore buildID projectID ns w
  = (Return (EmptyString, Some ("failed to decode keystore file: " +:+ e)), w).
Proof.
  intros Hdb Hq Hd. unfold CreateSecretForKeystore, bind, ask. rewrite Hdb, Hq.
  destruct (DecodeString _) as [data err]. cbn in Hd. now subst err.
Qed.

(** X20: A keystore that is not base64 fails the build: unlike a failure of
    the query, a keystore file that does not decode makes
    [CreateSecretForKeystore] return an error and change nothing, and a build
    for Android then returns an error and creates neither a Secret nor a
    pod. *)
Theorem undecodable_keystore_fails_the_build
    (config : BuildConfig.t) (w : World) (conn : db.Conn)
    (keystore : db.Keystore.t) (e : string) :
  let buildID := BuildConfig.BuildID config in
  let projectID := db.Project.ID (BuildConfig.Project config) in
  DB w = Some conn ->
  db.FirstActiveKeystore conn projectID = inl keystore ->
  snd (DecodeString (db.Keystore.KeystoreFile keystore)) = Some e ->
  (forall ns,
     CreateSecretForKeystore buildID projectID ns w
     = (Return (EmptyString, Some ("failed to decode keystore file: " +:+ e)),
        w)) /\
  (BuildConfig.Platform config = "android" ->
   forall o w',
     CreateBuildPod config w = (o, w') ->
     (exists msg, o = Return (Some msg)) /\
     secrets (cluster w') = secrets (cluster w) /\
     pods (cluster w') = pods (cluster w)).
Proof.
  cbv zeta. intros Hdb Hq Hd. split.
  { intros ns. now apply CreateSecretForKeystore_bad_keystore with conn keystore. }
  intros Hp o w' H.
  assert (Hfail : (exists msg, o = Return (Some msg)) /\
                  secrets (cluster w') = secrets (cluster w)).
  { revert H. rewrite CreateBuildPod_run. cbv zeta.
    destruct (kubernetesConfigOf w) as [kubeConfig|e0];
      [|intros [= <- <-]; eauto].
    destruct (NewForConfig w kubeConfig); [intros [= <- <-]; eauto|].
    destruct (CreatePersistentVolumeClaimForArtifacts _ _ w)
      as [[[pvcName err]|msg] w1] eqn:E1.
    2:{ exfalso. revert E1. unfold_calls. unfold bind, ret.
        rewrite apiCreate_run.
        destruct (apiFault w _); [|destruct (_ !! _)]; discriminate. }
    pose proof (CreatePersistentVolumeClaimForArtifacts_keeps secrets _ _
                  ltac:(reflexivity) _ _ _ E1) as K1.
    pose proof (CreatePersistentVolumeClaimForArtifacts_sameProcess
                  _ _ _ _ _ E1) as (_ & _ & _ & Hdb1 & _).
    destruct err; [intros [= <- <-]; eauto|].
    destruct (CreateConfigMapForEnvFiles _ _ _ w1)
      as [[[configMapName err]|msg] w2] eqn:E2.
    2:{ exfalso. revert E2. unfold_calls. unfold bind, ask, ret.
        destruct (DB w1); [|discriminate].
        destruct (db.FindEnvs _ _ _) as [? [?|]]; [discriminate|].
        destruct (_ =? _)%nat; [discriminate|].
        destruct (envFilesData _ _) as [? [?|]]; [discriminate|].
        rewrite apiCreate_run.
        destruct (apiFault w1 _); [|destruct (_ !! _)]; discriminate. }
    pose proof (CreateConfigMapForEnvFiles_keeps secrets _ _ _
                  ltac:(reflexivity) _ _ _ E2) as K2.
    pose proof (CreateConfigMapForEnvFiles_sameProcess
                  _ _ _ _ _ _ E2) as (_ & _ & _ & Hdb2 & _).
    assert (K : secrets (cluster w2) = secrets (cluster w))
      by (unfold keeps in *; congruence).
    destruct err; [intros [= <- <-]; eauto|].
    rewrite (secretStep_android _ _ Hp).
    rewrite (CreateSecretForKeystore_bad_keystore _ _ _ _ conn keystore e)
      by (congruence || assumption).
    intros [= <- <-]. eauto. }
  destruct Hfail as [[msg ->] Hsec]. split; [eauto|]. split; [exact Hsec|].
  apply (CreateBuildPod_failure_no_pod _ _ _ _ H). discriminate.
Qed.

(* ===================================================================== *)
(** * When a build is started                                             *)
(* ===================================================================== *)

Lemma CreateConfigMapForEnvFiles_succeeds buildID projectID ns w conn :
  DB w = Some conn ->
  db.fault conn (db.EnvsOfType projectID "file") = None ->
  (forall env,
     In env (fst (db.FindEnvs conn projectID "file")) ->
     snd (envFileEntry env) = None) ->
  apiFault w (requestFor Create buildID ns ConfigMaps) = None ->
  configMaps (cluster w) !! (ns, resourceName ConfigMaps buildID) = None ->
  exists n w',
    CreateConfigMapForEnvFiles buildID projectID ns w = (Return (n, None), w').
Proof.
  intros Hdb Hfault Hall Hapi Hfree.
  unfold CreateConfigMapForEnvFiles, CreateConfigMap, bind, ask, ret.
  rewrite Hdb.
  destruct (db.FindEnvs conn projectID "file") as [envs err] eqn:Hq.
  assert (err = None) as ->.
  { unfold db.FindEnvs in Hq. rewrite Hfault in Hq. now injection Hq. }
  destruct (_ =? _)%nat; [eauto|].
  destruct (envFilesData_succeeds envs ∅ Hall) as [data ->].
  rewrite apiCreate_run. cbn [v1.ObjectMeta.Name v1.ConfigMap.ObjectMeta].
  unfold requestFor, resourceName in *. rewrite Hapi, Hfree. eauto.
Qed.

Lemma CreateSecretForKeystore_succeeds buildID projectID ns w conn :
  DB w = Some conn ->
  (forall keystore,
     db.FirstActiveKeystore conn projectID = inl keystore ->
     snd (DecodeString (db.Keystore.KeystoreFile keystore)) = None) ->
  apiFault w (requestFor Create buildID ns Secrets) = None ->
  secrets (cluster w) !! (ns, resourceName Secrets buildID) = None ->
  exists n w',
    CreateSecretForKeystore buildID projectID ns w = (Return (n, None), w').
Proof.
  intros Hdb Hdec Hapi Hfree.
  unfold CreateSecretForKeystore, CreateSecret, bind, ask, ret. rewrite Hdb.
  destruct (db.FirstActiveKeystore conn projectID) as [keystore|e]; [|eauto].
  specialize (Hdec keystore eq_refl).
  destruct (DecodeString _) as [data err]. cbn in Hdec. subst err.
  rewrite apiCreate_run. cbn [v1.ObjectMeta.Name v1.Secret.ObjectMeta].
  unfold requestFor, resourceName in *. rewrite Hapi, Hfree. eauto.
Qed.

(** X21: When nothing is wrong the build is started: with a client, a database
    that answers the query for the files, files and keystore that decode,
    the four names free and none of the four requests refused,
    [CreateBuildPod] returns no error and the pod of the build is in the
    cluster. *)
Theorem CreateBuildPod_succeeds_when_nothing_is_wrong
    (config : BuildConfig.t) (w : World) (kubeConfig : rest.Config)
    (conn : db.Conn) :
  let buildID := BuildConfig.BuildID config in
  let projectID := db.Project.ID (BuildConfig.Project config) in
  let ns := namespaceOf w in
  kubernetesConfigOf w = inl kubeConfig ->
  NewForConfig w kubeConfig = None ->
  DB w = Some conn ->
  db.fault conn (db.EnvsOfType projectID "file") = None ->
  (forall env,
     In env (fst (db.FindEnvs conn projectID "file")) ->
     snd (envFileEntry env) = None) ->
  (forall keystore,
     db.FirstActiveKeystore conn projectID = inl keystore ->
     snd (DecodeString (db.Keystore.KeystoreFile keystore)) = None) ->
  namesFree buildID ns w ->
  (forall k, apiFault w (requestFor Create buildID ns k) = None) ->
  exists w' pod,
    CreateBuildPod config w = (Return None, w') /\
    pods (cluster w') !! (ns, resourceName Pods buildID) = Some pod.
Proof.
  cbv zeta. intros Hk Hn Hdb Hq Hfiles Hks (FP & FC & FS & FV) Hapi.
  pose proof (CreatePersistentVolumeClaimForArtifacts_run
                (BuildConfig.BuildID config) (namespaceOf w) w) as Hfirst.
  cbv zeta in Hfirst. rewrite (Hapi PersistentVolumeClaims), FV in Hfirst.
  destruct Hfirst as (w1 & pvc & E1 & _ & _).
  pose proof (CreatePersistentVolumeClaimForArtifacts_sameProcess _ _ _ _ _ E1)
    as S1.
  pose proof (CreatePersistentVolumeClaimForArtifacts_keeps configMaps _ _
                ltac:(reflexivity) _ _ _ E1) as KC1.
  pose proof (CreatePersistentVolumeClaimForArtifacts_keeps secrets _ _
                ltac:(reflexivity) _ _ _ E1) as KS1.
  destruct (CreateConfigMapForEnvFiles_succeeds
              (BuildConfig.BuildID config)
              (db.Project.ID (BuildConfig.Project config))
              (namespaceOf w) w1 conn) as (configMapName & w2 & E2);
    try assumption.
  { destruct S1 as (_ & _ & _ & -> & _). exact Hdb. }
  { destruct S1 as (_ & _ & _ & _ & ->). apply Hapi. }
  { unfold keeps in KC1. now rewrite KC1. }
  pose proof (CreateConfigMapForEnvFiles_sameProcess _ _ _ _ _ _ E2) as S2.
  pose proof (CreateConfigMapForEnvFiles_keeps secrets _ _ _
                ltac:(reflexivity) _ _ _ E2) as KS2.
  assert (S12 : sameProcess w w2) by (now transitivity w1).
  assert (E3 : exists secretName w3,
             secretStep config (namespaceOf w) w2
             = (Return (secretName, None), w3)).
  { unfold secretStep. destruct (String.eqb _ _); [|eauto].
    apply CreateSecretForKeystore_succeeds with conn.
    - destruct S12 as (_ & _ & _ & -> & _). exact Hdb.
    - exact Hks.
    - destruct S12 as (_ & _ & _ & _ & ->). apply Hapi.
    - unfold keeps in *. now rewrite KS2, KS1. }
  destruct E3 as (secretName & w3 & E3).
  destruct (CreateBuildPod_succeeds config w conn kubeConfig
              (resourceName PersistentVolumeClaims (BuildConfig.BuildID config))
              configMapName secretName w1 w2 w3 Hk Hn Hdb E1 E2 E3
              (Hapi Pods) FP) as [w' H].
  exists w'.
  destruct (CreateBuildPod_pod _ _ _ H)
    as (conn' & p & c & s & _ & _ & _ & Hpod).
  eauto.
Qed.

(** X22: The bytes of the keystore arrive unchanged: when the keystore file of
    the active keystore is the base64 text of some bytes, and the request is
    accepted, [CreateSecretForKeystore] creates the Secret of the build with
    exactly these bytes under keystore.jks. *)
Theorem keystore_bytes_round_trip
    (buildID projectID : N) (ns : string) (w : World) (conn : db.Conn)
    (keystore : db.Keystore.t) (bytes : string) :
  DB w = Some conn ->
  db.FirstActiveKeystore conn projectID = inl keystore ->
  db.Keystore.KeystoreFile keystore = EncodeToString bytes ->
  apiFault w (requestFor Create buildID ns Secrets) = None ->
  secrets (cluster w) !! (ns, resourceName Secrets buildID) = None ->
  exists w' secret,
    CreateSecretForKeystore buildID projectID ns w
    = (Return (resourceName Secrets buildID, None), w') /\
    secrets (cluster w') !! (ns, resourceName Secrets buildID) = Some secret /\
    v1.Secret.Data secret !! "keystore.jks" = Some bytes.
Proof.
  intros Hdb Hq Hfile Hapi Hfree.
  unfold CreateSecretForKeystore, CreateSecret, bind, ask, ret.
  rewrite Hdb, Hq, Hfile, DecodeString_EncodeToString.
  rewrite apiCreate_run. cbn [v1.ObjectMeta.Name v1.Secret.ObjectMeta].
  unfold requestFor, resourceName in *. rewrite Hapi, Hfree.
  do 2 eexists. split; [reflexivity|].
  split; [cbn; apply lookup_insert_eq|]. cbn. apply lookup_insert_eq.
Qed.

(* ===================================================================== *)
(** * The step an error names                                             *)
(* ===================================================================== *)

Lemma CreatePersistentVolumeClaimForArtifacts_outcome buildID ns w o w' :
  CreatePersistentVolumeClaimForArtifacts buildID ns w = (o, w') ->
  (exists e,
     o = Return (EmptyString, Some ("failed to create PVC: " +:+ e)) /\
     cluster w' = cluster w) \/
  (o = Return (resourceName PersistentVolumeClaims buildID, None) /\
   claimCreated buildID ns w w' /\
   pods (cluster w') = pods (cluster w) /\
   configMaps (cluster w') = configMaps (cluster w) /\
   secrets (cluster w') = secrets (cluster w)).
Proof.
  unfold CreatePersistentVolumeClaimForArtifacts, CreatePersistentVolumeClaim,
    bind, ret, claimCreated.
  rewrite apiCreate_run.
  cbn [v1.ObjectMeta.Name v1.PersistentVolumeClaim.ObjectMeta].
  unfold resourceName.
  destruct (apiFault w _); [intros [= <- <-]; left; eauto|].
  destruct (pvcs (cluster w) !! _) eqn:Hfree; intros [= <- <-];
    [left; eauto|].
  right. split; [reflexivity|]. split; [|repeat split].
  split; [reflexivity|]. eexists. reflexivity.
Qed.

Lemma CreateConfigMapForEnvFiles_error buildID projectID ns w n e w' :
  CreateConfigMapForEnvFiles buildID projectID ns w
  = (Return (n, Some e), w') ->
  cluster w' = cluster w.
Proof.
  unfold CreateConfigMapForEnvFiles, CreateConfigMap, bind, ask, ret.
  destruct (DB w); [|discriminate].
  destruct (db.FindEnvs _ _ _) as [envs [e1|]];
    [intros [= _ _ <-]; reflexivity|].
  destruct (_ =? _)%nat; [discriminate|].
  destruct (envFilesData _ _) as [data [e1|]];
    [intros [= _ _ <-]; reflexivity|].
  rewrite apiCreate_run.
  destruct (apiFault w _); [|destruct (_ !! _)]; intros [= _ _ <-];
    reflexivity.
Qed.

Lemma CreateSecretForKeystore_error buildID projectID ns w n e w' :
  CreateSecretForKeystore buildID projectID ns w
  = (Return (n, Some e), w') ->
  cluster w' = cluster w.
Proof.
  unfold CreateSecretForKeystore, CreateSecret, bind, ask, ret.
  destruct (DB w); [|discriminate].
  destruct (db.FirstActiveKeystore _ _); [|discriminate].
  destruct (DecodeString _) as [? [?|]]; [intros [= _ _ <-]; reflexivity|].
  rewrite apiCreate_run.
  destruct (apiFault w _); [|destruct (_ !! _)]; intros [= _ _ <-];
    reflexivity.
Qed.

(** X23: An error of [CreateBuildPod] names the step that failed, and the
    step tells what is in the cluster: an error of the configuration or of
    the clientset leaves the world as it was; an error that starts with
    "failed to create PVC: " leaves the cluster as it was; one that starts
    with "failed to create ConfigMap: ", "failed to create Secret: " (for
    Android only) or "failed to create pod: " comes after the claim of the
    build was created, which stays, and no pod is created; after the first
    of these there is no ConfigMap and no Secret of the build either, after
    the second no Secret. *)
Theorem CreateBuildPod_error_names_the_step
    (config : BuildConfig.t) (w w' : World) (msg : string) :
  CreateBuildPod config w = (Return (Some msg), w') ->
  let buildID := BuildConfig.BuildID config in
  let ns := namespaceOf w in
  (w' = w /\
   (kubernetesConfigOf w = inr msg \/
    exists kubeConfig e,
      kubernetesConfigOf w = inl kubeConfig /\
      NewForConfig w kubeConfig = Some e /\
      msg = "failed to create clientset: " +:+ e)) \/
  (exists e,
     msg = "failed to create PVC: failed to create PVC: " +:+ e /\
     cluster w' = cluster w) \/
  (exists e,
     msg = "failed to create ConfigMap: " +:+ e /\
     claimCreated buildID ns w w' /\
     pods (cluster w') = pods (cluster w) /\
     configMaps (cluster w') = configMaps (cluster w) /\
     secrets (cluster w') = secrets (cluster w)) \/
  (exists e,
     msg = "failed to create Secret: " +:+ e /\
     BuildConfig.Platform config = "android" /\
     claimCreated buildID ns w w' /\
     pods (cluster w') = pods (cluster w) /\
     secrets (cluster w') = secrets (cluster w)) \/
  (exists e,
     msg = "failed to create pod: " +:+ e /\
     claimCreated buildID ns w w' /\
     pods (cluster w') = pods (cluster w)).
Proof.
  intros H. cbv zeta.
  pose proof (CreateBuildPod_failure_no_pod _ _ _ _ H ltac:(discriminate))
    as Hpods.
  revert H. rewrite CreateBuildPod_run. cbv zeta.
  destruct (kubernetesConfigOf w) as [kubeConfig|e0];
    [|intros [= <- <-]; left; auto].
  destruct (NewForConfig w kubeConfig) as [e0|] eqn:Hn;
    [intros [= <- <-]; left; split; [reflexivity|]; right; eauto|].
  destruct (CreatePersistentVolumeClaimForArtifacts _ _ w)
    as [o1 w1] eqn:E1.
  destruct (CreatePersistentVolumeClaimForArtifacts_outcome _ _ _ _ _ E1)
    as [(e & -> & Hc)|(-> & Hclaim & KP & KC & KS)].
  { intros [= <- <-]. right. left. exists e. split; [|exact Hc].
    reflexivity. }
  intros H. right. right. revert H.
  assert (Hlater : forall w2,
             pvcs (cluster w2) = pvcs (cluster w1) ->
             claimCreated (BuildConfig.BuildID config) (namespaceOf w) w w2).
  { intros w2 Hp. destruct Hclaim as [Hfree [pvc Hpvc]].
    split; [exact Hfree|]. exists pvc. now rewrite Hp. }
  destruct (CreateConfigMapForEnvFiles _ _ _ w1)
    as [[[configMapName err]|msg'] w2] eqn:E2; [|discriminate].
  pose proof (CreateConfigMapForEnvFiles_keeps pvcs _ _ _
                ltac:(reflexivity) _ _ _ E2) as V2.
  pose proof (CreateConfigMapForEnvFiles_keeps secrets _ _ _
                ltac:(reflexivity) _ _ _ E2) as S2.
  unfold keeps in V2, S2.
  destruct err as [e|].
  { intros [= <- <-]. left. exists e. split; [reflexivity|].
    split; [now apply Hlater|]. split; [exact Hpods|].
    apply CreateConfigMapForEnvFiles_error in E2.
    split; congruence. }
  intros H; right; revert H.
  destruct (secretStep config (namespaceOf w) w2)
    as [[[secretName err]|msg'] w3] eqn:E3.
  2:{ exfalso. revert E3. unfold secretStep.
      destruct (String.eqb _ _); [|discriminate].
      unfold CreateSecretForKeystore, CreateSecret, bind, ask, ret.
      destruct (DB w2); [|discriminate].
      destruct (db.FirstActiveKeystore _ _); [|discriminate].
      destruct (DecodeString _) as [? [?|]]; [discriminate|].
      rewrite apiCreate_run.
      destruct (apiFault w2 _); [|destruct (_ !! _)]; discriminate. }
  pose proof (secretStep_keeps pvcs _ _ ltac:(reflexivity) _ _ _ E3) as V3.
  unfold keeps in V3.
  destruct err as [e|].
  { intros [= <- <-]. left. exists e. split; [reflexivity|].
    assert (Hp : BuildConfig.Platform config = "android").
    { unfold secretStep in E3.
      destruct (String.eqb_spec (BuildConfig.Platform config) "android");
        [assumption | discriminate]. }
    split; [exact Hp|]. split; [apply Hlater; congruence|].
    split; [exact Hpods|].
    rewrite (secretStep_android _ _ Hp) in E3.
    apply CreateSecretForKeystore_error in E3. congruence. }
  intros H; right; revert H. unfold podStep. destruct (DB w3); [|discriminate].
  destruct (CreatePod _ _ w3) as [[[e|]|msg'] w4] eqn:E4; try discriminate.
  intros [= <- <-]. exists e. split; [reflexivity|]. split; [|exact Hpods].
  apply Hlater.
  apply (CreatePod_keeps pvcs) in E4; [|reflexivity]. unfold keeps in E4.
  congruence.
Qed.

(* ===================================================================== *)
(** * These properties on the sample build                                *)
(* ===================================================================== *)


Lemma DeleteBuildResources_isolation_witness :
  exists w',
    DeleteBuildResources
      42 "default" (snd (CreateBuildPod androidBuild signedWorld))
    = (Return None, w') /\
    pods (cluster w') !! ("default", resourceName Pods 43)
    = pods (cluster (snd (CreateBuildPod androidBuild signedWorld)))
      !! ("default", resourceName Pods 43).
Proof.
  destruct (DeleteBuildResources_isolation
              42 "default" (snd (CreateBuildPod androidBuild signedWorld)))
    as (w' & Hrun & _ & _ & Hother).
  exists w'. split; [exact Hrun|].
  apply (Hother 43%N "default" Pods). lia.
Defined.

Lemma DeleteBuildResources_undoes_CreateBuildPod_witness :
  exists w2,
    DeleteBuildResources
      42 "default" (snd (CreateBuildPod androidBuild signedWorld))
    = (Return None, w2) /\
    cluster w2 = emptyCluster.
Proof.
  apply (DeleteBuildResources_undoes_CreateBuildPod
           androidBuild signedWorld
           (snd (CreateBuildPod androidBuild signedWorld))
           (fst (CreateBuildPod androidBuild signedWorld))).
  - repeat split.
  - intros k. reflexivity.
  - vm_compute. reflexivity.
Defined.

Lemma CreateBuildPod_twice_witness :
  fst (CreateBuildPod androidBuild
         (snd (CreateBuildPod androidBuild signedWorld)))
  = Return (Some ("failed to create PVC: failed to create PVC: "
                  +:+ AlreadyExists PersistentVolumeClaims
                        "build-42-artifacts")).
Proof.
  rewrite (CreateBuildPod_twice
             androidBuild signedWorld
             (snd (CreateBuildPod androidBuild signedWorld))).
  - reflexivity.
  - vm_compute. reflexivity.
Defined.

Lemma CreateBuildPod_no_rollback_witness :
  (exists pvc,
     pvcs (cluster (snd (CreateBuildPod androidBuild
                           (sampleWorld (Some outage)))))
     !! ("default", "build-42-artifacts") = Some pvc) /\
  pods (cluster (snd (CreateBuildPod androidBuild
                        (sampleWorld (Some outage))))) = ∅.
Proof.
  apply (CreateBuildPod_no_rollback
           androidBuild (sampleWorld (Some outage))
           (snd (CreateBuildPod androidBuild (sampleWorld (Some outage))))
           (fst (CreateBuildPod androidBuild (sampleWorld (Some outage))))
           (rest.mkConfig "https://kubernetes.default.svc" "token" false)).
  - reflexivity.
  - reflexivity.
  - reflexivity.
  - reflexivity.
  - vm_compute. reflexivity.
  - vm_compute. discriminate.
Defined.

Lemma CreateBuildPod_without_database_witness :
  fst (CreateBuildPod androidBuild (sampleWorld None)) = Panic nilDereference.
Proof.
  destruct (CreateBuildPod_without_database
              androidBuild (sampleWorld None)
              (snd (CreateBuildPod androidBuild (sampleWorld None)))
              (fst (CreateBuildPod androidBuild (sampleWorld None))))
    as (_ & _ & _ & _ & Hpanic).
  - reflexivity.
  - vm_compute. reflexivity.
  - apply (Hpanic (rest.mkConfig "https://kubernetes.default.svc" "token"
                                 false)); reflexivity.
Defined.


Lemma no_client_no_request_witness :
  CreateBuildPod androidBuild outsideWorld
  = (Return (Some ("failed to get in-cluster config and no external config "
                   +:+ "provided: not running in a cluster")),
     outsideWorld).
Proof.
  apply (proj1 (no_client_no_request androidBuild outsideWorld)
               "not running in a cluster").
  - reflexivity.
  - left. reflexivity.
Defined.

Lemma GetPodStatus_follows_the_pod_witness :
  fst (GetPodStatus 42 (snd (CreateBuildPod androidBuild signedWorld)))
  = Return ("Pending", None).
Proof.
  refine (f_equal fst
            (proj1 (proj2 (GetPodStatus_follows_the_pod
                             androidBuild signedWorld))
                   (snd (CreateBuildPod androidBuild signedWorld)) _ _)).
  - vm_compute. reflexivity.
  - reflexivity.
Defined.


Lemma ConfigMap_holds_the_files_witness :
  exists configMap,
    configMaps (cluster (snd (CreateConfigMapForEnvFiles
                                42 7 "default" signedWorld)))
    !! ("default", "build-42-env-files") = Some configMap /\
    v1.ConfigMap.Data configMap !! "gs::android__app__g.json" = Some "{}".
Proof.
  destruct (ConfigMap_holds_the_files
              42 7 "default" signedWorld
              (snd (CreateConfigMapForEnvFiles 42 7 "default" signedWorld))
              "build-42-env-files")
    as (conn & envs & configMap & Hdb & Hq & Hcm & _ & Hdata & _).
  - vm_compute. reflexivity.
  - discriminate.
  - exists configMap. split; [exact Hcm|]. rewrite Hdata.
    injection Hdb as <-. vm_compute in Hq. injection Hq as <-. reflexivity.
Defined.

Lemma replaceAll_replaces_single_characters_witness :
  replaceAll "a__b" "__" "/" = "a__b".
Proof.
  apply (proj2 (proj2 (proj2 (replaceAll_replaces_single_characters
                                "a__b" "__" "/")))) with "_"%char "_".
  - reflexivity.
  - reflexivity.
  - reflexivity.
  - discriminate.
Defined.

Lemma encodePath_is_clean_witness :
  encodePath "pubspec.yaml" = "pubspec.yaml".
Proof.
  apply (proj2 (proj2 (proj2 (encodePath_is_clean "pubspec.yaml"))));
    reflexivity.
Defined.

Lemma Secret_holds_the_keystore_of_the_project_witness :
  exists secret,
    secrets (cluster (snd (CreateSecretForKeystore
                             42 7 "default" signedWorld)))
    !! ("default", "build-42-keystore") = Some secret /\
    v1.Secret.StringData secret !! "key-alias" = Some "upload".
Proof.
  destruct (Secret_holds_the_keystore_of_the_project
              42 7 "default" signedWorld
              (snd (CreateSecretForKeystore 42 7 "default" signedWorld))
              "build-42-keystore")
    as (conn & keystore & data & secret & Hdb & Hin & _ & _ & _ & _ & _
        & Hsecret & _ & Hstring).
  - vm_compute. reflexivity.
  - discriminate.
  - exists secret. split; [exact Hsecret|]. rewrite Hstring.
    injection Hdb as <-. destruct Hin as [<-|[]]. reflexivity.
Defined.

Lemma pod_variables_come_from_the_project_witness :
  exists pod container,
    pods (cluster (snd (CreateBuildPod androidBuild signedWorld)))
    !! ("default", "build-42") = Some pod /\
    v1.PodSpec.Containers (v1.Pod.Spec pod) = [container] /\
    In (plainVar "API_URL" "https://api.example.org")
       (v1.Container.Env container).
Proof.
  destruct (pod_variables_come_from_the_project
              androidBuild signedWorld
              (snd (CreateBuildPod androidBuild signedWorld)))
    as (conn & pod & container & _ & Hpod & Hc & _).
  - vm_compute. reflexivity.
  - exists pod, container. split; [exact Hpod|]. split; [exact Hc|].
    vm_compute in Hpod. injection Hpod as <-. injection Hc as <-.
    cbn. auto 20.
Defined.

Lemma GetPodLogs_hides_read_errors_witness :
  GetPodLogs sampleStream 42 signedWorld
  = (Return (["Cloning repository"; "Building"], None), signedWorld).
Proof.
  destruct (GetPodLogs_hides_read_errors
              sampleStream 42 signedWorld
              (rest.mkConfig "https://kubernetes.default.svc" "token" false))
    as (_ & Hread).
  - reflexivity.
  - reflexivity.
  - destruct (Hread _ eq_refl) as (logs & Hrun & _ & _ & Hlogs).
    rewrite Hrun, Hlogs. reflexivity.
Defined.

Lemma StreamPodLogs_closes_on_success_only_witness :
  exists ch,
    fst (StreamPodLogs sampleStream 42 openChan signedWorld)
    = Return (ch, None) /\
    Chan.closed ch = true.
Proof.
  destruct (StreamPodLogs_closes_on_success_only
              sampleStream 42 openChan signedWorld
              (snd (StreamPodLogs sampleStream 42 openChan signedWorld))
              (fst (StreamPodLogs sampleStream 42 openChan signedWorld)))
    as (_ & _ & Hclosed & _).
  - vm_compute. reflexivity.
  - eexists. split; [vm_compute; reflexivity|].
    eapply Hclosed. vm_compute. reflexivity.
Defined.

Lemma DeleteBuildResources_idempotent_witness :
  cluster (snd (DeleteBuildResources
                  42 "default"
                  (snd (DeleteBuildResources 42 "default" signedWorld))))
  = cluster (snd (DeleteBuildResources 42 "default" signedWorld)).
Proof.
  apply (DeleteBuildResources_idempotent 42 "default" signedWorld).
  - vm_compute. reflexivity.
  - vm_compute. reflexivity.
Defined.


Lemma undecodable_keystore_fails_the_build_witness :
  CreateSecretForKeystore
    42 7 "default" (sampleWorld (Some (sampleConn [] [brokenKeystore])))
  = (Return (EmptyString,
             Some ("failed to decode keystore file: " +:+ CorruptInputError)),
     sampleWorld (Some (sampleConn [] [brokenKeystore]))).
Proof.
  apply (proj1 (undecodable_keystore_fails_the_build
                  androidBuild
                  (sampleWorld (Some (sampleConn [] [brokenKeystore])))
                  (sampleConn [] [brokenKeystore]) brokenKeystore
                  CorruptInputError eq_refl eq_refl eq_refl)).
Defined.

Lemma CreateBuildPod_succeeds_when_nothing_is_wrong_witness :
  exists w' pod,
    CreateBuildPod androidBuild signedWorld = (Return None, w') /\
    pods (cluster w') !! ("default", "build-42") = Some pod.
Proof.
  apply (CreateBuildPod_succeeds_when_nothing_is_wrong
           androidBuild signedWorld
           (rest.mkConfig "https://kubernetes.default.svc" "token" false)
           (sampleConn [googleServices; apiUrl] [sampleKeystore])).
  - reflexivity.
  - reflexivity.
  - reflexivity.
  - reflexivity.
  - intros env Hin. vm_compute in Hin. destruct Hin as [<-|[]]. reflexivity.
  - intros keystore Hk. vm_compute in Hk. injection Hk as <-. reflexivity.
  - repeat split.
  - intros k. reflexivity.
Defined.

Lemma keystore_bytes_round_trip_witness :
  exists w' secret,
    CreateSecretForKeystore 42 7 "default" signedWorld
    = (Return ("build-42-keystore", None), w') /\
    secrets (cluster w') !! ("default", "build-42-keystore") = Some secret /\
    v1.Secret.Data secret !! "keystore.jks"
    = Some (String (ascii_of_nat 0)
              (String (ascii_of_nat 1) (String (ascii_of_nat 2) EmptyString))).
Proof.
  apply (keystore_bytes_round_trip
           42 7 "default" signedWorld
           (sampleConn [googleServices; apiUrl] [sampleKeystore])
           sampleKeystore); reflexivity.
Defined.

Lemma CreateBuildPod_error_names_the_step_witness :
  pods (cluster (snd (CreateBuildPod androidBuild (sampleWorld (Some outage)))))
  = ∅.
Proof.
  destruct (CreateBuildPod_error_names_the_step
              androidBuild (sampleWorld (Some outage))
              (snd (CreateBuildPod androidBuild (sampleWorld (Some outage))))
              ("failed to create ConfigMap: failed to fetch environment files: "
               +:+ "connection refused"))
    as [[_ [H|(c & e & _ & H & _)]]
       |[(e & H & _)|[(e & _ & _ & H & _)
                     |[(e & H & _)|(e & H & _)]]]];
    try discriminate H.
  - vm_compute. reflexivity.
  - exact H.
Defined.
